(** * RTMP session engine of egg-media-server: a shallow embedding

    The development follows the layout of the JavaScript sources:
    - [Js]      : the JavaScript number and [Buffer] primitives the code uses;
    - [Amf]     : lib/core/amf (AMF0 / AMF3 codec);
    - [Chunk]   : the chunk codec of lib/rtmp/rtmp_session
                  (rtmpChunksCreate, rtmpChunkRead and their helpers);
    - [Session] : the session handlers and the broker registries of
                  lib/core/ctx.

    Bytes are integers in [0, 256); a [Buffer] is a list of bytes.
    JavaScript exceptions are explicit: a function that can raise returns
    a [result]. *)

From Stdlib Require Import ZArith Lia List Bool String Ascii.
From stdpp Require Import base option list gmap strings pretty.

Set Warnings "-register-all".

Local Open Scope Z_scope.

(* ===================================================================== *)
(** * JavaScript primitives *)
(* ===================================================================== *)

Module Js.

(** Exceptions raised by the runtime on the paths the code can take. *)
Inductive error :=
| RangeError   (* Buffer read / write out of range, value out of range *)
| TypeError    (* property access on null or undefined *)
| JsError      (* [throw new Error(...)] in the sources *)
| NotANumber.  (* no exception: a NaN entered the state ([x % 0]); the
                  integer model stops there *)

Inductive result (A : Type) :=
| Ok (a : A)
| Throw (e : error).
Arguments Ok {A} a.
Arguments Throw {A} e.

Definition bind {A B} (r : result A) (k : A -> result B) : result B :=
  match r with
  | Ok a => k a
  | Throw e => Throw e
  end.

Definition is_ok {A} (r : result A) : bool :=
  match r with Ok _ => true | Throw _ => false end.

(** ToInt32: the wrap-around every bitwise operator applies first. *)
Definition to_int32 (z : Z) : Z := (z + 2^31) mod 2^32 - 2^31.

Definition shl (x n : Z) : Z := to_int32 (Z.shiftl (to_int32 x) (n mod 32)).
Definition shr (x n : Z) : Z := Z.shiftr (to_int32 x) (n mod 32).
Definition band (x y : Z) : Z := to_int32 (Z.land (to_int32 x) (to_int32 y)).
Definition bor (x y : Z) : Z := to_int32 (Z.lor (to_int32 x) (to_int32 y)).

(** ** Buffer *)

Abbreviation Buffer := (list Z).

Definition alloc (n : Z) : Buffer := repeat 0 (Z.to_nat n).

Definition blen (b : Buffer) : Z := Z.of_nat (length b).

(** [buf[i]] : [undefined] out of range. *)
Definition get (b : Buffer) (i : Z) : option Z :=
  if i <? 0 then None else b !! Z.to_nat i.

(** [buf[i] = v] : the value is stored modulo 256 (an [undefined] value
    is stored as 0); a store out of range is ignored. *)
Definition set (b : Buffer) (i : Z) (v : option Z) : Buffer :=
  if i <? 0 then b
  else <[Z.to_nat i := match v with Some x => x mod 256 | None => 0 end]> b.

(** [buf.slice(a, e)] with 0 <= a; the end is clamped to the length. *)
Definition slice (b : Buffer) (a e : Z) : Buffer :=
  take (Z.to_nat (e - a)) (drop (Z.to_nat a) b).

(** [buf.slice(a)]. *)
Definition slice_from (b : Buffer) (a : Z) : Buffer := drop (Z.to_nat a) b.

(** [src.copy(target, targetStart)] : as many bytes as fit are copied;
    nothing is copied when [targetStart] is at or past the end. *)
Definition copy (src target : Buffer) (targetStart : Z) : Buffer :=
  let t := Z.to_nat targetStart in
  let n := Nat.min (length src) (length target - t) in
  take t target ++ take n src ++ drop (t + n) target.

(** The value of a little-endian byte list, and the [n] little-endian
    bytes of [v]; the big-endian forms are their reversals. *)
Fixpoint le_value (bs : list Z) : Z :=
  match bs with
  | [] => 0
  | b :: bs' => b + 256 * le_value bs'
  end.

Fixpoint le_bytes (n : nat) (v : Z) : list Z :=
  match n with
  | O => []
  | S n' => v mod 256 :: le_bytes n' (v / 256)
  end.

Definition be_value (bs : list Z) : Z := le_value (rev bs).
Definition be_bytes (n : nat) (v : Z) : list Z := rev (le_bytes n v).

Definition in_range (b : Buffer) (off n : Z) : bool :=
  (0 <=? off) && (off + n <=? blen b).

(** [buf.readUIntBE(off, n)], [readUInt8], [readUInt16BE], [readUInt32BE]. *)
Definition readUIntBE (b : Buffer) (off n : Z) : result Z :=
  if in_range b off n then Ok (be_value (slice b off (off + n)))
  else Throw RangeError.

Definition readUInt8 (b : Buffer) (off : Z) : result Z := readUIntBE b off 1.


(** [buf.writeUIntBE(v, off, n)] : raises when the value does not fit in
    [n] bytes or the field does not fit in the buffer. *)
Definition writeUIntBE (b : Buffer) (v off n : Z) : result Buffer :=
  if (0 <=? v) && (v <? 256 ^ n) && in_range b off n
  then Ok (copy (be_bytes (Z.to_nat n) v) b off)
  else Throw RangeError.

Definition writeUInt8 (b : Buffer) (v off : Z) : result Buffer :=
  writeUIntBE b v off 1.

Definition writeUInt32LE (b : Buffer) (v off : Z) : result Buffer :=
  if (0 <=? v) && (v <? 256 ^ 4) && in_range b off 4
  then Ok (copy (le_bytes 4 v) b off)
  else Throw RangeError.

End Js.

Import Js.

#[global] Instance result_ret : MRet result := @Ok.
#[global] Instance result_bind : MBind result := fun A B k r => Js.bind r k.
#[global] Instance result_fmap : FMap result := fun A B f r =>
  match r with Ok a => Ok (f a) | Throw e => Throw e end.

(* ===================================================================== *)
(** * JavaScript strings and values *)
(* ===================================================================== *)

(** A JavaScript string is kept as its UTF-8 encoding, one [ascii] per
    byte (what a string literal of this file holds).  Only well-formed
    strings are represented: no lone surrogates. *)
Module JsString.

Definition byte_of_ascii (c : ascii) : Z := Z.of_N (N_of_ascii c).
Definition ascii_of_byte (z : Z) : ascii := ascii_of_N (Z.to_N z).

(** [Buffer.from(str, 'utf8')]. *)
Definition utf8 (s : string) : Buffer :=
  map byte_of_ascii (list_ascii_of_string s).

Definition of_bytes (b : Buffer) : string :=
  string_of_list_ascii (map ascii_of_byte b).

(** [str.length]: the number of UTF-16 code units.  A continuation byte
    counts for nothing, the lead byte of a 4-byte sequence for two (a
    surrogate pair), every other byte for one. *)
Definition units (b : Z) : Z :=
  if b <? 0x80 then 1 else if b <? 0xC0 then 0 else if b <? 0xF0 then 1 else 2.

Definition js_length (s : string) : Z :=
  fold_right (fun b n => units b + n) 0 (utf8 s).

(** The UTF-8 decoder behind [buf.toString('utf8')] replaces every
    maximal ill-formed subsequence by U+FFFD (EF BF BD); a well-formed
    sequence comes out as it is.  The state is the bytes of the sequence
    in progress, the number of bytes it still needs and the bounds of
    the next byte. *)
Definition FFFD : Buffer := [0xEF; 0xBF; 0xBD].

Record dstate := { pending : Buffer; needed : Z; lower : Z; upper : Z }.

Definition dstate0 : dstate :=
  {| pending := []; needed := 0; lower := 0x80; upper := 0xBF |}.

(** A byte read when no sequence is in progress. *)
Definition lead (b : Z) : Buffer * dstate :=
  if b <? 0x80 then ([b], dstate0)
  else if (0xC2 <=? b) && (b <=? 0xDF) then
    ([], {| pending := [b]; needed := 1; lower := 0x80; upper := 0xBF |})
  else if (0xE0 <=? b) && (b <=? 0xEF) then
    ([], {| pending := [b]; needed := 2;
            lower := if b =? 0xE0 then 0xA0 else 0x80;
            upper := if b =? 0xED then 0x9F else 0xBF |})
  else if (0xF0 <=? b) && (b <=? 0xF4) then
    ([], {| pending := [b]; needed := 3;
            lower := if b =? 0xF0 then 0x90 else 0x80;
            upper := if b =? 0xF4 then 0x8F else 0xBF |})
  else (FFFD, dstate0).

Fixpoint decode (bs : Buffer) (st : dstate) : Buffer :=
  match bs with
  | [] => if needed st =? 0 then [] else FFFD
  | b :: rest =>
      if needed st =? 0 then
        let '(out, st') := lead b in out ++ decode rest st'
      else if (lower st <=? b) && (b <=? upper st) then
        if needed st =? 1 then pending st ++ [b] ++ decode rest dstate0
        else decode rest {| pending := pending st ++ [b];
                            needed := needed st - 1;
                            lower := 0x80; upper := 0xBF |}
      else
        let '(out, st') := lead b in FFFD ++ out ++ decode rest st'
  end.

(** [buf.toString('utf8')]. *)
Definition toString (b : Buffer) : string := of_bytes (decode b dstate0).

Definition is_ascii (s : string) : Prop :=
  Forall (fun b => b < 0x80) (utf8 s).

(** Well-formed UTF-8: the decoder has nothing to replace. *)
Definition well_formed (s : string) : Prop := toString (utf8 s) = s.

End JsString.

Import JsString.

Module JsVal.

(** The values the AMF codec handles.  A number is the 64-bit pattern
    of its IEEE-754 representation, the eight bytes [writeDoubleBE]
    stores (one pattern for NaN).  An object is the list of its own
    enumerable properties in enumeration order; an array is its
    elements and whether [amf0markSArray] marked it; a [Date] object has
    no enumerable property. *)
Inductive jsval :=
| JUndefined
| JNull
| JBool (b : bool)
| JNumber (bits : Z)
| JString (s : string)
| JObject (props : list (string * jsval))
| JArray (sarray : bool) (elems : list jsval)
| JDate (bits : Z).

(** The pattern of the double that holds the integer [v], for
    [|v| < 2^53]. *)
Definition double_of_int (v : Z) : Z :=
  if v =? 0 then 0
  else
    let a := Z.abs v in
    let e := Z.log2 a in
    (if v <? 0 then 2 ^ 63 else 0)
    + (e + 1023) * 2 ^ 52
    + (a * 2 ^ (52 - e) - 2 ^ 52).

(** [String(n)] for an array index. *)
Definition index_key (n : N) : string := pretty n.

(** The array index a property name denotes, if any: a canonical
    decimal numeral below 2^32 - 1. *)
Definition digit (c : ascii) : option N :=
  let n := N_of_ascii c in
  if (48 <=? n)%N && (n <=? 57)%N then Some (n - 48)%N else None.

Fixpoint digits (s : string) (acc : N) : option N :=
  match s with
  | EmptyString => Some acc
  | String c s' =>
      match digit c with
      | Some d => digits s' (10 * acc + d)%N
      | None => None
      end
  end.

Definition array_index (k : string) : option N :=
  match k with
  | EmptyString => None
  | _ =>
      match digits k 0 with
      | Some n =>
          if String.eqb (index_key n) k && (n <? 4294967295)%N
          then Some n else None
      | None => None
      end
  end.

(** [o[k]] and [o.hasOwnProperty(k)]. *)
Fixpoint get_prop (props : list (string * jsval)) (k : string) : option jsval :=
  match props with
  | [] => None
  | (k', v) :: props' => if String.eqb k' k then Some v else get_prop props' k
  end.

(** [o[k] = v] on an ordinary object.  A present property keeps its
    place; a new array index goes among the array indices, which are
    enumerated first in ascending order; any other new name goes last.
    An assignment to [__proto__] adds no property. *)
Fixpoint replace_prop (props : list (string * jsval)) (k : string) (v : jsval)
    : list (string * jsval) :=
  match props with
  | [] => []
  | (k', v') :: props' =>
      if String.eqb k' k then (k', v) :: props'
      else (k', v') :: replace_prop props' k v
  end.

Fixpoint insert_index (props : list (string * jsval)) (n : N) (k : string)
    (v : jsval) : list (string * jsval) :=
  match props with
  | [] => [(k, v)]
  | (k', v') :: props' =>
      match array_index k' with
      | Some n' =>
          if (n' <? n)%N then (k', v') :: insert_index props' n k v
          else (k, v) :: props
      | None => (k, v) :: props
      end
  end.

Definition set_prop (props : list (string * jsval)) (k : string) (v : jsval)
    : list (string * jsval) :=
  if String.eqb k "__proto__" then props
  else match get_prop props k with
       | Some _ => replace_prop props k v
       | None =>
           match array_index k with
           | Some n => insert_index props n k v
           | None => props ++ [(k, v)]
           end
       end.

End JsVal.

Import JsVal.
(* ===================================================================== *)
(** * lib/core/amf : the AMF3 UInt29 codec *)
(* ===================================================================== *)

Module Amf3.

(** [amf3encUI29]: the four [if]s are sequential (there is no [else]),
    so the last one whose test holds decides [len]. *)
Definition ui29_len (num : Z) : Z :=
  let len := 0 in
  let len := if num <? 0x80 then 1 else len in
  let len := if num <? 0x4000 then 2 else len in
  let len := if num <? 0x200000 then 3 else len in
  let len := if 0x200000 <=? num then 4 else len in
  len.

Definition amf3encUI29 (num : Z) : result Buffer :=
  let len := ui29_len num in
  let buf := alloc len in
  match len with
  | 1 => writeUInt8 buf num 0
  | 2 =>
      buf ← writeUInt8 buf (band num 0x7F) 0;
      writeUInt8 buf (bor (shr num 7) 0x80) 1
  | 3 =>
      buf ← writeUInt8 buf (band num 0x7F) 0;
      buf ← writeUInt8 buf (band (shr num 7) 0x7F) 1;
      writeUInt8 buf (bor (shr num 14) 0x80) 2
  | 4 =>
      buf ← writeUInt8 buf (band num 0xFF) 0;
      buf ← writeUInt8 buf (band (shr num 8) 0x7F) 1;
      buf ← writeUInt8 buf (bor (shr num 15) 0x7F) 2;
      writeUInt8 buf (bor (shr num 22) 0x7F) 3
  | _ => Ok buf
  end.

(** [amf3encInteger]. *)
Definition amf3encInteger (num : Z) : result Buffer :=
  body ← amf3encUI29 (band num 0x3FFFFFFF);
  Ok (0x4 :: body).

Record decoded := { len : Z; value : Z }.

(** The do-while loop of [amf3decUI29], over the bytes from index [len]
    on: [b = buf.readUInt8(len++)] raises at the end of the buffer; the
    loop goes on while [len < 5 || b > 0x7F]. *)
Fixpoint ui29_loop (rest : list Z) (val len : Z) : result (Z * Z * Z) :=
  match rest with
  | [] => Throw RangeError
  | b :: rest' =>
      let len' := len + 1 in
      let val' := shl val 7 + band b 0x7F in
      if (len' <? 5) || (0x7F <? b) then ui29_loop rest' val' len'
      else Ok (val', len', b)
  end.

Definition amf3decUI29 (buf : Buffer) : result decoded :=
  r ← ui29_loop (slice_from buf 1) 0 1;
  let '(val, len, b) := r in
  let val := if len =? 5 then bor val b else val in
  Ok {| len := len; value := val |}.

(** [amf3decInteger]. *)
Definition amf3decInteger (buf : Buffer) : result decoded :=
  resp ← amf3decUI29 buf;
  if 0x0FFFFFFF <? value resp
  then Ok {| len := len resp; value := band (value resp) 0x0FFFFFFF - 0x10000000 |}
  else Ok resp.

End Amf3.


(* ===================================================================== *)
(** * lib/core/amf : AMF0 *)
(* ===================================================================== *)

Module Amf0.

(** A decoder returns [{ len, value }]. *)
Record decoded := { len : Z; value : jsval }.

(** A computation that may run out of turns ([None]) before it returns
    or raises. *)
Definition fr (A : Type) : Type := option (result A).

#[global] Instance fr_ret : MRet fr := fun A a => Some (Ok a).
#[global] Instance fr_bind : MBind fr := fun A B k m =>
  match m with
  | None => None
  | Some (Throw e) => Some (Throw e)
  | Some (Ok a) => k a
  end.

#[global] Instance fr_fmap : FMap fr := fun A B f m =>
  match m with
  | None => None
  | Some r => Some (f <$> r)
  end.

Definition lift {A} (r : result A) : fr A := Some r.
Definition raise {A} (e : error) : fr A := Some (Throw e).

(** [amfType(o)]; ['integer'] and ['double'] select the same AMF0
    encoder and are one tag here. *)
Inductive amf_type :=
| T_null | T_undefined | T_number | T_true | T_false | T_string
| T_sarray | T_array | T_object.

Definition amfType (o : jsval) : amf_type :=
  match o with
  | JNull => T_null
  | JUndefined => T_undefined
  | JNumber _ => T_number
  | JBool b => if b then T_true else T_false
  | JString _ => T_string
  | JArray sarray _ => if sarray then T_sarray else T_array
  | JObject _ => T_object
  | JDate _ => T_object
  end.

(** ** Encoders *)

(** [buf.writeDoubleBE(num, off)] into a fresh field. *)
Definition double_bytes (bits : Z) : Buffer := be_bytes 8 bits.

Definition amf0encNumber (num : Z) : result Buffer :=
  Ok (0x00 :: double_bytes num).

Definition amf0encBool (num : bool) : result Buffer :=
  Ok [0x01; if num then 1 else 0].

Definition amf0encNull : result Buffer := Ok [0x05].
Definition amf0encUndefined : result Buffer := Ok [0x06].

Definition amf0encDate (ts : Z) : result Buffer :=
  Ok ([0x0B; 0; 0] ++ double_bytes ts).

Definition amf0encRef (index : Z) : result Buffer :=
  let buf := alloc 3 in
  buf ← writeUInt8 buf 0x07 0;
  writeUIntBE buf index 1 2.

(** [amf0encUString]: the length written is that of the UTF-8 data. *)
Definition amf0encUString (str : string) : result Buffer :=
  let data := utf8 str in
  sLen ← writeUIntBE (alloc 2) (blen data) 0 2;
  Ok (sLen ++ data).

(** [amf0encString]: the length written is [str.length]. *)
Definition amf0encString (str : string) : result Buffer :=
  let buf := alloc 3 in
  buf ← writeUInt8 buf 0x02 0;
  buf ← writeUIntBE buf (js_length str) 1 2;
  Ok (buf ++ utf8 str).

Definition amf0encLongString (str : string) : result Buffer :=
  let buf := alloc 5 in
  buf ← writeUInt8 buf 0x0C 0;
  buf ← writeUIntBE buf (js_length str) 1 4;
  Ok (buf ++ utf8 str).

Definition amf0encXmlDoc (str : string) : result Buffer :=
  let buf := alloc 3 in
  buf ← writeUInt8 buf 0x0F 0;
  buf ← writeUIntBE buf (js_length str) 1 2;
  Ok (buf ++ utf8 str).

(** The loops of [amf0encObject] and [amf0encSArray] over the members,
    given the encoder of one value. *)
Section Members.
Variable amf0EncodeOne : jsval -> result Buffer.

(** [for (k in o) data = Buffer.concat([data, amf0encUString(k),
    amf0EncodeOne(o[k])])]. *)
Fixpoint encProps (data : Buffer) (props : list (string * jsval))
    : result Buffer :=
  match props with
  | [] => Ok data
  | (k, v) :: props' =>
      ks ← amf0encUString k;
      vs ← amf0EncodeOne v;
      encProps (data ++ ks ++ vs) props'
  end.

(** The same loop over the own properties of an array: the indices
    in ascending order, as [for (k in a)] enumerates them. *)
Fixpoint encIndexed (data : Buffer) (i : N) (elems : list jsval)
    : result Buffer :=
  match elems with
  | [] => Ok data
  | v :: elems' =>
      ks ← amf0encUString (index_key i);
      vs ← amf0EncodeOne v;
      encIndexed (data ++ ks ++ vs) (i + 1)%N elems'
  end.

(** [for (i = 0; i < a.length; i++) buf = Buffer.concat([buf,
    amf0EncodeOne(a[i])])]. *)
Fixpoint encElems (buf : Buffer) (elems : list jsval) : result Buffer :=
  match elems with
  | [] => Ok buf
  | v :: elems' =>
      vs ← amf0EncodeOne v;
      encElems (buf ++ vs) elems'
  end.
End Members.

(** The end of [amf0encObject]: the empty name and the end marker. *)
Definition encObjectEnd (data : Buffer) : result Buffer :=
  es ← amf0encUString EmptyString;
  Ok (data ++ es ++ [0x09]).

(** [amf0EncodeOne(o)]: [amfXEncodeOne(amf0eRules, o)] with the encoder
    the rules give for [amfType(o)]. *)
Fixpoint amf0EncodeOne (o : jsval) : result Buffer :=
  match o with
  | JNull => amf0encNull
  | JUndefined => amf0encUndefined
  | JNumber bits => amf0encNumber bits
  | JBool b => amf0encBool b
  | JString s => amf0encString s
  | JObject props =>
      (* amf0encObject *)
      data ← encProps amf0EncodeOne [0x03] props;
      encObjectEnd data
  | JDate _ =>
      (* amf0encObject, nothing to enumerate *)
      encObjectEnd [0x03]
  | JArray false elems =>
      (* amf0encArray: the count, then the body of amf0encObject(a) *)
      buf ← writeUInt8 (alloc 5) 8 0;
      buf ← writeUIntBE buf (Z.of_nat (length elems)) 1 4;
      data ← encIndexed amf0EncodeOne [0x03] 0%N elems;
      data ← encObjectEnd data;
      Ok (buf ++ slice_from data 1)
  | JArray true elems =>
      (* amf0encSArray *)
      buf ← writeUInt8 (alloc 5) 0x0A 0;
      buf ← writeUIntBE buf (Z.of_nat (length elems)) 1 4;
      encElems amf0EncodeOne buf elems
  end.

(** ** Decoders *)

Definition amf0decNumber (buf : Buffer) : result decoded :=
  v ← readUIntBE buf 1 8; Ok {| len := 9; value := JNumber v |}.

Definition amf0decBool (buf : Buffer) : result decoded :=
  v ← readUInt8 buf 1; Ok {| len := 2; value := JBool (negb (v =? 0)) |}.

Definition amf0decNull : result decoded := Ok {| len := 1; value := JNull |}.
Definition amf0decUndefined : result decoded := Ok {| len := 1; value := JUndefined |}.

Definition amf0decDate (buf : Buffer) : result decoded :=
  ts ← readUIntBE buf 3 8; Ok {| len := 11; value := JNumber ts |}.

Definition amf0decRef (buf : Buffer) : result decoded :=
  index ← readUIntBE buf 1 2;
  Ok {| len := 3; value := JString ("ref" ++ pretty index) |}.

(** [amf0decString] (and [amf0decXmlDoc], the same code), returning the
    string. *)
Definition amf0decString (buf : Buffer) : result (Z * string) :=
  sLen ← readUIntBE buf 1 2;
  Ok (3 + sLen, toString (slice buf 3 (3 + sLen))).

Definition amf0decUString (buf : Buffer) : result (Z * string) :=
  sLen ← readUIntBE buf 0 2;
  Ok (2 + sLen, toString (slice buf 2 (2 + sLen))).

Definition amf0decLongString (buf : Buffer) : result decoded :=
  sLen ← readUIntBE buf 1 4;
  Ok {| len := 5 + sLen; value := JString (toString (slice buf 5 (5 + sLen))) |}.

(** [amf0decSwitchAmf3]: the AMF3 rules on the rest of the buffer.  The
    AMF3 string, XML and byte-array decoders apply [&] and [>>] to the
    object [amf3decUI29] returns and always raise; [amf3decObject]
    returns an object without [len], and [amf3decArray] adds that
    missing [len] to a number: the lengths are then NaN. *)
Definition amf3DecodeOne (buffer : Buffer) : result (option decoded) :=
  marker ← readUInt8 buffer 0;
  if marker =? 0x00 then Ok (Some {| len := 1; value := JUndefined |})
  else if marker =? 0x01 then Ok (Some {| len := 1; value := JNull |})
  else if marker =? 0x02 then Ok (Some {| len := 1; value := JBool false |})
  else if marker =? 0x03 then Ok (Some {| len := 1; value := JBool true |})
  else if marker =? 0x04 then
    r ← Amf3.amf3decInteger buffer;
    Ok (Some {| len := Amf3.len r; value := JNumber (double_of_int (Amf3.value r)) |})
  else if marker =? 0x05 then
    v ← readUIntBE buffer 1 8; Ok (Some {| len := 9; value := JNumber v |})
  else if (marker =? 0x06) || (marker =? 0x07) || (marker =? 0x0B)
          || (marker =? 0x0C) then
    _ ← Amf3.amf3decUI29 buffer; Throw JsError
  else if marker =? 0x08 then
    uTz ← Amf3.amf3decUI29 buffer;
    ts ← readUIntBE buffer (Amf3.len uTz) 8;
    Ok (Some {| len := Amf3.len uTz + 8; value := JNumber ts |})
  else if marker =? 0x09 then
    count ← Amf3.amf3decUI29 (slice_from buffer 1);
    if Z.rem (Amf3.value count) 2 =? 1 then Throw JsError else Throw NotANumber
  else if marker =? 0x0A then Throw NotANumber
  else Ok None.

(** [amfXDecodeOne(amf0dRules, buffer)] and the decoders that call it
    back.  An unknown marker makes it return [null] ([Ok None]); the
    callers read [.value] and [.len] of the result, a [TypeError] on
    [null].  Every call and every turn of a loop takes one unit of
    [fuel]. *)
Fixpoint amf0DecodeOne (fuel : nat) (buffer : Buffer) : fr (option decoded) :=
  match fuel with
  | O => None
  | S fuel =>
      marker ← lift (readUInt8 buffer 0);
      if marker =? 0x00 then lift (Some <$> amf0decNumber buffer)
      else if marker =? 0x01 then lift (Some <$> amf0decBool buffer)
      else if marker =? 0x02 then
        r ← lift (amf0decString buffer);
        mret (Some {| len := r.1; value := JString r.2 |})
      else if marker =? 0x03 then
        Some <$> amf0decObject fuel buffer
      else if marker =? 0x05 then lift (Some <$> amf0decNull)
      else if marker =? 0x06 then lift (Some <$> amf0decUndefined)
      else if marker =? 0x07 then lift (Some <$> amf0decRef buffer)
      else if marker =? 0x08 then
        (* amf0decArray *)
        obj ← amf0decObject fuel (slice_from buffer 4);
        mret (Some {| len := 5 + len obj; value := value obj |})
      else if marker =? 0x0A then
        (* amf0decSArray *)
        count ← lift (readUIntBE buffer 1 4);
        r ← amf0decSArray_loop fuel buffer count [] 5;
        mret (Some {| len := r.2; value := JArray true r.1 |})
      else if marker =? 0x0B then lift (Some <$> amf0decDate buffer)
      else if marker =? 0x0C then lift (Some <$> amf0decLongString buffer)
      else if marker =? 0x0F then
        r ← lift (amf0decString buffer);
        mret (Some {| len := r.1; value := JString r.2 |})
      else if marker =? 0x10 then
        (* amf0decTypedObj *)
        className ← lift (amf0decString buffer);
        obj ← amf0decObject fuel (slice_from buffer (className.1 - 1));
        match value obj with
        | JObject props =>
            mret (Some {| len := className.1 + len obj - 1;
                          value := JObject (set_prop props "__className__"
                                              (JString className.2)) |})
        | _ => raise TypeError
        end
      else if marker =? 0x11 then lift (amf3DecodeOne (slice_from buffer 1))
      else mret None
  end

(** [amf0decObject(buf)]: the loop starts at [buf.slice(1)] with
    [len = 1]. *)
with amf0decObject (fuel : nat) (buf : Buffer) : fr decoded :=
  match fuel with
  | O => None
  | S fuel => amf0decObject_loop fuel [] (slice_from buf 1) 1
  end

(** One test of [while (iBuf.readUInt8(0) !== 0x09)] and the body. *)
with amf0decObject_loop (fuel : nat) (obj : list (string * jsval))
    (iBuf : Buffer) (len : Z) : fr decoded :=
  match fuel with
  | O => None
  | S fuel =>
      b ← lift (readUInt8 iBuf 0);
      if b =? 0x09 then mret {| len := len; value := JObject obj |}
      else
        prop ← lift (amf0decUString iBuf);
        let len := len + prop.1 in
        if blen iBuf <? prop.1 then mret {| len := len; value := JObject obj |}
        else
          b ← lift (readUInt8 (slice_from iBuf prop.1) 0);
          if b =? 0x09 then mret {| len := len + 1; value := JObject obj |}
          else if String.eqb prop.2 EmptyString then mret {| len := len; value := JObject obj |}
          else
            val ← amf0DecodeOne fuel (slice_from iBuf prop.1);
            match val with
            | None => raise TypeError
            | Some val =>
                amf0decObject_loop fuel (set_prop obj prop.2 (value val))
                  (slice_from iBuf (prop.1 + Amf0.len val))
                  (len + Amf0.len val)
            end
  end

(** [for (let count = ...; count; count--)]. *)
with amf0decSArray_loop (fuel : nat) (buf : Buffer) (count : Z)
    (a : list jsval) (len : Z) : fr (list jsval * Z) :=
  match fuel with
  | O => None
  | S fuel =>
      if count =? 0 then mret (a, len)
      else
        ret ← amf0DecodeOne fuel (slice_from buf len);
        match ret with
        | None => raise TypeError
        | Some ret =>
            amf0decSArray_loop fuel buf (count - 1) (a ++ [value ret])
              (len + Amf0.len ret)
        end
  end.

(** ** Command messages *)

Definition rtmpCmdCode : list (string * list string) :=
  [ ("_result", ["transId"; "cmdObj"; "info"]);
    ("_error", ["transId"; "cmdObj"; "info"; "streamId"]);
    ("onStatus", ["transId"; "cmdObj"; "info"]);
    ("releaseStream", ["transId"; "cmdObj"; "streamName"]);
    ("getStreamLength", ["transId"; "cmdObj"; "streamId"]);
    ("getMovLen", ["transId"; "cmdObj"; "streamId"]);
    ("FCPublish", ["transId"; "cmdObj"; "streamName"]);
    ("FCUnpublish", ["transId"; "cmdObj"; "streamName"]);
    ("onFCPublish", ["transId"; "cmdObj"; "info"]);
    ("connect", ["transId"; "cmdObj"; "args"]);
    ("call", ["transId"; "cmdObj"; "args"]);
    ("createStream", ["transId"; "cmdObj"]);
    ("close", ["transId"; "cmdObj"]);
    ("play", ["transId"; "cmdObj"; "streamName"; "start"; "duration"; "reset"]);
    ("play2", ["transId"; "cmdObj"; "params"]);
    ("deleteStream", ["transId"; "cmdObj"; "streamId"]);
    ("closeStream", ["transId"; "cmdObj"]);
    ("receiveAudio", ["transId"; "cmdObj"; "bool"]);
    ("receiveVideo", ["transId"; "cmdObj"; "bool"]);
    ("publish", ["transId"; "cmdObj"; "streamName"; "type"]);
    ("seek", ["transId"; "cmdObj"; "ms"]);
    ("pause", ["transId"; "cmdObj"; "pause"; "ms"]) ]%string.

Definition rtmpDataCode : list (string * list string) :=
  [ ("@setDataFrame", ["method"; "dataObj"]);
    ("onMetaData", ["dataObj"]);
    ("|RtmpSampleAccess", ["bool1"; "bool2"]) ]%string.

(** The names every object literal inherits from [Object.prototype].
    [table[name]] is then a function (or the prototype), which is truthy
    and has no [forEach]. *)
Definition inherited : list string :=
  [ "constructor"; "hasOwnProperty"; "isPrototypeOf"; "propertyIsEnumerable";
    "toLocaleString"; "toString"; "valueOf"; "__defineGetter__";
    "__defineSetter__"; "__lookupGetter__"; "__lookupSetter__";
    "__proto__" ]%string.

Fixpoint assoc (table : list (string * list string)) (k : string)
    : option (list string) :=
  match table with
  | [] => None
  | (k', v) :: table' => if String.eqb k' k then Some v else assoc table' k
  end.

(** The property name [table[cmd]] looks up: [cmd] converted to a
    string.  [Ok None] stands for a string that is the name of no schema
    and of no inherited member: what [undefined], [null], a boolean, a
    number or a Date give, the string of an array that has not exactly
    one element (empty, or with commas) and [[object Object]].  An
    array of one element gives the string of that element (the empty
    string for [null] and [undefined]).  An object with an own
    [toString] property, which is data and cannot be called, raises. *)
Fixpoint property_key (cmd : jsval) : result (option string) :=
  match cmd with
  | JString name => Ok (Some name)
  | JArray _ [JUndefined] | JArray _ [JNull] => Ok None
  | JArray _ [x] => property_key x
  | JObject props =>
      match get_prop props "toString" with
      | Some _ => Throw TypeError
      | None => Ok None
      end
  | _ => Ok None
  end.

(** [table[cmd]] for a decoded or given [cmd]: [Ok None] when it is
    falsy (unknown command), [Ok (Some names)] for a schema; the
    [forEach] on an inherited member raises. *)
Definition schema (table : list (string * list string)) (cmd : jsval)
    : result (option (list string)) :=
  key ← property_key cmd;
  match key with
  | Some name =>
      match assoc table name with
      | Some names => Ok (Some names)
      | None =>
          if existsb (String.eqb name) inherited then Throw TypeError
          else Ok None
      end
  | None => Ok None
  end.

(** [opt.cmd]: [undefined] when absent. *)
Definition prop_or_undefined (props : list (string * jsval)) (k : string) : jsval :=
  default JUndefined (get_prop props k).

Fixpoint encodeFields (opt : list (string * jsval)) (data : Buffer)
    (names : list string) : result Buffer :=
  match names with
  | [] => Ok data
  | n :: names' =>
      match get_prop opt n with
      | Some v => vs ← amf0EncodeOne v; encodeFields opt (data ++ vs) names'
      | None => encodeFields opt data names'
      end
  end.

(** [encodeAMF0Cmd(opt)] and [encodeAMF0Data(opt)], on the properties of
    [opt]. *)
Definition encodeWith (table : list (string * list string))
    (opt : list (string * jsval)) : result Buffer :=
  let cmd := prop_or_undefined opt "cmd" in
  data ← amf0EncodeOne cmd;
  names ← schema table cmd;
  match names with
  | Some names => encodeFields opt data names
  | None => Ok data
  end.

Definition encodeAmf0Cmd := encodeWith rtmpCmdCode.
Definition encodeAmf0Data := encodeWith rtmpDataCode.

Fixpoint decodeFields (fuel : nat) (resp : list (string * jsval))
    (buffer : Buffer) (names : list string) : fr (list (string * jsval)) :=
  match names with
  | [] => mret resp
  | n :: names' =>
      if 0 <? blen buffer then
        r ← amf0DecodeOne fuel buffer;
        match r with
        | None => raise TypeError
        | Some r =>
            decodeFields fuel (set_prop resp n (value r))
              (slice_from buffer (len r)) names'
        end
      else decodeFields fuel resp buffer names'
  end.

(** [decodeAMF0Cmd(dbuf)] and [decodeAmf0Data(dbuf)]: the properties of
    the response object. *)
Definition decodeWith (table : list (string * list string)) (fuel : nat)
    (dbuf : Buffer) : fr (list (string * jsval)) :=
  cmd ← amf0DecodeOne fuel dbuf;
  match cmd with
  | None => raise TypeError
  | Some cmd =>
      let resp := set_prop [] "cmd" (value cmd) in
      let buffer := slice_from dbuf (len cmd) in
      names ← lift (schema table (value cmd));
      match names with
      | Some names => decodeFields fuel resp buffer names
      | None => mret resp
      end
  end.

Definition decodeAmf0Cmd := decodeWith rtmpCmdCode.
Definition decodeAmf0Data := decodeWith rtmpDataCode.

End Amf0.

(* ===================================================================== *)
(** * lib/rtmp/rtmp_session : the chunk codec *)
(* ===================================================================== *)

Module Header.
Record t := mk {
  fmt : Z;
  cid : Z;
  timestamp : Z;
  length : Z;
  type : Z;
  stream_id : Z;
}.
End Header.

Module RtmpPacket.
Record t := mk {
  header : Header.t;
  clock : Z;
  delta : Z;
  payload : option Buffer;   (* [null] until allocated *)
  capacity : Z;
  bytes : Z;
}.
(** [RtmpPacket.create(fmt = 0, cid = 0)]. *)
Definition create (fmt cid : Z) : t :=
  mk (Header.mk fmt cid 0 0 0 0) 0 0 None 0 0.

End RtmpPacket.

Module Chunk.

Definition RTMP_CHUNK_TYPE_0 := 0.
Definition RTMP_CHUNK_TYPE_1 := 1.
Definition RTMP_CHUNK_TYPE_2 := 2.
Definition RTMP_CHUNK_TYPE_3 := 3.

Definition MAX_CHUNK_HEADER := 18.
Definition RTMP_CHUNK_SIZE := 128.


(** [rtmpHeaderSize = [ 11, 7, 3, 0 ]]; [undefined] at any other index. *)
Definition rtmpHeaderSize (i : Z) : option Z := [11; 7; 3; 0] !! Z.to_nat i.

(** ** Encoder *)

(** [rtmpChunkBasicHeaderCreate(fmt, cid)]. *)
Definition rtmpChunkBasicHeaderCreate (fmt cid : Z) : Buffer :=
  if 64 + 255 <=? cid then
    let out := alloc 3 in
    let out := set out 0 (Some (bor (shl fmt 6) 1)) in
    let out := set out 1 (Some (band (cid - 64) 0xFF)) in
    let out := set out 2 (Some (band (shr (cid - 64) 8) 0xFF)) in
    out
  else if 64 <=? cid then
    let out := alloc 2 in
    let out := set out 0 (Some (bor (shl fmt 6) 0)) in
    let out := set out 1 (Some (band (cid - 64) 0xFF)) in
    out
  else
    let out := alloc 1 in
    let out := set out 0 (Some (bor (shl fmt 6) cid)) in
    out.

(** [rtmpChunkMessageHeaderCreate(header)], for [header.fmt >= 0]. *)
Definition rtmpChunkMessageHeaderCreate (h : Header.t) : result Buffer :=
  match rtmpHeaderSize (Header.fmt h mod 4) with
  | None => Throw TypeError
  | Some size =>
      let out := alloc size in
      out ← (if Header.fmt h <=? RTMP_CHUNK_TYPE_2
             then writeUIntBE out
                    (if 0xffffff <=? Header.timestamp h then 0xffffff
                     else Header.timestamp h) 0 3
             else Ok out);
      out ← (if Header.fmt h <=? RTMP_CHUNK_TYPE_1
             then out ← writeUIntBE out (Header.length h) 3 3;
                  writeUInt8 out (Header.type h) 6
             else Ok out);
      if Header.fmt h =? RTMP_CHUNK_TYPE_0
      then writeUInt32LE out (Header.stream_id h) 7
      else Ok out
  end.

(** The [while (payloadSize > 0)] loop of [rtmpChunksCreate].  With
    [chunkSize >= 1] every turn takes at least one byte off
    [payloadSize], so [payloadSize] turns are enough; the caller passes
    that many. *)
Fixpoint chunks_loop (turns : nat) (payload : option Buffer)
    (chunkBasicHeader3 : Buffer) (useExtendedTimestamp : bool)
    (timestamp chunkSize : Z)
    (chunks : Buffer) (payloadSize chunksOffset payloadOffset : Z)
    : result Buffer :=
  match turns with
  | O => Ok chunks
  | S turns' =>
      if 0 <? payloadSize then
        match payload with
        | None => Throw TypeError
        | Some pl =>
            if chunkSize <? payloadSize then
              let chunks :=
                copy (slice pl payloadOffset (payloadOffset + chunkSize))
                     chunks chunksOffset in
              let payloadSize := payloadSize - chunkSize in
              let chunksOffset := chunksOffset + chunkSize in
              let payloadOffset := payloadOffset + chunkSize in
              let chunks := copy chunkBasicHeader3 chunks chunksOffset in
              let chunksOffset := chunksOffset + blen chunkBasicHeader3 in
              if useExtendedTimestamp then
                chunks ← writeUIntBE chunks timestamp chunksOffset 4;
                chunks_loop turns' payload chunkBasicHeader3
                  useExtendedTimestamp timestamp chunkSize
                  chunks payloadSize (chunksOffset + 4) payloadOffset
              else
                chunks_loop turns' payload chunkBasicHeader3
                  useExtendedTimestamp timestamp chunkSize
                  chunks payloadSize chunksOffset payloadOffset
            else
              Ok (copy (slice pl payloadOffset (payloadOffset + payloadSize))
                       chunks chunksOffset)
        end
      else Ok chunks
  end.

(** [rtmpChunksCreate(packet)] with [this.outChunkSize = chunkSize].
    A chunk size below 1 makes the allocation size NaN or infinite. *)
Definition rtmpChunksCreate (chunkSize : Z) (packet : RtmpPacket.t)
    : result Buffer :=
  let header := RtmpPacket.header packet in
  let payload := RtmpPacket.payload packet in
  let payloadSize := Header.length header in
  let chunksOffset := 0 in
  let payloadOffset := 0 in
  let chunkBasicHeader :=
    rtmpChunkBasicHeaderCreate (Header.fmt header) (Header.cid header) in
  let chunkBasicHeader3 :=
    rtmpChunkBasicHeaderCreate RTMP_CHUNK_TYPE_3 (Header.cid header) in
  chunkMessageHeader ← rtmpChunkMessageHeaderCreate header;
  let useExtendedTimestamp := 0xffffff <=? Header.timestamp header in
  let headerSize := blen chunkBasicHeader + blen chunkMessageHeader
                    + (if useExtendedTimestamp then 4 else 0) in
  if chunkSize <? 1 then Throw RangeError else
  let n := headerSize + payloadSize + payloadSize / chunkSize in
  let n := if useExtendedTimestamp then n + (payloadSize / chunkSize) * 4 else n in
  let n := if payloadSize mod chunkSize =? 0
           then (if useExtendedTimestamp then n - 1 - 4 else n - 1)
           else n in
  if n <? 0 then Throw RangeError else
  let chunks := alloc n in
  let chunks := copy chunkBasicHeader chunks chunksOffset in
  let chunksOffset := chunksOffset + blen chunkBasicHeader in
  let chunks := copy chunkMessageHeader chunks chunksOffset in
  let chunksOffset := chunksOffset + blen chunkMessageHeader in
  r ← (if useExtendedTimestamp
       then chunks ← writeUIntBE chunks (Header.timestamp header) chunksOffset 4;
            Ok (chunks, chunksOffset + 4)
       else Ok (chunks, chunksOffset));
  let '(chunks, chunksOffset) := r in
  chunks_loop (Z.to_nat payloadSize) payload chunkBasicHeader3
    useExtendedTimestamp (Header.timestamp header) chunkSize
    chunks payloadSize chunksOffset payloadOffset.

(** ** Decoder *)

Inductive parse_state :=
| RTMP_PARSE_INIT
| RTMP_PARSE_BASIC_HEADER
| RTMP_PARSE_MESSAGE_HEADER
| RTMP_PARSE_EXTENDED_TIMESTAMP
| RTMP_PARSE_PAYLOAD.

(** The parser fields of a session.  [parserPacket] is a reference to
    the packet object stored in [inPackets]: it is kept as the key of
    that packet, and every update goes through the map.  [dispatched]
    records the packets handed to [rtmpHandler] (header, clock and
    [payload.slice(0, header.length)]), oldest first; [written] records
    the buffers passed to [socket.write]. *)
Record parser := mkParser {
  parserBuffer : Buffer;
  parserState : parse_state;
  parserBytes : Z;
  parserBasicBytes : Z;
  parserPacket : option Z;
  inPackets : gmap Z RtmpPacket.t;
  inChunkSize : Z;
  ackSize : Z;
  inAckSize : Z;
  inLastAck : Z;
  dispatched : list RtmpPacket.t;
  written : list Buffer;
}.

(** The parser fields as the constructor of the session sets them. *)
Definition parser_init : parser :=
  mkParser (alloc MAX_CHUNK_HEADER) RTMP_PARSE_INIT 0 0 None ∅
           RTMP_CHUNK_SIZE 0 0 0 [] [].

Definition set_parserBuffer (s : parser) v :=
  mkParser v (parserState s) (parserBytes s) (parserBasicBytes s) (parserPacket s)
    (inPackets s) (inChunkSize s) (ackSize s) (inAckSize s) (inLastAck s)
    (dispatched s) (written s).
Definition set_parserBasicBytes (s : parser) v :=
  mkParser (parserBuffer s) (parserState s) (parserBytes s) v (parserPacket s)
    (inPackets s) (inChunkSize s) (ackSize s) (inAckSize s) (inLastAck s)
    (dispatched s) (written s).
Definition set_parserPacket (s : parser) v :=
  mkParser (parserBuffer s) (parserState s) (parserBytes s) (parserBasicBytes s) v
    (inPackets s) (inChunkSize s) (ackSize s) (inAckSize s) (inLastAck s)
    (dispatched s) (written s).



(** [buf[i]] read as a number where the code needs one: the parser buffer
    is only read at indices below its 18 bytes. *)
Definition byte_at (b : Buffer) (i : Z) : Z := default 0 (get b i).




(** [rtmpPacketParse()].  In the 3-byte form the source reads
    [64 + this.parserBuffer[1] + this.parserBuffer[2] << 8]; [+] binds
    tighter than [<<]. *)
Definition parse_cid (s : parser) : Z :=
  if parserBasicBytes s =? 2 then
    64 + byte_at (parserBuffer s) 1
  else if parserBasicBytes s =? 3 then
    shl (64 + byte_at (parserBuffer s) 1 + byte_at (parserBuffer s) 2) 8
  else
    band (byte_at (parserBuffer s) 0) 0x3F.









End Chunk.

(* ===================================================================== *)
(** * lib/rtmp/rtmp_session : the session and the broker context *)
(* ===================================================================== *)

(** The fields of a [NodeRtmpSession] that the stream handlers read or
    write.  [authPublish] and [authPlay] are [config.auth.publish] and
    [config.auth.play] (false without [config.auth]); [isPause],
    [isReceiveAudio] and [isReceiveVideo] hold the truth value of what the
    client sent, the only thing the code tests; a Set is the list of its
    elements in insertion order; [flvGopCacheQueue] holds, for each FLV
    tag, the packet [createFlvTag] made it from; [pingInterval] tells
    whether the timer is set; [socket] is the list of the buffers passed
    to [socket.write], oldest first, each as it was when written, and
    [destroyed] tells whether [socket.destroy] was called. *)
Module Session.
Record t := mk {
  id : string;
  isIPC : bool;
  isLocal : bool;
  authPublish : bool;
  authPlay : bool;
  gopCacheEnable : bool;
  outChunkSize : Z;
  isStarting : bool;
  isPublishing : bool;
  isPlaying : bool;
  isIdling : bool;
  isPause : bool;
  isFirstAudioReceived : bool;
  isFirstVideoReceived : bool;
  isReceiveAudio : bool;
  isReceiveVideo : bool;
  metaData : option Buffer;
  aacSequenceHeader : option Buffer;
  avcSequenceHeader : option Buffer;
  audioCodec : Z;
  videoCodec : Z;
  rtmpGopCacheQueue : option (list Buffer);
  flvGopCacheQueue : option (list RtmpPacket.t);
  appname : string;
  streams : Z;
  playStreamId : Z;
  playStreamPath : string;
  publishStreamId : Z;
  publishStreamPath : string;
  players : list string;
  pingInterval : bool;
  parserPacket : option RtmpPacket.t;
  socket : list Buffer;
  destroyed : bool;
}.

Definition set_isStarting (v : bool) (s : t) : t :=
  mk (id s) (isIPC s) (isLocal s) (authPublish s) (authPlay s)
     (gopCacheEnable s) (outChunkSize s) v (isPublishing s)
     (isPlaying s) (isIdling s) (isPause s) (isFirstAudioReceived s)
     (isFirstVideoReceived s) (isReceiveAudio s) (isReceiveVideo s)
     (metaData s) (aacSequenceHeader s) (avcSequenceHeader s)
     (audioCodec s) (videoCodec s) (rtmpGopCacheQueue s)
     (flvGopCacheQueue s) (appname s) (streams s) (playStreamId s)
     (playStreamPath s) (publishStreamId s) (publishStreamPath s)
     (players s) (pingInterval s) (parserPacket s) (socket s)
     (destroyed s).
Definition set_isPublishing (v : bool) (s : t) : t :=
  mk (id s) (isIPC s) (isLocal s) (authPublish s) (authPlay s)
     (gopCacheEnable s) (outChunkSize s) (isStarting s) v
     (isPlaying s) (isIdling s) (isPause s) (isFirstAudioReceived s)
     (isFirstVideoReceived s) (isReceiveAudio s) (isReceiveVideo s)
     (metaData s) (aacSequenceHeader s) (avcSequenceHeader s)
     (audioCodec s) (videoCodec s) (rtmpGopCacheQueue s)
     (flvGopCacheQueue s) (appname s) (streams s) (playStreamId s)
     (playStreamPath s) (publishStreamId s) (publishStreamPath s)
     (players s) (pingInterval s) (parserPacket s) (socket s)
     (destroyed s).
Definition set_isPlaying (v : bool) (s : t) : t :=
  mk (id s) (isIPC s) (isLocal s) (authPublish s) (authPlay s)
     (gopCacheEnable s) (outChunkSize s) (isStarting s)
     (isPublishing s) v (isIdling s) (isPause s)
     (isFirstAudioReceived s) (isFirstVideoReceived s)
     (isReceiveAudio s) (isReceiveVideo s) (metaData s)
     (aacSequenceHeader s) (avcSequenceHeader s) (audioCodec s)
     (videoCodec s) (rtmpGopCacheQueue s) (flvGopCacheQueue s)
     (appname s) (streams s) (playStreamId s) (playStreamPath s)
     (publishStreamId s) (publishStreamPath s) (players s)
     (pingInterval s) (parserPacket s) (socket s) (destroyed s).
Definition set_isIdling (v : bool) (s : t) : t :=
  mk (id s) (isIPC s) (isLocal s) (authPublish s) (authPlay s)
     (gopCacheEnable s) (outChunkSize s) (isStarting s)
     (isPublishing s) (isPlaying s) v (isPause s)
     (isFirstAudioReceived s) (isFirstVideoReceived s)
     (isReceiveAudio s) (isReceiveVideo s) (metaData s)
     (aacSequenceHeader s) (avcSequenceHeader s) (audioCodec s)
     (videoCodec s) (rtmpGopCacheQueue s) (flvGopCacheQueue s)
     (appname s) (streams s) (playStreamId s) (playStreamPath s)
     (publishStreamId s) (publishStreamPath s) (players s)
     (pingInterval s) (parserPacket s) (socket s) (destroyed s).
Definition set_isPause (v : bool) (s : t) : t :=
  mk (id s) (isIPC s) (isLocal s) (authPublish s) (authPlay s)
     (gopCacheEnable s) (outChunkSize s) (isStarting s)
     (isPublishing s) (isPlaying s) (isIdling s) v
     (isFirstAudioReceived s) (isFirstVideoReceived s)
     (isReceiveAudio s) (isReceiveVideo s) (metaData s)
     (aacSequenceHeader s) (avcSequenceHeader s) (audioCodec s)
     (videoCodec s) (rtmpGopCacheQueue s) (flvGopCacheQueue s)
     (appname s) (streams s) (playStreamId s) (playStreamPath s)
     (publishStreamId s) (publishStreamPath s) (players s)
     (pingInterval s) (parserPacket s) (socket s) (destroyed s).
Definition set_isFirstAudioReceived (v : bool) (s : t) : t :=
  mk (id s) (isIPC s) (isLocal s) (authPublish s) (authPlay s)
     (gopCacheEnable s) (outChunkSize s) (isStarting s)
     (isPublishing s) (isPlaying s) (isIdling s) (isPause s) v
     (isFirstVideoReceived s) (isReceiveAudio s) (isReceiveVideo s)
     (metaData s) (aacSequenceHeader s) (avcSequenceHeader s)
     (audioCodec s) (videoCodec s) (rtmpGopCacheQueue s)
     (flvGopCacheQueue s) (appname s) (streams s) (playStreamId s)
     (playStreamPath s) (publishStreamId s) (publishStreamPath s)
     (players s) (pingInterval s) (parserPacket s) (socket s)
     (destroyed s).
Definition set_isFirstVideoReceived (v : bool) (s : t) : t :=
  mk (id s) (isIPC s) (isLocal s) (authPublish s) (authPlay s)
     (gopCacheEnable s) (outChunkSize s) (isStarting s)
     (isPublishing s) (isPlaying s) (isIdling s) (isPause s)
     (isFirstAudioReceived s) v (isReceiveAudio s) (isReceiveVideo s)
     (metaData s) (aacSequenceHeader s) (avcSequenceHeader s)
     (audioCodec s) (videoCodec s) (rtmpGopCacheQueue s)
     (flvGopCacheQueue s) (appname s) (streams s) (playStreamId s)
     (playStreamPath s) (publishStreamId s) (publishStreamPath s)
     (players s) (pingInterval s) (parserPacket s) (socket s)
     (destroyed s).
Definition set_isReceiveAudio (v : bool) (s : t) : t :=
  mk (id s) (isIPC s) (isLocal s) (authPublish s) (authPlay s)
     (gopCacheEnable s) (outChunkSize s) (isStarting s)
     (isPublishing s) (isPlaying s) (isIdling s) (isPause s)
     (isFirstAudioReceived s) (isFirstVideoReceived s) v
     (isReceiveVideo s) (metaData s) (aacSequenceHeader s)
     (avcSequenceHeader s) (audioCodec s) (videoCodec s)
     (rtmpGopCacheQueue s) (flvGopCacheQueue s) (appname s)
     (streams s) (playStreamId s) (playStreamPath s)
     (publishStreamId s) (publishStreamPath s) (players s)
     (pingInterval s) (parserPacket s) (socket s) (destroyed s).
Definition set_isReceiveVideo (v : bool) (s : t) : t :=
  mk (id s) (isIPC s) (isLocal s) (authPublish s) (authPlay s)
     (gopCacheEnable s) (outChunkSize s) (isStarting s)
     (isPublishing s) (isPlaying s) (isIdling s) (isPause s)
     (isFirstAudioReceived s) (isFirstVideoReceived s)
     (isReceiveAudio s) v (metaData s) (aacSequenceHeader s)
     (avcSequenceHeader s) (audioCodec s) (videoCodec s)
     (rtmpGopCacheQueue s) (flvGopCacheQueue s) (appname s)
     (streams s) (playStreamId s) (playStreamPath s)
     (publishStreamId s) (publishStreamPath s) (players s)
     (pingInterval s) (parserPacket s) (socket s) (destroyed s).
Definition set_metaData (v : option Buffer) (s : t) : t :=
  mk (id s) (isIPC s) (isLocal s) (authPublish s) (authPlay s)
     (gopCacheEnable s) (outChunkSize s) (isStarting s)
     (isPublishing s) (isPlaying s) (isIdling s) (isPause s)
     (isFirstAudioReceived s) (isFirstVideoReceived s)
     (isReceiveAudio s) (isReceiveVideo s) v (aacSequenceHeader s)
     (avcSequenceHeader s) (audioCodec s) (videoCodec s)
     (rtmpGopCacheQueue s) (flvGopCacheQueue s) (appname s)
     (streams s) (playStreamId s) (playStreamPath s)
     (publishStreamId s) (publishStreamPath s) (players s)
     (pingInterval s) (parserPacket s) (socket s) (destroyed s).
Definition set_aacSequenceHeader (v : option Buffer) (s : t) : t :=
  mk (id s) (isIPC s) (isLocal s) (authPublish s) (authPlay s)
     (gopCacheEnable s) (outChunkSize s) (isStarting s)
     (isPublishing s) (isPlaying s) (isIdling s) (isPause s)
     (isFirstAudioReceived s) (isFirstVideoReceived s)
     (isReceiveAudio s) (isReceiveVideo s) (metaData s) v
     (avcSequenceHeader s) (audioCodec s) (videoCodec s)
     (rtmpGopCacheQueue s) (flvGopCacheQueue s) (appname s)
     (streams s) (playStreamId s) (playStreamPath s)
     (publishStreamId s) (publishStreamPath s) (players s)
     (pingInterval s) (parserPacket s) (socket s) (destroyed s).
Definition set_avcSequenceHeader (v : option Buffer) (s : t) : t :=
  mk (id s) (isIPC s) (isLocal s) (authPublish s) (authPlay s)
     (gopCacheEnable s) (outChunkSize s) (isStarting s)
     (isPublishing s) (isPlaying s) (isIdling s) (isPause s)
     (isFirstAudioReceived s) (isFirstVideoReceived s)
     (isReceiveAudio s) (isReceiveVideo s) (metaData s)
     (aacSequenceHeader s) v (audioCodec s) (videoCodec s)
     (rtmpGopCacheQueue s) (flvGopCacheQueue s) (appname s)
     (streams s) (playStreamId s) (playStreamPath s)
     (publishStreamId s) (publishStreamPath s) (players s)
     (pingInterval s) (parserPacket s) (socket s) (destroyed s).
Definition set_audioCodec (v : Z) (s : t) : t :=
  mk (id s) (isIPC s) (isLocal s) (authPublish s) (authPlay s)
     (gopCacheEnable s) (outChunkSize s) (isStarting s)
     (isPublishing s) (isPlaying s) (isIdling s) (isPause s)
     (isFirstAudioReceived s) (isFirstVideoReceived s)
     (isReceiveAudio s) (isReceiveVideo s) (metaData s)
     (aacSequenceHeader s) (avcSequenceHeader s) v (videoCodec s)
     (rtmpGopCacheQueue s) (flvGopCacheQueue s) (appname s)
     (streams s) (playStreamId s) (playStreamPath s)
     (publishStreamId s) (publishStreamPath s) (players s)
     (pingInterval s) (parserPacket s) (socket s) (destroyed s).
Definition set_videoCodec (v : Z) (s : t) : t :=
  mk (id s) (isIPC s) (isLocal s) (authPublish s) (authPlay s)
     (gopCacheEnable s) (outChunkSize s) (isStarting s)
     (isPublishing s) (isPlaying s) (isIdling s) (isPause s)
     (isFirstAudioReceived s) (isFirstVideoReceived s)
     (isReceiveAudio s) (isReceiveVideo s) (metaData s)
     (aacSequenceHeader s) (avcSequenceHeader s) (audioCodec s) v
     (rtmpGopCacheQueue s) (flvGopCacheQueue s) (appname s)
     (streams s) (playStreamId s) (playStreamPath s)
     (publishStreamId s) (publishStreamPath s) (players s)
     (pingInterval s) (parserPacket s) (socket s) (destroyed s).
Definition set_rtmpGopCacheQueue (v : option (list Buffer)) (s : t) : t :=
  mk (id s) (isIPC s) (isLocal s) (authPublish s) (authPlay s)
     (gopCacheEnable s) (outChunkSize s) (isStarting s)
     (isPublishing s) (isPlaying s) (isIdling s) (isPause s)
     (isFirstAudioReceived s) (isFirstVideoReceived s)
     (isReceiveAudio s) (isReceiveVideo s) (metaData s)
     (aacSequenceHeader s) (avcSequenceHeader s) (audioCodec s)
     (videoCodec s) v (flvGopCacheQueue s) (appname s) (streams s)
     (playStreamId s) (playStreamPath s) (publishStreamId s)
     (publishStreamPath s) (players s) (pingInterval s)
     (parserPacket s) (socket s) (destroyed s).
Definition set_flvGopCacheQueue (v : option (list RtmpPacket.t)) (s : t) : t :=
  mk (id s) (isIPC s) (isLocal s) (authPublish s) (authPlay s)
     (gopCacheEnable s) (outChunkSize s) (isStarting s)
     (isPublishing s) (isPlaying s) (isIdling s) (isPause s)
     (isFirstAudioReceived s) (isFirstVideoReceived s)
     (isReceiveAudio s) (isReceiveVideo s) (metaData s)
     (aacSequenceHeader s) (avcSequenceHeader s) (audioCodec s)
     (videoCodec s) (rtmpGopCacheQueue s) v (appname s) (streams s)
     (playStreamId s) (playStreamPath s) (publishStreamId s)
     (publishStreamPath s) (players s) (pingInterval s)
     (parserPacket s) (socket s) (destroyed s).
Definition set_appname (v : string) (s : t) : t :=
  mk (id s) (isIPC s) (isLocal s) (authPublish s) (authPlay s)
     (gopCacheEnable s) (outChunkSize s) (isStarting s)
     (isPublishing s) (isPlaying s) (isIdling s) (isPause s)
     (isFirstAudioReceived s) (isFirstVideoReceived s)
     (isReceiveAudio s) (isReceiveVideo s) (metaData s)
     (aacSequenceHeader s) (avcSequenceHeader s) (audioCodec s)
     (videoCodec s) (rtmpGopCacheQueue s) (flvGopCacheQueue s) v
     (streams s) (playStreamId s) (playStreamPath s)
     (publishStreamId s) (publishStreamPath s) (players s)
     (pingInterval s) (parserPacket s) (socket s) (destroyed s).
Definition set_streams (v : Z) (s : t) : t :=
  mk (id s) (isIPC s) (isLocal s) (authPublish s) (authPlay s)
     (gopCacheEnable s) (outChunkSize s) (isStarting s)
     (isPublishing s) (isPlaying s) (isIdling s) (isPause s)
     (isFirstAudioReceived s) (isFirstVideoReceived s)
     (isReceiveAudio s) (isReceiveVideo s) (metaData s)
     (aacSequenceHeader s) (avcSequenceHeader s) (audioCodec s)
     (videoCodec s) (rtmpGopCacheQueue s) (flvGopCacheQueue s)
     (appname s) v (playStreamId s) (playStreamPath s)
     (publishStreamId s) (publishStreamPath s) (players s)
     (pingInterval s) (parserPacket s) (socket s) (destroyed s).
Definition set_playStreamId (v : Z) (s : t) : t :=
  mk (id s) (isIPC s) (isLocal s) (authPublish s) (authPlay s)
     (gopCacheEnable s) (outChunkSize s) (isStarting s)
     (isPublishing s) (isPlaying s) (isIdling s) (isPause s)
     (isFirstAudioReceived s) (isFirstVideoReceived s)
     (isReceiveAudio s) (isReceiveVideo s) (metaData s)
     (aacSequenceHeader s) (avcSequenceHeader s) (audioCodec s)
     (videoCodec s) (rtmpGopCacheQueue s) (flvGopCacheQueue s)
     (appname s) (streams s) v (playStreamPath s) (publishStreamId s)
     (publishStreamPath s) (players s) (pingInterval s)
     (parserPacket s) (socket s) (destroyed s).
Definition set_playStreamPath (v : string) (s : t) : t :=
  mk (id s) (isIPC s) (isLocal s) (authPublish s) (authPlay s)
     (gopCacheEnable s) (outChunkSize s) (isStarting s)
     (isPublishing s) (isPlaying s) (isIdling s) (isPause s)
     (isFirstAudioReceived s) (isFirstVideoReceived s)
     (isReceiveAudio s) (isReceiveVideo s) (metaData s)
     (aacSequenceHeader s) (avcSequenceHeader s) (audioCodec s)
     (videoCodec s) (rtmpGopCacheQueue s) (flvGopCacheQueue s)
     (appname s) (streams s) (playStreamId s) v (publishStreamId s)
     (publishStreamPath s) (players s) (pingInterval s)
     (parserPacket s) (socket s) (destroyed s).
Definition set_publishStreamId (v : Z) (s : t) : t :=
  mk (id s) (isIPC s) (isLocal s) (authPublish s) (authPlay s)
     (gopCacheEnable s) (outChunkSize s) (isStarting s)
     (isPublishing s) (isPlaying s) (isIdling s) (isPause s)
     (isFirstAudioReceived s) (isFirstVideoReceived s)
     (isReceiveAudio s) (isReceiveVideo s) (metaData s)
     (aacSequenceHeader s) (avcSequenceHeader s) (audioCodec s)
     (videoCodec s) (rtmpGopCacheQueue s) (flvGopCacheQueue s)
     (appname s) (streams s) (playStreamId s) (playStreamPath s) v
     (publishStreamPath s) (players s) (pingInterval s)
     (parserPacket s) (socket s) (destroyed s).
Definition set_publishStreamPath (v : string) (s : t) : t :=
  mk (id s) (isIPC s) (isLocal s) (authPublish s) (authPlay s)
     (gopCacheEnable s) (outChunkSize s) (isStarting s)
     (isPublishing s) (isPlaying s) (isIdling s) (isPause s)
     (isFirstAudioReceived s) (isFirstVideoReceived s)
     (isReceiveAudio s) (isReceiveVideo s) (metaData s)
     (aacSequenceHeader s) (avcSequenceHeader s) (audioCodec s)
     (videoCodec s) (rtmpGopCacheQueue s) (flvGopCacheQueue s)
     (appname s) (streams s) (playStreamId s) (playStreamPath s)
     (publishStreamId s) v (players s) (pingInterval s)
     (parserPacket s) (socket s) (destroyed s).
Definition set_players (v : list string) (s : t) : t :=
  mk (id s) (isIPC s) (isLocal s) (authPublish s) (authPlay s)
     (gopCacheEnable s) (outChunkSize s) (isStarting s)
     (isPublishing s) (isPlaying s) (isIdling s) (isPause s)
     (isFirstAudioReceived s) (isFirstVideoReceived s)
     (isReceiveAudio s) (isReceiveVideo s) (metaData s)
     (aacSequenceHeader s) (avcSequenceHeader s) (audioCodec s)
     (videoCodec s) (rtmpGopCacheQueue s) (flvGopCacheQueue s)
     (appname s) (streams s) (playStreamId s) (playStreamPath s)
     (publishStreamId s) (publishStreamPath s) v (pingInterval s)
     (parserPacket s) (socket s) (destroyed s).
Definition set_pingInterval (v : bool) (s : t) : t :=
  mk (id s) (isIPC s) (isLocal s) (authPublish s) (authPlay s)
     (gopCacheEnable s) (outChunkSize s) (isStarting s)
     (isPublishing s) (isPlaying s) (isIdling s) (isPause s)
     (isFirstAudioReceived s) (isFirstVideoReceived s)
     (isReceiveAudio s) (isReceiveVideo s) (metaData s)
     (aacSequenceHeader s) (avcSequenceHeader s) (audioCodec s)
     (videoCodec s) (rtmpGopCacheQueue s) (flvGopCacheQueue s)
     (appname s) (streams s) (playStreamId s) (playStreamPath s)
     (publishStreamId s) (publishStreamPath s) (players s) v
     (parserPacket s) (socket s) (destroyed s).
Definition set_parserPacket (v : option RtmpPacket.t) (s : t) : t :=
  mk (id s) (isIPC s) (isLocal s) (authPublish s) (authPlay s)
     (gopCacheEnable s) (outChunkSize s) (isStarting s)
     (isPublishing s) (isPlaying s) (isIdling s) (isPause s)
     (isFirstAudioReceived s) (isFirstVideoReceived s)
     (isReceiveAudio s) (isReceiveVideo s) (metaData s)
     (aacSequenceHeader s) (avcSequenceHeader s) (audioCodec s)
     (videoCodec s) (rtmpGopCacheQueue s) (flvGopCacheQueue s)
     (appname s) (streams s) (playStreamId s) (playStreamPath s)
     (publishStreamId s) (publishStreamPath s) (players s)
     (pingInterval s) v (socket s) (destroyed s).
Definition set_socket (v : list Buffer) (s : t) : t :=
  mk (id s) (isIPC s) (isLocal s) (authPublish s) (authPlay s)
     (gopCacheEnable s) (outChunkSize s) (isStarting s)
     (isPublishing s) (isPlaying s) (isIdling s) (isPause s)
     (isFirstAudioReceived s) (isFirstVideoReceived s)
     (isReceiveAudio s) (isReceiveVideo s) (metaData s)
     (aacSequenceHeader s) (avcSequenceHeader s) (audioCodec s)
     (videoCodec s) (rtmpGopCacheQueue s) (flvGopCacheQueue s)
     (appname s) (streams s) (playStreamId s) (playStreamPath s)
     (publishStreamId s) (publishStreamPath s) (players s)
     (pingInterval s) (parserPacket s) v (destroyed s).
Definition set_destroyed (v : bool) (s : t) : t :=
  mk (id s) (isIPC s) (isLocal s) (authPublish s) (authPlay s)
     (gopCacheEnable s) (outChunkSize s) (isStarting s)
     (isPublishing s) (isPlaying s) (isIdling s) (isPause s)
     (isFirstAudioReceived s) (isFirstVideoReceived s)
     (isReceiveAudio s) (isReceiveVideo s) (metaData s)
     (aacSequenceHeader s) (avcSequenceHeader s) (audioCodec s)
     (videoCodec s) (rtmpGopCacheQueue s) (flvGopCacheQueue s)
     (appname s) (streams s) (playStreamId s) (playStreamPath s)
     (publishStreamId s) (publishStreamPath s) (players s)
     (pingInterval s) (parserPacket s) (socket s) v.

(** [socket.write(buf)]. *)
Definition write (buf : Buffer) (s : t) : t := set_socket (socket s ++ [buf]) s.

(** The state the constructor leaves, for a session [id] under a
    configuration ([chunk_size] is [config.rtmp.chunk_size], 0 when it
    is not given). *)
Definition create (id : string) (isLocal authPublish authPlay gop_cache : bool)
    (chunk_size : Z) : t :=
  mk id false isLocal authPublish authPlay gop_cache
     (if chunk_size =? 0 then 128 else chunk_size)
     false false false false false false false true true
     None None None 0 0 None None EmptyString 0
     0 EmptyString 0 EmptyString [] false None [] false.

(** [run()]. *)
Definition run (s : t) : t := set_isStarting true s.
End Session.

(** ** lib/core/ctx : the registries *)

(** [context.sessions] maps an id to a session object, and the handlers
    keep using an object after it left the map.  The objects are kept in
    [objects], by id, and [sessions] is the set of the ids registered.
    HTTP-FLV sessions (lib/flv_session, not among these sources) are not
    modelled: every object is an RTMP session.  The event emitter has no
    listener. *)
Module Broker.
Record context := mk {
  objects : gmap string Session.t;
  sessions : list string;
  publishers : gmap string string;
  idlePlayers : list string;
}.

Definition set_objects v (c : context) := mk v (sessions c) (publishers c) (idlePlayers c).
Definition set_sessions v (c : context) := mk (objects c) v (publishers c) (idlePlayers c).
Definition set_publishers v (c : context) := mk (objects c) (sessions c) v (idlePlayers c).
Definition set_idlePlayers v (c : context) := mk (objects c) (sessions c) (publishers c) v.

Definition empty : context := mk ∅ [] ∅ [].

(** A Set of ids, in insertion order. *)
Definition has (x : string) (l : list string) : bool := existsb (String.eqb x) l.
Definition add (x : string) (l : list string) : list string :=
  if has x l then l else l ++ [x].
Definition delete (x : string) (l : list string) : list string :=
  filter (fun y => negb (String.eqb x y)) l.

(** A handler runs on the context; when it raises, the context is left
    as it was at that point. *)
Definition M (A : Type) : Type := context -> result A * context.

#[global] Instance M_ret : MRet M := fun A a c => (Ok a, c).
#[global] Instance M_bind : MBind M := fun A B k m c =>
  match m c with
  | (Ok a, c') => k a c'
  | (Throw e, c') => (Throw e, c')
  end.

Definition raise {A} (e : error) : M A := fun c => (Throw e, c).
Definition lift {A} (r : result A) : M A := fun c => (r, c).
Definition modify (f : context -> context) : M unit := fun c => (Ok tt, f c).
Definition read {A} (f : context -> A) : M A := fun c => (Ok (f c), c).

(** [context.sessions.get(id)]: [undefined] when the id is not
    registered. *)
Definition sessions_get (id : string) : M (option Session.t) :=
  read (fun c => if has id (sessions c) then objects c !! id else None).

(** The object a method runs on, or that a reference taken from the
    sessions map points to: reading a property of [undefined] raises. *)
Definition object (id : string) : M Session.t :=
  fun c => match objects c !! id with
           | Some s => (Ok s, c)
           | None => (Throw TypeError, c)
           end.

(** An assignment to fields of the object [id]. *)
Definition update (id : string) (f : Session.t -> Session.t) : M unit :=
  modify (fun c => set_objects (alter f id (objects c)) c).

(** [for (const x of set) body(x)], over the elements the set has when
    the loop starts. *)
Fixpoint forEach {A} (l : list A) (body : A -> M unit) : M unit :=
  match l with
  | [] => mret tt
  | x :: l' => _ ← body x; forEach l' body
  end.

Definition when (b : bool) (m : M unit) : M unit := if b then m else mret tt.

(** [new NodeRtmpSession(config, socket)]: the constructor registers the
    session. *)
Definition register (s : Session.t) : M unit :=
  modify (fun c => set_sessions (add (Session.id s) (sessions c))
                     (set_objects (<[Session.id s := s]> (objects c)) c)).
End Broker.

(** ** lib/rtmp/rtmp_session : the methods *)

Module NodeRtmpSession.
Import Broker.

Definition RTMP_CHANNEL_INVOKE := 3.
Definition RTMP_CHANNEL_AUDIO := 4.
Definition RTMP_CHANNEL_VIDEO := 5.
Definition RTMP_CHANNEL_DATA := 6.

Definition RTMP_TYPE_AUDIO := 8.
Definition RTMP_TYPE_VIDEO := 9.
Definition RTMP_TYPE_DATA := 18.
Definition RTMP_TYPE_INVOKE := 20.

Definition STREAM_BEGIN := 0.
Definition STREAM_EOF := 1.

(** The truth value of a JavaScript value ([-0] is the pattern 2^63; a
    NaN has all exponent bits set and a mantissa that is not 0). *)
Definition truthy (v : jsval) : bool :=
  match v with
  | JUndefined | JNull => false
  | JBool b => b
  | JNumber bits =>
      negb ((bits =? 0) || (bits =? 2 ^ 63)
            || ((Z.land (Z.shiftr bits 52) 0x7FF =? 0x7FF)
                && negb (Z.land bits (2 ^ 52 - 1) =? 0)))
  | JString s => negb (String.eqb s EmptyString)
  | JObject _ | JArray _ _ | JDate _ => true
  end.

(** [str.split('?')[0]]. *)
Fixpoint before_query (s : string) : string :=
  match s with
  | EmptyString => EmptyString
  | String c s' =>
      if Ascii.eqb c "?"%char then EmptyString
      else String c (before_query s')
  end.

(** ['/' + this.appname + '/' + streamName.split('?')[0]]. *)
Definition stream_path (appname streamName : string) : string :=
  ("/" ++ appname ++ "/" ++ before_query streamName)%string.

(** [this.socket.write(buf)]. *)
Definition socket_write (this : string) (buf : Buffer) : M unit :=
  update this (Session.write buf).

(** The packet the senders fill in: [RtmpPacket.create()] with type-0
    format, then [cid], [type], [payload], [length = payload.length]
    (a [TypeError] when the payload is [null]), [stream_id] and
    [timestamp]. *)
Definition message (cid type sid timestamp : Z) (payload : option Buffer)
    : result RtmpPacket.t :=
  match payload with
  | None => Throw TypeError
  | Some p =>
      Ok (RtmpPacket.mk (Header.mk Chunk.RTMP_CHUNK_TYPE_0 cid timestamp (blen p) type sid)
            0 0 (Some p) 0 0)
  end.

(** [this.rtmpChunksCreate(packet)], with [this.outChunkSize]. *)
Definition chunksCreate (this : string) (packet : RtmpPacket.t) : M Buffer :=
  s ← object this;
  lift (Chunk.rtmpChunksCreate (Session.outChunkSize s) packet).

(** [sendStreamStatus(st, id)]; the buffer is
    [020000000000060400000000000000000000]. *)
Definition sendStreamStatus (this : string) (st id : Z) : M unit :=
  let rtmpBuffer := [2; 0; 0; 0; 0; 0; 6; 4; 0; 0; 0; 0; 0; 0; 0; 0; 0; 0] in
  rtmpBuffer ← lift (writeUIntBE rtmpBuffer st 12 2);
  rtmpBuffer ← lift (writeUIntBE rtmpBuffer id 14 4);
  socket_write this rtmpBuffer.

(** [sendWindowACK(size)], [setChunkSize(size)] and
    [setPeerBandwidth(size, type)]. *)
Definition sendWindowACK (this : string) (size : Z) : M unit :=
  let rtmpBuffer := [2; 0; 0; 0; 0; 0; 4; 5; 0; 0; 0; 0; 0; 0; 0; 0] in
  rtmpBuffer ← lift (writeUIntBE rtmpBuffer size 12 4);
  socket_write this rtmpBuffer.

Definition setChunkSize (this : string) (size : Z) : M unit :=
  let rtmpBuffer := [2; 0; 0; 0; 0; 0; 4; 1; 0; 0; 0; 0; 0; 0; 0; 0] in
  rtmpBuffer ← lift (writeUIntBE rtmpBuffer size 12 4);
  socket_write this rtmpBuffer.

Definition setPeerBandwidth (this : string) (size type : Z) : M unit :=
  let rtmpBuffer := [2; 0; 0; 0; 0; 0; 5; 6; 0; 0; 0; 0; 0; 0; 0; 0; 0] in
  rtmpBuffer ← lift (writeUIntBE rtmpBuffer size 12 4);
  socket_write this (set rtmpBuffer 16 (Some type)).

(** [sendInvokeMessage(sid, opt)]. *)
Definition sendInvokeMessage (this : string) (sid : Z)
    (opt : list (string * jsval)) : M unit :=
  payload ← lift (Amf0.encodeAmf0Cmd opt);
  packet ← lift (message RTMP_CHANNEL_INVOKE RTMP_TYPE_INVOKE sid 0 (Some payload));
  chunks ← chunksCreate this packet;
  socket_write this chunks.

(** [sendDataMessage(opt, sid)]. *)
Definition sendDataMessage (this : string) (opt : list (string * jsval))
    (sid : Z) : M unit :=
  payload ← lift (Amf0.encodeAmf0Data opt);
  packet ← lift (message RTMP_CHANNEL_DATA RTMP_TYPE_DATA sid 0 (Some payload));
  chunks ← chunksCreate this packet;
  socket_write this chunks.

(** The [opt] of [sendStatusMessage]. *)
Definition statusMessage (level code description : jsval)
    : list (string * jsval) :=
  [ ("cmd", JString "onStatus");
    ("transId", JNumber 0);
    ("cmdObj", JNull);
    ("info", JObject [ ("level", level); ("code", code);
                       ("description", description) ]) ]%string.

(** [sendStatusMessage(sid, level, code, description)]; an argument the
    caller leaves out is [undefined]. *)
Definition sendStatusMessage (this : string) (sid : Z)
    (level code description : jsval) : M unit :=
  sendInvokeMessage this sid (statusMessage level code description).

(** [sendRtmpSampleAccess(sid)].  [respondPlay] calls it without
    argument: [sid] is [undefined], which [writeUInt32LE] stores as 0. *)
Definition sendRtmpSampleAccess (this : string) (sid : option Z) : M unit :=
  sendDataMessage this
    [ ("cmd", JString "|RtmpSampleAccess");
      ("bool1", JBool false); ("bool2", JBool false) ]%string
    (default 0 sid).

(** [respondCreateStream(tid)]; [streams] stays below 2^53. *)
Definition respondCreateStream (this : string) (tid : jsval) : M unit :=
  s ← object this;
  let n := Session.streams s + 1 in
  _ ← update this (Session.set_streams n);
  sendInvokeMessage this 0
    [ ("cmd", JString "_result"); ("transId", tid); ("cmdObj", JNull);
      ("info", JNumber (double_of_int n)) ]%string.

(** [onCreateStream(invokeMessage)]. *)
Definition onCreateStream (this : string) (transId : jsval) : M unit :=
  respondCreateStream this transId.

(** [respondPlay()]. *)
Definition respondPlay (this : string) : M unit :=
  s ← object this;
  let sid := Session.playStreamId s in
  _ ← sendStreamStatus this STREAM_BEGIN sid;
  _ ← sendStatusMessage this sid (JString "status")
        (JString "NetStream.Play.Reset") (JString "Playing and resetting stream.");
  _ ← sendStatusMessage this sid (JString "status")
        (JString "NetStream.Play.Start") (JString "Started playing stream.");
  sendRtmpSampleAccess this None.

(** One of the three cached messages of [onStartPlay] and [onPause]. *)
Definition sendCached (this : string) (cid type sid timestamp : Z)
    (payload : option Buffer) : M unit :=
  packet ← lift (message cid type sid timestamp payload);
  chunks ← chunksCreate this packet;
  socket_write this chunks.

(** The replacement of the [i]-th buffer of the publisher's GOP queue by
    [buf]: the buffers of the queue are objects, and [writeUInt32LE]
    changes them in place. *)
Definition storeGop (publisherId : string) (i : nat) (buf : Buffer) : M unit :=
  update publisherId (fun p =>
    Session.set_rtmpGopCacheQueue
      ((fun q => <[i := buf]> q) <$> Session.rtmpGopCacheQueue p) p).

(** [for (const chunks of publisher.rtmpGopCacheQueue)] in
    [onStartPlay], from the [i]-th buffer on. *)
Fixpoint sendGop (this publisherId : string) (sid : Z) (i : nat)
    (queue : list Buffer) : M unit :=
  match queue with
  | [] => mret tt
  | chunks :: queue' =>
      chunks ← lift (writeUInt32LE chunks sid 8);
      _ ← storeGop publisherId i chunks;
      _ ← socket_write this chunks;
      sendGop this publisherId sid (S i) queue'
  end.

(** [onStartPlay()]. *)
Definition onStartPlay (this : string) : M unit :=
  s ← object this;
  publisherId ← read (fun c => publishers c !! Session.playStreamPath s);
  publisher ← match publisherId with
              | Some p => sessions_get p
              | None => mret None
              end;
  match publisherId, publisher with
  | Some publisherId, Some publisher =>
      _ ← update publisherId
            (fun p => Session.set_players (add this (Session.players p)) p);
      let sid := Session.playStreamId s in
      _ ← match Session.metaData publisher with
          | Some md =>
              sendCached this RTMP_CHANNEL_DATA RTMP_TYPE_DATA sid 0 (Some md)
          | None => mret tt
          end;
      _ ← when (Session.audioCodec publisher =? 10)
            (sendCached this RTMP_CHANNEL_AUDIO RTMP_TYPE_AUDIO sid 0
               (Session.aacSequenceHeader publisher));
      _ ← when ((Session.videoCodec publisher =? 7)
                || (Session.videoCodec publisher =? 12))
            (sendCached this RTMP_CHANNEL_VIDEO RTMP_TYPE_VIDEO sid 0
               (Session.avcSequenceHeader publisher));
      _ ← match Session.rtmpGopCacheQueue publisher with
          | Some queue => sendGop this publisherId sid 0 queue
          | None => mret tt
          end;
      update this (fun s => Session.set_isPlaying true (Session.set_isIdling false s))
  | _, _ => raise TypeError
  end.

(** [onPause(invokeMessage)], on [invokeMessage.pause]. *)
Definition onPause (this : string) (pause : jsval) : M unit :=
  _ ← update this (Session.set_isPause (truthy pause));
  s ← object this;
  let c := if Session.isPause s then "NetStream.Pause.Notify"
           else "NetStream.Unpause.Notify" in
  let d := if Session.isPause s then "Paused live" else "Unpaused live" in
  let sid := Session.playStreamId s in
  _ ← (if negb (Session.isPause s) then
         _ ← sendStreamStatus this STREAM_BEGIN sid;
         publisherId ← read (fun c => publishers c !! Session.playStreamPath s);
         match publisherId with
         | Some publisherId =>
             (* fix ckplayer *)
             publisher ← sessions_get publisherId;
             match publisher with
             | None => raise TypeError
             | Some publisher =>
                 (* [publisher.parserPacket.clock]; a cached header that
                    is [null] and a parser packet that is [null] raise
                    the same [TypeError] *)
                 let clock :=
                   match Session.parserPacket publisher with
                   | Some pp => Ok (RtmpPacket.clock pp)
                   | None => Throw TypeError
                   end in
                 _ ← when (Session.audioCodec publisher =? 10)
                       (ts ← lift clock;
                        sendCached this RTMP_CHANNEL_AUDIO RTMP_TYPE_AUDIO sid ts
                          (Session.aacSequenceHeader publisher));
                 when ((Session.videoCodec publisher =? 7)
                       || (Session.videoCodec publisher =? 12))
                   (ts ← lift clock;
                    sendCached this RTMP_CHANNEL_VIDEO RTMP_TYPE_VIDEO sid ts
                      (Session.avcSequenceHeader publisher))
             end
         | None => mret tt
         end
       else sendStreamStatus this STREAM_EOF sid);
  (* this.sendStatusMessage(this.playStreamId, c, d) *)
  sendStatusMessage this sid (JString c) (JString d) JUndefined.

(** [onReceiveAudio(invokeMessage)] and [onReceiveVideo(invokeMessage)]. *)
Definition onReceiveAudio (this : string) (bool : jsval) : M unit :=
  update this (Session.set_isReceiveAudio (truthy bool)).

Definition onReceiveVideo (this : string) (bool : jsval) : M unit :=
  update this (Session.set_isReceiveVideo (truthy bool)).

(** [invokeMessage.streamId === id]: [streamId] is [Some n] for the
    number [n] and [None] for any value that is no integer. *)
Definition same_id (streamId : option Z) (id : Z) : bool :=
  match streamId with
  | Some n => n =? id
  | None => false
  end.

(** [onDeleteStream(invokeMessage)], on [invokeMessage.streamId]. *)
Definition onDeleteStream (this : string) (streamId : option Z) : M unit :=
  s ← object this;
  _ ← when (same_id streamId (Session.playStreamId s))
        (_ ← (if Session.isIdling s then
                _ ← modify (fun c => set_idlePlayers (delete this (idlePlayers c)) c);
                update this (Session.set_isIdling false)
              else
                publisherId ← read (fun c => publishers c !! Session.playStreamPath s);
                (* [publisherId !== null] holds for [undefined] too *)
                publisher ← match publisherId with
                            | Some p => sessions_get p
                            | None => mret None
                            end;
                _ ← match publisherId, publisher with
                    | Some p, Some _ =>
                        update p (fun q =>
                          Session.set_players (delete this (Session.players q)) q)
                    | _, _ => raise TypeError
                    end;
                update this (Session.set_isPlaying false));
         _ ← when (Session.isStarting s)
               (sendStatusMessage this (Session.playStreamId s) (JString "status")
                  (JString "NetStream.Play.Stop") (JString "Stopped playing stream."));
         update this (fun s => Session.set_playStreamPath EmptyString
                                 (Session.set_playStreamId 0 s)));
  s ← object this;
  when (same_id streamId (Session.publishStreamId s))
    (_ ← when (Session.isPublishing s)
           (_ ← when (Session.isStarting s)
                  (sendStatusMessage this (Session.publishStreamId s)
                     (JString "status") (JString "NetStream.Unpublish.Success")
                     (JString (Session.publishStreamPath s
                               ++ " is now unpublished.")));
            _ ← forEach (Session.players s) (fun playerId =>
                  player ← sessions_get playerId;
                  match player with
                  | Some player =>
                      sendStatusMessage playerId (Session.playStreamId player)
                        (JString "status")
                        (JString "NetStream.Play.UnpublishNotify")
                        (JString "stream is now unpublished.")
                  | None => raise TypeError   (* player.stop() *)
                  end);
            (* let the players to idlePlayers *)
            _ ← forEach (Session.players s) (fun playerId =>
                  player ← sessions_get playerId;
                  _ ← modify (fun c => set_idlePlayers (add playerId (idlePlayers c)) c);
                  match player with
                  | Some _ =>
                      _ ← update playerId (fun p =>
                            Session.set_isIdling true (Session.set_isPlaying false p));
                      player ← object playerId;
                      sendStreamStatus playerId STREAM_EOF (Session.playStreamId player)
                  | None => raise TypeError
                  end);
            _ ← modify (fun c =>
                  set_publishers (base.delete (Session.publishStreamPath s) (publishers c)) c);
            update this (fun s =>
              Session.set_isPublishing false
                (Session.set_players []
                   (Session.set_flvGopCacheQueue
                      ((fun _ => []) <$> Session.flvGopCacheQueue s)
                      (Session.set_rtmpGopCacheQueue
                         ((fun _ => []) <$> Session.rtmpGopCacheQueue s) s)))));
     update this (fun s => Session.set_publishStreamPath EmptyString
                             (Session.set_publishStreamId 0 s))).

(** [onCloseStream()]. *)
Definition onCloseStream (this : string) : M unit :=
  s ← object this;
  match Session.parserPacket s with
  | None => raise TypeError
  | Some pp => onDeleteStream this (Some (Header.stream_id (RtmpPacket.header pp)))
  end.

(** [stop()]; [reject], [onSocketClose], [onSocketError] and
    [onSocketTimeout] only call it. *)
Definition stop (this : string) : M unit :=
  s ← object this;
  when (Session.isStarting s)
    (_ ← update this (Session.set_isStarting false);
     _ ← when (0 <? Session.playStreamId s)
           (onDeleteStream this (Some (Session.playStreamId s)));
     s ← object this;
     _ ← when (0 <? Session.publishStreamId s)
           (onDeleteStream this (Some (Session.publishStreamId s)));
     _ ← update this (Session.set_pingInterval false);
     _ ← modify (fun c => set_sessions (delete this (sessions c)) c);
     update this (Session.set_destroyed true)).

Definition reject := stop.
Definition onSocketClose := stop.
Definition onSocketError := stop.
Definition onSocketTimeout := stop.

(** What [onPublish] and [onPlay] do with a status for a client that is
    not authorized. *)
Definition gate (s : Session.t) (auth verified : bool) : bool :=
  auth && negb (Session.isLocal s) && negb (Session.isIPC s) && negb verified.

(** [onPublish(invokeMessage)], on [invokeMessage.streamName];
    [verified] is what [NodeCoreUtils.verifyAuth] (lib/core/utils, not
    among these sources) answers for the signature of this request. *)
Definition onPublish (this : string) (streamName : jsval) (verified : bool)
    : M unit :=
  match streamName with
  | JString streamName =>
      s ← object this;
      let path := stream_path (Session.appname s) streamName in
      _ ← update this (Session.set_publishStreamPath path);
      sid ← match Session.parserPacket s with
            | Some pp => mret (Header.stream_id (RtmpPacket.header pp))
            | None => raise TypeError
            end;
      _ ← update this (Session.set_publishStreamId sid);
      if negb (Session.isStarting s) then mret tt
      else if gate s (Session.authPublish s) verified then
        sendStatusMessage this sid (JString "error")
          (JString "NetStream.publish.Unauthorized")
          (JString "Authorization required.")
      else
        registered ← read (fun c => publishers c !! path);
        match registered with
        | Some _ =>
            sendStatusMessage this sid (JString "error")
              (JString "NetStream.Publish.BadName")
              (JString "Stream already publishing")
        | None =>
            if Session.isPublishing s then
              sendStatusMessage this sid (JString "error")
                (JString "NetStream.Publish.BadConnection")
                (JString "Connection already publishing")
            else
              _ ← modify (fun c => set_publishers (<[path := this]> (publishers c)) c);
              _ ← update this (Session.set_isPublishing true);
              _ ← sendStatusMessage this sid (JString "status")
                    (JString "NetStream.Publish.Start")
                    (JString (path ++ " is now published."));
              idle ← read idlePlayers;
              forEach idle (fun idlePlayerId =>
                idlePlayer ← sessions_get idlePlayerId;
                match idlePlayer with
                | None => raise TypeError
                | Some idlePlayer =>
                    when (String.eqb (Session.playStreamPath idlePlayer) path)
                      (_ ← onStartPlay idlePlayerId;
                       modify (fun c =>
                         set_idlePlayers (delete idlePlayerId (idlePlayers c)) c))
                end)
        end
  | _ => mret tt
  end.

(** [onPlay(invokeMessage)], on [invokeMessage.streamName]. *)
Definition onPlay (this : string) (streamName : jsval) (verified : bool)
    : M unit :=
  match streamName with
  | JString streamName =>
      s ← object this;
      let path := stream_path (Session.appname s) streamName in
      _ ← update this (Session.set_playStreamPath path);
      sid ← match Session.parserPacket s with
            | Some pp => mret (Header.stream_id (RtmpPacket.header pp))
            | None => raise TypeError
            end;
      _ ← update this (Session.set_playStreamId sid);
      if negb (Session.isStarting s) then mret tt
      else if gate s (Session.authPlay s) verified then
        sendStatusMessage this sid (JString "error")
          (JString "NetStream.play.Unauthorized")
          (JString "Authorization required.")
      else
        _ ← (if Session.isPlaying s then
               sendStatusMessage this sid (JString "error")
                 (JString "NetStream.Play.BadConnection")
                 (JString "Connection already playing")
             else respondPlay this);
        registered ← read (fun c => publishers c !! path);
        match registered with
        | Some _ => onStartPlay this
        | None =>
            _ ← update this (Session.set_isIdling true);
            modify (fun c => set_idlePlayers (add this (idlePlayers c)) c)
        end
  | _ => mret tt
  end.

(** The buffer at the end of the RTMP GOP queue is the one the handler
    has just added: [writeUInt32LE] on it changes it in the queue. *)
Definition storeLast (this : string) (buf : Buffer) : M unit :=
  update this (fun p =>
    Session.set_rtmpGopCacheQueue
      ((fun q => <[(length q - 1)%nat := buf]> q) <$> Session.rtmpGopCacheQueue p) p).

(** [for (const playerId of this.players)] in the audio, video and data
    handlers: the chunks go to every RTMP session that plays, is not
    paused and [receives], with its play stream id written at offset 8.
    [cached] tells whether [rtmpChunks] was added to the GOP queue. *)
Fixpoint broadcast (this : string) (cached : bool)
    (receives : Session.t -> bool) (rtmpChunks : Buffer)
    (players : list string) : M unit :=
  match players with
  | [] => mret tt
  | playerId :: players' =>
      playerSession ← sessions_get playerId;
      match playerSession with
      | Some ps =>
          if Session.isStarting ps && Session.isPlaying ps
             && negb (Session.isPause ps) && receives ps
          then
            rtmpChunks ← lift (writeUInt32LE rtmpChunks (Session.playStreamId ps) 8);
            _ ← when cached (storeLast this rtmpChunks);
            _ ← socket_write playerId rtmpChunks;
            broadcast this cached receives rtmpChunks players'
          else broadcast this cached receives rtmpChunks players'
      | None => broadcast this cached receives rtmpChunks players'
      end
  end.

(** [this.parserPacket.payload.slice(offset, this.parserPacket.header.length)]
    and the packet. *)
Definition received (this : string) (offset : Z) : M (RtmpPacket.t * Buffer) :=
  s ← object this;
  match Session.parserPacket s with
  | None => raise TypeError
  | Some pp =>
      match RtmpPacket.payload pp with
      | None => raise TypeError
      | Some payload =>
          mret (pp, slice payload offset (Header.length (RtmpPacket.header pp)))
      end
  end.

(** [payload[i]] under a bitwise operator: [undefined] counts as 0. *)
Definition bits_at (payload : Buffer) (i : Z) : Z := default 0 (get payload i).

(** [payload[i] === v]. *)
Definition is_at (payload : Buffer) (i v : Z) : bool :=
  match get payload i with
  | Some b => b =? v
  | None => false
  end.

(** [this.rtmpGopCacheQueue.add(rtmpChunks); this.flvGopCacheQueue.add(flvTag)]. *)
Definition cacheGop (this : string) (rtmpChunks : Buffer) (packet : RtmpPacket.t)
    : M unit :=
  _ ← update this (fun s =>
        Session.set_rtmpGopCacheQueue
          ((fun q => q ++ [rtmpChunks]) <$> Session.rtmpGopCacheQueue s) s);
  s ← object this;
  match Session.flvGopCacheQueue s with
  | None => raise TypeError
  | Some q => update this (Session.set_flvGopCacheQueue (Some (q ++ [packet])))
  end.

(** [rtmpAudioHandler()].  [AV.readAACSpecificConfig] and
    [NodeFlvSession.createFlvTag] (lib/core/av and lib/flv_session, not
    among these sources) are taken to return; the first only feeds the
    descriptive fields, which are left out. *)
Definition rtmpAudioHandler (this : string) : M unit :=
  r ← received this 0;
  let '(pp, payload) := r in
  s ← object this;
  _ ← when (negb (Session.isFirstAudioReceived s))
        (let sound_format := band (shr (bits_at payload 0) 4) 0x0f in
         _ ← update this (Session.set_audioCodec sound_format);
         if sound_format =? 10 then
           (* cache aac sequence header *)
           when (is_at payload 1 0)
             (update this (fun s =>
                Session.set_aacSequenceHeader (Some payload)
                  (Session.set_isFirstAudioReceived true s)))
         else update this (Session.set_isFirstAudioReceived true));
  packet ← lift (message RTMP_CHANNEL_AUDIO RTMP_TYPE_AUDIO 0
                   (RtmpPacket.clock pp) (Some payload));
  rtmpChunks ← chunksCreate this packet;
  (* cache gop *)
  s ← object this;
  cached ← match Session.rtmpGopCacheQueue s with
           | Some _ =>
               if bool_decide (Session.aacSequenceHeader s <> None)
                  && is_at payload 1 0
               then mret false   (* skip aac sequence header *)
               else _ ← cacheGop this rtmpChunks packet; mret true
           | None => mret false
           end;
  broadcast this cached Session.isReceiveAudio rtmpChunks (Session.players s).

(** [rtmpVideoHandler()]; [AV.readAVCSpecificConfig] as above. *)
Definition rtmpVideoHandler (this : string) : M unit :=
  r ← received this 0;
  let '(pp, payload) := r in
  let codec_id := band (bits_at payload 0) 0x0f in
  let frame_type := band (shr (bits_at payload 0) 4) 0x0f in
  let avc := (codec_id =? 7) || (codec_id =? 12) in
  s ← object this;
  _ ← when (negb (Session.isFirstVideoReceived s))
        (_ ← update this (Session.set_videoCodec codec_id);
         if avc then
           (* cache avc sequence header *)
           when ((frame_type =? 1) && is_at payload 1 0)
             (update this (fun s =>
                let queue {A} : option (list A) :=
                  if Session.gopCacheEnable s then Some [] else None in
                Session.set_flvGopCacheQueue queue
                  (Session.set_rtmpGopCacheQueue queue
                     (Session.set_avcSequenceHeader (Some payload)
                        (Session.set_isFirstVideoReceived true s)))))
         else update this (Session.set_isFirstVideoReceived true));
  packet ← lift (message RTMP_CHANNEL_VIDEO RTMP_TYPE_VIDEO 0
                   (RtmpPacket.clock pp) (Some payload));
  rtmpChunks ← chunksCreate this packet;
  (* cache gop *)
  s ← object this;
  cached ← match Session.rtmpGopCacheQueue s with
           | Some _ =>
               if avc then
                 _ ← when ((frame_type =? 1) && is_at payload 1 1)
                       (_ ← update this (Session.set_rtmpGopCacheQueue (Some []));
                        s ← object this;
                        match Session.flvGopCacheQueue s with
                        | None => raise TypeError
                        | Some _ => update this (Session.set_flvGopCacheQueue (Some []))
                        end);
                 if (frame_type =? 1) && is_at payload 1 0
                 then mret false   (* skip avc sequence header *)
                 else _ ← cacheGop this rtmpChunks packet; mret true
               else mret false
           | None => mret false
           end;
  broadcast this cached Session.isReceiveVideo rtmpChunks (Session.players s).

End NodeRtmpSession.

(** ** lib/rtmp/rtmp_session : the data messages *)

Module DataMessages.
Import Broker NodeRtmpSession.

Definition RTMP_TYPE_FLEX_STREAM := 15.

(** [this.parserPacket.payload.slice(offset, this.parserPacket.header.length)]
    of [rtmpDataHandler]: an AMF3 data message has one byte before the
    AMF0 values. *)
Definition dataPayload (this : string) : M Buffer :=
  s ← object this;
  match Session.parserPacket s with
  | None => raise TypeError
  | Some pp =>
      let offset :=
        if Header.type (RtmpPacket.header pp) =? RTMP_TYPE_FLEX_STREAM then 1 else 0 in
      match RtmpPacket.payload pp with
      | None => raise TypeError
      | Some payload =>
          mret (slice payload offset (Header.length (RtmpPacket.header pp)))
      end
  end.

(** The [switch (dataMessage.cmd)] of [rtmpDataHandler].  The fields
    that only describe the stream ([audioSamplerate], [videoWidth], ...)
    are left out; reading them off a [dataObj] that is truthy does not
    raise.  [NodeFlvSession.createFlvTag] (lib/flv_session, not among
    these sources) is taken to return.  The loop over [this.players]
    is the one of the media handlers, without a receive flag and
    without a queue. *)
Definition onDataMessage (this : string) (dataMessage : list (string * jsval))
    : M unit :=
  match get_prop dataMessage "cmd" with
  | Some (JString cmd) =>
      if String.eqb cmd "@setDataFrame" then
        let opt := [ ("cmd", JString "onMetaData");
                     ("dataObj", Amf0.prop_or_undefined dataMessage "dataObj") ]%string in
        metaData ← lift (Amf0.encodeAmf0Data opt);
        _ ← update this (Session.set_metaData (Some metaData));
        packet ← lift (message RTMP_CHANNEL_DATA RTMP_TYPE_DATA 0 0 (Some metaData));
        rtmpChunks ← chunksCreate this packet;
        s ← object this;
        broadcast this false (fun _ => true) rtmpChunks (Session.players s)
      else mret tt
  | _ => mret tt
  end.

(** [rtmpDataHandler()]; [None] when the decoder ran out of turns. *)
Definition rtmpDataHandler (fuel : nat) (this : string) (c : context)
    : option (result unit * context) :=
  match dataPayload this c with
  | (Throw e, c') => Some (Throw e, c')
  | (Ok payload, c') =>
      match Amf0.decodeAmf0Data fuel payload with
      | None => None
      | Some (Throw e) => Some (Throw e, c')
      | Some (Ok dataMessage) => Some (onDataMessage this dataMessage c')
      end
  end.

End DataMessages.

(* ===================================================================== *)
(** * Facts about the primitives *)
(* ===================================================================== *)

Module JsFacts.

(** A boolean property checked on every element of [0, n) holds on the
    whole interval. *)
Lemma forall_below (f : Z -> bool) (n : nat) :
  forallb f (map Z.of_nat (seq 0 n)) = true ->
  forall z, 0 <= z < Z.of_nat n -> f z = true.
Proof.
  intros H z Hz.
  rewrite forallb_forall in H. apply H.
  apply in_map_iff. exists (Z.to_nat z). split; [lia|].
  apply in_seq. lia.
Qed.

Lemma to_int32_small z : - 2147483648 <= z < 2147483648 -> to_int32 z = z.
Proof.
  intros H. unfold to_int32.
  change (2 ^ 31) with 2147483648. change (2 ^ 32) with 4294967296.
  rewrite Z.mod_small; lia.
Qed.

Lemma band_ones x n :
  0 <= x < 2147483648 -> 0 <= n <= 30 -> band x (Z.ones n) = x mod 2^n.
Proof.
  intros Hx Hn. unfold band.
  assert (Hp : 0 < 2^n <= 1073741824).
  { split; [apply Z.pow_pos_nonneg; lia |].
    change 1073741824 with (2 ^ 30). apply Z.pow_le_mono_r; lia. }
  assert (Ho : Z.ones n = 2^n - 1) by (rewrite Z.ones_equiv; lia).
  rewrite (to_int32_small x) by lia.
  rewrite (to_int32_small (Z.ones n)) by lia.
  rewrite Z.land_ones by lia.
  apply to_int32_small.
  pose proof (Z.mod_pos_bound x (2^n) ltac:(lia)). lia.
Qed.

Lemma shr_small x n :
  0 <= x < 2147483648 -> 0 <= n < 32 -> shr x n = x / 2^n.
Proof.
  intros Hx Hn. unfold shr.
  rewrite to_int32_small by lia. rewrite Z.mod_small by lia.
  apply Z.shiftr_div_pow2. lia.
Qed.



End JsFacts.

(* ===================================================================== *)
(** * The AMF3 UInt29 codec *)
(* ===================================================================== *)

Module Amf3Facts.
Import Amf3.

(** [amf3encUI29] never takes the 1-byte or the 2-byte branch. *)
Lemma ui29_len_3_or_4 num :
  ui29_len num = if num <? 0x200000 then 3 else 4.
Proof.
  unfold ui29_len.
  repeat match goal with |- context [?a <? ?b] => destruct (Z.ltb_spec a b) end;
  repeat match goal with |- context [?a <=? ?b] => destruct (Z.leb_spec a b) end;
  lia.
Qed.

(** C10 (evaluation at the failing input): [amf3encInteger(0)] is the
    marker followed by the three bytes 00 00 80, and [amf3decInteger]
    raises a RangeError on it, reading a fourth byte that is not there;
    the value 0 is not returned. *)
Theorem amf3_integer_roundtrip_fails_at_0 :
  amf3encInteger 0 = Ok [4; 0; 0; 128] /\
  (buf ← amf3encInteger 0; amf3decInteger buf) = Throw RangeError.
Proof. split; reflexivity. Qed.

(** The 4-byte branch decodes, to another number. *)
Example amf3_integer_0x200000 :
  (buf ← amf3encInteger 0x200000; amf3decInteger buf)
  = Ok {| len := 5; value := 0x3FFF |}.
Proof. reflexivity. Qed.

End Amf3Facts.

(* ===================================================================== *)
(** * Chunk basic headers *)
(* ===================================================================== *)

Module BasicHeaderFacts.
Import Chunk JsFacts.

Definition bh_check1 (fmt cid : Z) : bool :=
  match rtmpChunkBasicHeaderCreate fmt cid with
  | [b0] => (Z.land b0 0x3F =? cid) && (b0 / 64 =? fmt)
  | _ => false
  end.

Definition bh_check2 (fmt c : Z) : bool :=
  match rtmpChunkBasicHeaderCreate fmt (64 + c) with
  | [b0; b1] => (Z.land b0 0x3F =? 0) && (b0 / 64 =? fmt) && (b1 =? c)
  | _ => false
  end.

Lemma bh_1byte fmt cid :
  0 <= fmt <= 3 -> 0 <= cid <= 63 -> bh_check1 fmt cid = true.
Proof.
  intros Hf Hc.
  assert (H : forallb (fun f => forallb (bh_check1 f) (map Z.of_nat (seq 0 64)))
                (map Z.of_nat (seq 0 4)) = true) by (vm_compute; reflexivity).
  pose proof (forall_below _ _ H fmt ltac:(lia)) as H1. cbv beta in H1.
  apply (forall_below _ _ H1). lia.
Qed.

Lemma bh_2byte fmt c :
  0 <= fmt <= 3 -> 0 <= c < 255 -> bh_check2 fmt c = true.
Proof.
  intros Hf Hc.
  assert (H : forallb (fun f => forallb (bh_check2 f) (map Z.of_nat (seq 0 255)))
                (map Z.of_nat (seq 0 4)) = true) by (vm_compute; reflexivity).
  pose proof (forall_below _ _ H fmt ltac:(lia)) as H1. cbv beta in H1.
  apply (forall_below _ _ H1). lia.
Qed.

(** The first byte of the 3-byte form, for the four formats. *)
Lemma bh_first3 fmt :
  0 <= fmt <= 3 -> Z.modulo (bor (shl fmt 6) 1) 256 = fmt * 64 + 1.
Proof.
  intros Hf.
  assert (fmt = 0 \/ fmt = 1 \/ fmt = 2 \/ fmt = 3) as [->|[->|[->| ->]]] by lia;
    reflexivity.
Qed.

Lemma bh_3byte fmt cid :
  0 <= fmt <= 3 -> 319 <= cid <= 65599 ->
  rtmpChunkBasicHeaderCreate fmt cid
  = [fmt * 64 + 1; (cid - 64) mod 256; (cid - 64) / 256].
Proof.
  intros Hf Hc. unfold rtmpChunkBasicHeaderCreate.
  destruct (Z.leb_spec (64 + 255) cid); [|lia].
  change (alloc 3) with [0; 0; 0]. unfold set. cbn [Z.ltb Z.compare Z.to_nat].
  change (Z.to_nat 0) with 0%nat. change (Pos.to_nat 1) with 1%nat.
  change (Pos.to_nat 2) with 2%nat. cbn [list_insert insert].
  rewrite bh_first3 by lia.
  assert (Hd : 0 <= (cid - 64) / 256 < 256).
  { split; [apply Z.div_pos; lia | apply Z.div_lt_upper_bound; lia]. }
  rewrite (shr_small (cid - 64) 8) by lia.
  change (2 ^ 8) with 256.
  change 0xFF with (Z.ones 8). rewrite !band_ones by lia.
  change (2 ^ 8) with 256.
  rewrite (Z.mod_small ((cid - 64) / 256)) by lia.
  rewrite Z.mod_mod by lia.
  rewrite (Z.mod_small ((cid - 64) / 256)) by lia.
  reflexivity.
Qed.

(** C4 (as amended): for every [fmt] in 0..3,
    [rtmpChunkBasicHeaderCreate(fmt, cid)] is one byte whose low six
    bits are [cid] (and whose top two bits are [fmt]) for [cid] in
    2..63; two bytes, the first with low six bits 0 and the second
    equal to [cid - 64], for [cid] in 64..318; and three bytes, the
    first with low six bits 1 and the last two holding [cid - 64]
    little-endian, for [cid] in 319..65599. *)
Theorem basic_header_forms fmt cid :
  0 <= fmt <= 3 ->
  (2 <= cid <= 63 ->
     exists b0, rtmpChunkBasicHeaderCreate fmt cid = [b0]
                /\ Z.land b0 0x3F = cid /\ b0 / 64 = fmt) /\
  (64 <= cid <= 318 ->
     exists b0, rtmpChunkBasicHeaderCreate fmt cid = [b0; cid - 64]
                /\ Z.land b0 0x3F = 0 /\ b0 / 64 = fmt) /\
  (319 <= cid <= 65599 ->
     rtmpChunkBasicHeaderCreate fmt cid
     = [fmt * 64 + 1; (cid - 64) mod 256; (cid - 64) / 256]
     /\ Z.land (fmt * 64 + 1) 0x3F = 1
     /\ (cid - 64) mod 256 + 256 * ((cid - 64) / 256) = cid - 64).
Proof.
  intros Hf. repeat split.
  - intros Hc. pose proof (bh_1byte fmt cid Hf ltac:(lia)) as H.
    unfold bh_check1 in H.
    set (r := rtmpChunkBasicHeaderCreate fmt cid) in *. clearbody r.
    destruct r as [|b0 [|? ?]]; try discriminate.
    exists b0. apply andb_true_iff in H as [H1 H2]. split; [reflexivity|]. lia.
  - intros Hc. pose proof (bh_2byte fmt (cid - 64) Hf ltac:(lia)) as H.
    unfold bh_check2 in H. replace (64 + (cid - 64)) with cid in H by lia.
    set (r := rtmpChunkBasicHeaderCreate fmt cid) in *. clearbody r.
    destruct r as [|b0 [|b1 [|? ?]]]; try discriminate.
    exists b0. apply andb_true_iff in H as [H H3].
    apply andb_true_iff in H as [H1 H2].
    split; [f_equal; f_equal; lia|]. lia.
  - apply bh_3byte; lia.
  - assert (fmt = 0 \/ fmt = 1 \/ fmt = 2 \/ fmt = 3) as [->|[->|[->| ->]]] by lia;
      reflexivity.
  - pose proof (Z.div_mod (cid - 64) 256 ltac:(lia)). lia.
Qed.

Lemma basic_header_forms_witness :
  (exists b0, rtmpChunkBasicHeaderCreate 0 4 = [b0]
              /\ Z.land b0 0x3F = 4 /\ b0 / 64 = 0).
Proof.
  apply (basic_header_forms 0 4); lia.
Defined.

(** C4, the claim as stated, fails at [cid = 319]: the code tests
    [cid >= 64 + 255] and emits the 3-byte form 01 FF 00 there, not a
    2-byte header whose second byte is 255. *)
Lemma basic_header_319_is_3_bytes :
  rtmpChunkBasicHeaderCreate 0 319 = [1; 255; 0] /\
  ~ (exists b0, rtmpChunkBasicHeaderCreate 0 319 = [b0; 319 - 64]).
Proof.
  split; [reflexivity|]. intros [b0 H]. discriminate H.
Qed.

(** C3 (evaluation at the failing input): with the 3-byte basic header
    01 00 01 (second byte 0, third byte 1) the parser computes the
    chunk-stream id (64 + 0 + 1) << 8 = 16640, not 64 + 0 + 1 * 256 =
    320. *)
Theorem parse_cid_3byte_wrong :
  let s := set_parserBasicBytes
             (set_parserBuffer parser_init
                (copy [1; 0; 1] (parserBuffer parser_init) 0)) 3 in
  parse_cid s = 16640 /\ parse_cid s <> 64 + 0 + 1 * 256.
Proof. split; [reflexivity | discriminate]. Qed.

(** On every 3-byte basic header the parser computes
    [(64 + b1 + b2) * 256], which is never [64 + b1 + b2 * 256]. *)
Lemma parse_cid_3byte (s : parser) b0 b1 b2 rest :
  parserBasicBytes s = 3 -> parserBuffer s = b0 :: b1 :: b2 :: rest ->
  0 <= b1 < 256 -> 0 <= b2 < 256 ->
  parse_cid s = (64 + b1 + b2) * 256 /\ parse_cid s <> 64 + b1 + b2 * 256.
Proof.
  intros Hb Hbuf H1 H2. unfold parse_cid. rewrite Hb, Hbuf.
  change (3 =? 2) with false. change (3 =? 3) with true. cbv iota.
  change (byte_at (b0 :: b1 :: b2 :: rest) 1) with b1.
  change (byte_at (b0 :: b1 :: b2 :: rest) 2) with b2.
  assert (E : shl (64 + b1 + b2) 8 = (64 + b1 + b2) * 256).
  { unfold shl. rewrite (to_int32_small (64 + b1 + b2)) by lia.
    change (8 mod 32) with 8. rewrite Z.shiftl_mul_pow2 by lia.
    change (2 ^ 8) with 256. apply to_int32_small. lia. }
  rewrite E. split; [reflexivity | lia].
Qed.

End BasicHeaderFacts.

(* ===================================================================== *)
(** * Buffers as segments *)
(* ===================================================================== *)

Module BufferFacts.
Import JsFacts.

Lemma blen_app (a b : Buffer) : blen (a ++ b) = blen a + blen b.
Proof. unfold blen. rewrite length_app. lia. Qed.

Lemma blen_nonneg (a : Buffer) : 0 <= blen a.
Proof. unfold blen. lia. Qed.

Lemma blen_cons x (a : Buffer) : blen (x :: a) = 1 + blen a.
Proof. unfold blen. cbn [length]. lia. Qed.


Lemma slice_mid (pre mid rest : Buffer) a e :
  a = blen pre -> e = blen pre + blen mid ->
  slice (pre ++ mid ++ rest) a e = mid.
Proof.
  intros -> ->. unfold slice, blen.
  rewrite Nat2Z.id.
  replace (Z.to_nat (Z.of_nat (length pre) + Z.of_nat (length mid)
                     - Z.of_nat (length pre))) with (length mid) by lia.
  rewrite drop_app_length. apply take_app_length.
Qed.


(** Copying over a segment of the same length replaces it. *)
Lemma copy_mid (src pre old rest : Buffer) a :
  a = blen pre -> length old = length src ->
  copy src (pre ++ old ++ rest) a = pre ++ src ++ rest.
Proof.
  intros -> Hl. unfold copy, blen. rewrite Nat2Z.id.
  rewrite take_app_length.
  rewrite !length_app.
  replace (Nat.min (length src) (length pre + (length old + length rest) - length pre))
    with (length src) by lia.
  rewrite firstn_all.
  rewrite drop_app_add'; [|reflexivity].
  rewrite <- Hl. rewrite drop_app_length. reflexivity.
Qed.

(** Copying into the zone after a prefix, when the source fits. *)
Lemma copy_after (src pre rest : Buffer) a :
  a = blen pre -> (length src <= length rest)%nat ->
  copy src (pre ++ rest) a = pre ++ src ++ drop (length src) rest.
Proof.
  intros Ha Hl.
  rewrite <- (take_drop (length src) rest) at 1.
  apply copy_mid; [assumption|].
  rewrite length_take. lia.
Qed.

Lemma length_copy (src target : Buffer) a :
  0 <= a -> length (copy src target a) = length target.
Proof.
  intros Ha. unfold copy.
  rewrite !length_app, !length_take, length_drop. lia.
Qed.

(** ** Integer fields *)

Lemma length_le_bytes n v : length (le_bytes n v) = n.
Proof. revert v. induction n; intros v; cbn [le_bytes length]; congruence. Qed.

Lemma length_be_bytes n v : length (be_bytes n v) = n.
Proof. unfold be_bytes. rewrite length_rev. apply length_le_bytes. Qed.



Lemma le_value_le_bytes n v :
  0 <= v < 256 ^ Z.of_nat n -> le_value (le_bytes n v) = v.
Proof.
  revert v. induction n as [|n IH]; intros v Hv.
  - change (256 ^ Z.of_nat 0) with 1 in Hv. cbn [le_bytes le_value]. lia.
  - cbn [le_bytes le_value].
    rewrite Nat2Z.inj_succ, Z.pow_succ_r in Hv by lia.
    rewrite IH.
    + pose proof (Z.div_mod v 256 ltac:(lia)). lia.
    + split; [apply Z.div_pos; lia | apply Z.div_lt_upper_bound; lia].
Qed.

Lemma be_value_be_bytes n v :
  0 <= v < 256 ^ Z.of_nat n -> be_value (be_bytes n v) = v.
Proof.
  intros Hv. unfold be_value, be_bytes. rewrite rev_involutive.
  apply le_value_le_bytes, Hv.
Qed.

End BufferFacts.

(* ===================================================================== *)
(** * The chunk encoder in closed form *)
(* ===================================================================== *)

Module EncoderFacts.
Import Chunk JsFacts BufferFacts.

Section Encoder.
Variables (chunkSize timestamp : Z) (bh3 pl : Buffer).
Hypothesis HC : 1 <= chunkSize.
Hypothesis Hts : 0 <= timestamp < 4294967296.

Definition useExt := 0xffffff <=? timestamp.
Definition ext := if useExt then be_bytes 4 timestamp else [].

(** What the [while] loop lays out for the payload bytes [Q] still to
    send: chunks of [chunkSize] bytes, each but the last followed by a
    type-3 basic header and the extended timestamp when in use. *)
Fixpoint body (turns : nat) (Q : Buffer) : Buffer :=
  match turns with
  | O => []
  | S turns' =>
      if chunkSize <? blen Q
      then take (Z.to_nat chunkSize) Q ++ bh3 ++ ext
           ++ body turns' (drop (Z.to_nat chunkSize) Q)
      else Q
  end.

Lemma length_ext : length ext = if useExt then 4%nat else 0%nat.
Proof. unfold ext. destruct useExt; [apply length_be_bytes | reflexivity]. Qed.

Lemma chunks_loop_body turns :
  forall (po : nat) (pre rest : Buffer),
    (po <= length pl)%nat ->
    (length (drop po pl) <= turns)%nat ->
    length rest = length (body turns (drop po pl)) ->
    chunks_loop turns (Some pl) bh3 useExt timestamp chunkSize
      (pre ++ rest) (blen (drop po pl)) (blen pre) (Z.of_nat po)
    = Ok (pre ++ body turns (drop po pl)).
Proof.
  induction turns as [|turns IH]; intros po pre rest Hpo Hturns Hrest.
  - cbn [chunks_loop body] in *.
    destruct rest; [reflexivity | discriminate].
  - cbn [chunks_loop]. cbn [body] in Hrest |- *.
    set (Q := drop po pl) in *.
    destruct (Z.ltb_spec 0 (blen Q)) as [HQ|HQ].
    2:{ assert (Q = []) as -> by (destruct Q; [reflexivity | rewrite blen_cons in HQ;
                                    pose proof (blen_nonneg Q); lia]).
        change (blen []) with 0 in *.
        destruct (Z.ltb_spec chunkSize 0); [lia|].
        destruct rest; [reflexivity | discriminate]. }
    destruct (Z.ltb_spec chunkSize (blen Q)) as [Hbig|Hsmall].
    + (* a full chunk, then a continuation header *)
      assert (Hslice : slice pl (Z.of_nat po) (Z.of_nat po + chunkSize)
                       = take (Z.to_nat chunkSize) Q).
      { unfold slice. subst Q. rewrite Nat2Z.id. f_equal. lia. }
      rewrite Hslice.
      set (c := take (Z.to_nat chunkSize) Q) in *.
      assert (Hc : length c = Z.to_nat chunkSize).
      { subst c. rewrite length_take. unfold blen in Hbig. lia. }
      rewrite !length_app in Hrest.
      rewrite (copy_after c pre rest) by (try reflexivity; lia).
      rewrite (app_assoc pre c).
      rewrite (copy_after bh3 (pre ++ c) (drop (length c) rest)).
      2:{ rewrite blen_app. unfold blen. lia. }
      2:{ rewrite length_drop. lia. }
      rewrite drop_drop.
      rewrite (app_assoc (pre ++ c) bh3).
      assert (Hd : drop (Z.to_nat chunkSize) Q = drop (po + Z.to_nat chunkSize) pl).
      { subst Q. rewrite drop_drop. reflexivity. }
      assert (Hlen' : (length (drop (po + Z.to_nat chunkSize) pl) <= turns)%nat).
      { subst Q. rewrite length_drop in *. unfold blen in Hbig.
        rewrite length_drop in Hbig. lia. }
      assert (Hpo' : (po + Z.to_nat chunkSize <= length pl)%nat).
      { subst Q. unfold blen in Hbig. rewrite length_drop in Hbig. lia. }
      assert (HblenQ : blen (drop (po + Z.to_nat chunkSize) pl) = blen Q - chunkSize).
      { subst Q. unfold blen. rewrite !length_drop. lia. }
      pose proof length_ext as Hle.
      destruct useExt eqn:Hu.
      * unfold writeUIntBE.
        assert (Hv : (0 <=? timestamp) && (timestamp <? 256 ^ 4) = true).
        { change (256 ^ 4) with 4294967296.
          apply andb_true_iff; split;
            [apply Z.leb_le | apply Z.ltb_lt]; lia. }
        rewrite Hv. cbn [andb].
        set (pre2 := (pre ++ c) ++ bh3).
        set (rest2 := drop (length c + length bh3) rest).
        assert (Hr2 : length rest2
                      = (4 + length (body turns (drop (Z.to_nat chunkSize) Q)))%nat).
        { subst rest2. rewrite length_drop. lia. }
        assert (Hoff : blen pre + chunkSize + blen bh3 = blen pre2).
        { subst pre2. rewrite !blen_app. unfold blen. lia. }
        rewrite Hoff.
        assert (Hin : in_range (pre2 ++ rest2) (blen pre2) 4 = true).
        { unfold in_range. rewrite blen_app. unfold blen.
          apply andb_true_iff; split;
            [apply Z.leb_le | apply Z.leb_le]; lia. }
        rewrite Hin.
        change (Z.to_nat 4) with 4%nat.
        rewrite (copy_after (be_bytes 4 timestamp) pre2 rest2)
          by (try reflexivity; rewrite length_be_bytes; lia).
        cbn [mbind result_bind Js.bind].
        rewrite length_be_bytes.
        replace (Z.of_nat po + chunkSize)
          with (Z.of_nat (po + Z.to_nat chunkSize)) by lia.
        replace (blen pre2 + 4) with (blen (pre2 ++ be_bytes 4 timestamp)).
        2:{ rewrite blen_app. unfold blen. rewrite length_be_bytes. lia. }
        rewrite <- HblenQ.
        rewrite (app_assoc pre2).
        rewrite IH.
        -- rewrite <- Hd. subst pre2. unfold ext. rewrite Hu.
           rewrite <- !app_assoc. reflexivity.
        -- exact Hpo'.
        -- exact Hlen'.
        -- subst rest2. rewrite <- Hd. rewrite !length_drop. lia.
      * set (pre2 := (pre ++ c) ++ bh3).
        set (rest2 := drop (length c + length bh3) rest).
        assert (Hoff : blen pre + chunkSize + blen bh3 = blen pre2).
        { subst pre2. rewrite !blen_app. unfold blen. lia. }
        rewrite Hoff.
        replace (Z.of_nat po + chunkSize)
          with (Z.of_nat (po + Z.to_nat chunkSize)) by lia.
        rewrite <- HblenQ.
        rewrite IH.
        -- rewrite <- Hd. subst pre2. unfold ext. rewrite Hu.
           rewrite <- !app_assoc. reflexivity.
        -- exact Hpo'.
        -- exact Hlen'.
        -- subst rest2. rewrite <- Hd. rewrite !length_drop. lia.
    + (* the last chunk *)
      assert (Hslice : slice pl (Z.of_nat po) (Z.of_nat po + blen Q) = Q).
      { unfold slice, blen. subst Q. rewrite Nat2Z.id.
        replace (Z.to_nat (Z.of_nat po + Z.of_nat (length (drop po pl)) - Z.of_nat po))
          with (length (drop po pl)) by lia.
        apply firstn_all. }
      rewrite Hslice.
      rewrite (copy_after Q pre rest) by (try reflexivity; lia).
      rewrite drop_ge by lia. rewrite app_nil_r. reflexivity.
Qed.

(** The length of the layout: one continuation header (and extended
    timestamp) per full chunk before the last one. *)
Lemma length_body turns :
  forall Q : Buffer,
    (length Q <= turns)%nat -> 1 <= blen Q ->
    blen (body turns Q)
    = blen Q + ((blen Q - 1) / chunkSize) * (blen bh3 + blen ext).
Proof.
  induction turns as [|turns IH]; intros Q Hturns HQ.
  - unfold blen in HQ. lia.
  - cbn [body].
    destruct (Z.ltb_spec chunkSize (blen Q)) as [Hbig|Hsmall].
    + rewrite !blen_app.
      assert (Hd : blen (drop (Z.to_nat chunkSize) Q) = blen Q - chunkSize).
      { unfold blen in *. rewrite length_drop. lia. }
      rewrite IH.
      2:{ rewrite length_drop. lia. }
      2:{ lia. }
      rewrite Hd.
      assert (Ht : blen (take (Z.to_nat chunkSize) Q) = chunkSize).
      { unfold blen in *. rewrite length_take. lia. }
      rewrite Ht.
      replace (blen Q - 1) with ((blen Q - chunkSize - 1) + 1 * chunkSize) by lia.
      rewrite Z.div_add by lia.
      ring.
    + rewrite Z.div_small by lia. lia.
Qed.

End Encoder.

End EncoderFacts.

(* ===================================================================== *)
(** * The chunk parser, step by step *)
(* ===================================================================== *)

Module ParserFacts.
Import Chunk JsFacts BufferFacts.

Lemma readUIntBE_mid (pre rest : Buffer) n v off :
  off = blen pre -> 0 <= v < 256 ^ Z.of_nat n ->
  readUIntBE (pre ++ be_bytes n v ++ rest) off (Z.of_nat n) = Ok v.
Proof.
  intros -> Hv. unfold readUIntBE.
  assert (Hin : in_range (pre ++ be_bytes n v ++ rest) (blen pre) (Z.of_nat n) = true).
  { unfold in_range. rewrite !blen_app. unfold blen. rewrite length_be_bytes.
    apply andb_true_iff; split; apply Z.leb_le; lia. }
  rewrite Hin. rewrite slice_mid; try reflexivity.
  - rewrite be_value_be_bytes by assumption. reflexivity.
  - unfold blen. rewrite length_be_bytes. reflexivity.
Qed.


Lemma writeUIntBE_mid (pre old rest : Buffer) n v off :
  off = blen pre -> length old = n -> 0 <= v < 256 ^ Z.of_nat n ->
  writeUIntBE (pre ++ old ++ rest) v off (Z.of_nat n)
  = Ok (pre ++ be_bytes n v ++ rest).
Proof.
  intros -> Hl Hv. unfold writeUIntBE.
  assert (Hg : (0 <=? v) && (v <? 256 ^ Z.of_nat n)
               && in_range (pre ++ old ++ rest) (blen pre) (Z.of_nat n) = true).
  { unfold in_range. rewrite !blen_app. unfold blen.
    repeat (apply andb_true_iff; split);
      try apply Z.leb_le; try apply Z.ltb_lt; lia. }
  rewrite Hg. rewrite Nat2Z.id.
  rewrite copy_mid; [reflexivity | reflexivity |].
  rewrite length_be_bytes. assumption.
Qed.

Lemma writeUInt32LE_mid (pre old rest : Buffer) v off :
  off = blen pre -> length old = 4%nat -> 0 <= v < 4294967296 ->
  writeUInt32LE (pre ++ old ++ rest) v off = Ok (pre ++ le_bytes 4 v ++ rest).
Proof.
  intros -> Hl Hv. unfold writeUInt32LE.
  assert (Hg : (0 <=? v) && (v <? 256 ^ 4)
               && in_range (pre ++ old ++ rest) (blen pre) 4 = true).
  { unfold in_range. rewrite !blen_app. unfold blen.
    change (256 ^ 4) with 4294967296.
    repeat (apply andb_true_iff; split);
      try apply Z.leb_le; try apply Z.ltb_lt; lia. }
  rewrite Hg.
  rewrite copy_mid; [reflexivity | reflexivity |].
  rewrite length_le_bytes. assumption.
Qed.

(** ** The header-filling loop *)


End ParserFacts.

(* ===================================================================== *)
(** * Encoding a message and parsing it back *)
(* ===================================================================== *)

Module RoundTrip.
Import Chunk JsFacts BufferFacts EncoderFacts ParserFacts.

Definition small_check (fmt cid : Z) : bool :=
  match rtmpChunkBasicHeaderCreate fmt cid with
  | [b0] => (b0 =? fmt * 64 + cid) && (band b0 0x3F =? cid) && (shr b0 6 =? fmt)
  | _ => false
  end.

Definition medium_check (c : Z) : bool :=
  match rtmpChunkBasicHeaderCreate 0 (64 + c) with
  | [b0; b1] => (b0 =? 0) && (b1 =? c)
  | _ => false
  end.

Lemma bh_small fmt cid :
  0 <= fmt <= 3 -> 0 <= cid <= 63 ->
  rtmpChunkBasicHeaderCreate fmt cid = [fmt * 64 + cid]
  /\ band (fmt * 64 + cid) 0x3F = cid /\ shr (fmt * 64 + cid) 6 = fmt.
Proof.
  intros Hf Hc.
  assert (H : forallb (fun f => forallb (small_check f) (map Z.of_nat (seq 0 64)))
                (map Z.of_nat (seq 0 4)) = true) by (vm_compute; reflexivity).
  pose proof (forall_below _ _ H fmt ltac:(lia)) as H1. cbv beta in H1.
  pose proof (forall_below _ _ H1 cid ltac:(lia)) as H2.
  clear H H1. unfold small_check in H2.
  set (r := rtmpChunkBasicHeaderCreate fmt cid) in *. clearbody r.
  destruct r as [|b0 [|? ?]]; try discriminate.
  apply andb_true_iff in H2 as [H2 H5]. apply andb_true_iff in H2 as [H3 H4].
  apply Z.eqb_eq in H3, H4, H5. subst b0. auto.
Qed.

Lemma bh_medium cid :
  64 <= cid <= 318 -> rtmpChunkBasicHeaderCreate 0 cid = [0; cid - 64].
Proof.
  intros Hc.
  assert (H : forallb medium_check (map Z.of_nat (seq 0 255)) = true)
    by (vm_compute; reflexivity).
  pose proof (forall_below _ _ H (cid - 64) ltac:(lia)) as H2.
  clear H. unfold medium_check in H2. replace (64 + (cid - 64)) with cid in H2 by lia.
  set (r := rtmpChunkBasicHeaderCreate 0 cid) in *. clearbody r.
  destruct r as [|b0 [|b1 [|? ?]]]; try discriminate.
  apply andb_true_iff in H2 as [H3 H4]. apply Z.eqb_eq in H3, H4. congruence.
Qed.

Section Message.
Variables (C cid ts ty sid : Z) (P : Buffer).
Hypothesis HC : 1 <= C.
Hypothesis Hcid : 2 <= cid <= 63 \/ (64 <= cid <= 318 /\ blen P <= C).
Hypothesis Hts : 0 <= ts < 4294967296.
Hypothesis Hty : 0 <= ty < 256.
Hypothesis Hsid : 0 <= sid < 4294967296.
Hypothesis HL : 1 <= blen P < 16777216.

Definition L := blen P.
Definition tsf := if 0xffffff <=? ts then 0xffffff else ts.
Definition bh := rtmpChunkBasicHeaderCreate 0 cid.
Definition bh3 := rtmpChunkBasicHeaderCreate 3 cid.
Definition mh := be_bytes 3 tsf ++ be_bytes 3 L ++ [ty] ++ le_bytes 4 sid.
Definition xts := ext ts.
Definition layout (Q : Buffer) := body C ts bh3 (length Q) Q.
Definition enc := bh ++ mh ++ xts ++ layout P.

Lemma tsf_range : 0 <= tsf < 16777216.
Proof. unfold tsf. destruct (Z.leb_spec 0xffffff ts); lia. Qed.


Lemma mh_create :
  rtmpChunkMessageHeaderCreate (Header.mk 0 cid ts L ty sid) = Ok mh.
Proof.
  unfold rtmpChunkMessageHeaderCreate. cbn [Header.fmt Header.timestamp
    Header.length Header.type Header.stream_id].
  change (rtmpHeaderSize (0 mod 4)) with (Some 11).
  change (0 <=? RTMP_CHUNK_TYPE_2) with true.
  change (0 <=? RTMP_CHUNK_TYPE_1) with true.
  change (0 =? RTMP_CHUNK_TYPE_0) with true. cbv iota.
  fold tsf.
  change (alloc 11) with ([] ++ [0; 0; 0] ++ [0; 0; 0; 0; 0; 0; 0; 0]).
  pose proof tsf_range as Ht.
  rewrite (writeUIntBE_mid [] [0;0;0] _ 3 tsf 0) by (reflexivity || (change (256 ^ Z.of_nat 3) with 16777216; lia)).
  cbn [mbind result_bind Js.bind app].
  change [0; 0; 0; 0; 0; 0; 0; 0] with ([0; 0; 0] ++ [0; 0; 0; 0; 0]).
  rewrite (writeUIntBE_mid (be_bytes 3 tsf) [0;0;0] _ 3 L 3).
  2:{ unfold blen. rewrite length_be_bytes. reflexivity. }
  2:{ reflexivity. }
  2:{ change (256 ^ Z.of_nat 3) with 16777216. unfold L. lia. }
  cbn [mbind result_bind Js.bind].
  unfold writeUInt8.
  change [0; 0; 0; 0; 0] with ([0] ++ [0; 0; 0; 0]).
  rewrite (app_assoc (be_bytes 3 tsf)).
  rewrite (writeUIntBE_mid _ [0] _ 1 ty 6).
  2:{ rewrite blen_app. unfold blen. rewrite !length_be_bytes. reflexivity. }
  2:{ reflexivity. }
  2:{ change (256 ^ Z.of_nat 1) with 256. lia. }
  cbn [mbind result_bind Js.bind].
  assert (Hb1 : be_bytes 1 ty = [ty]).
  { unfold be_bytes. cbn [le_bytes rev app]. rewrite Z.mod_small by lia. reflexivity. }
  rewrite Hb1.
  rewrite (app_assoc _ [ty]).
  rewrite <- (app_nil_r [0; 0; 0; 0]).
  rewrite (writeUInt32LE_mid _ [0;0;0;0] [] sid 7).
  2:{ rewrite !blen_app. unfold blen. rewrite !length_be_bytes. reflexivity. }
  2:{ reflexivity. }
  2:{ lia. }
  unfold mh. rewrite app_nil_r. rewrite <- !app_assoc. reflexivity.
Qed.

Lemma length_bh_cases :
  (bh = [cid] /\ bh3 = [192 + cid] /\ 2 <= cid <= 63) \/
  (bh = [0; cid - 64] /\ 64 <= cid <= 318 /\ blen P <= C).
Proof.
  destruct Hcid as [H|[H H']].
  - left. unfold bh, bh3.
    destruct (bh_small 0 cid ltac:(lia) ltac:(lia)) as [-> _].
    destruct (bh_small 3 cid ltac:(lia) ltac:(lia)) as [-> _].
    auto.
  - right. unfold bh. rewrite bh_medium by lia. auto.
Qed.

(** The allocation size of [rtmpChunksCreate] is the length of the
    layout: with a 1-byte continuation header always, with a longer one
    when the payload fits in one chunk. *)
Lemma alloc_size :
  let n := blen bh + blen mh + (if useExt ts then 4 else 0) + L + L / C in
  let n := if useExt ts then n + (L / C) * 4 else n in
  let n := if L mod C =? 0 then (if useExt ts then n - 1 - 4 else n - 1) else n in
  n = blen bh + blen mh + blen xts + blen (layout P).
Proof.
  cbv zeta. unfold layout, xts.
  rewrite (length_body C ts bh3 HC (length P) P) by (fold L; unfold L in *; lia).
  fold L. unfold L in *.
  assert (Hx : blen (ext ts) = if useExt ts then 4 else 0).
  { unfold blen. rewrite length_ext. destruct (useExt ts); reflexivity. }
  rewrite Hx.
  assert (Hq : (blen P - 1) / C * (blen bh3 - 1) = 0).
  { destruct length_bh_cases as [(_ & -> & _)|(_ & _ & Hle)].
    - change (blen [192 + cid]) with 1. lia.
    - rewrite Z.div_small by lia. lia. }
  assert (Hdiv : (blen P - 1) / C
                 = blen P / C - (if blen P mod C =? 0 then 1 else 0)).
  { destruct (Z.eqb_spec (blen P mod C) 0) as [Hm|Hm].
    - pose proof (Z.div_mod (blen P) C ltac:(lia)) as Hdm. rewrite Hm in Hdm.
      replace (blen P - 1) with ((C - 1) + (blen P / C - 1) * C) by lia.
      rewrite Z.div_add by lia. rewrite Z.div_small by lia. lia.
    - pose proof (Z.div_mod (blen P) C ltac:(lia)) as Hdm.
      pose proof (Z.mod_pos_bound (blen P) C ltac:(lia)) as Hb.
      replace (blen P - 1) with ((blen P mod C - 1) + (blen P / C) * C) by lia.
      rewrite Z.div_add by lia. rewrite Z.div_small by lia. lia. }
  set (q := (blen P - 1) / C) in *.
  assert (Hq' : q * blen bh3 = q) by lia.
  destruct (useExt ts); destruct (Z.eqb_spec (blen P mod C) 0); lia.
Qed.

(** [rtmpChunksCreate] produces the layout. *)
Lemma create_enc (packet : RtmpPacket.t) :
  RtmpPacket.header packet = Header.mk 0 cid ts L ty sid ->
  RtmpPacket.payload packet = Some P ->
  rtmpChunksCreate C packet = Ok enc.
Proof.
  intros Hh Hp. unfold rtmpChunksCreate. rewrite Hh, Hp.
  cbn [Header.fmt Header.cid Header.timestamp Header.length].
  rewrite mh_create. cbn [mbind result_bind Js.bind].
  destruct (Z.ltb_spec C 1) as [|_]; [lia|].
  fold bh bh3. fold (useExt ts).
  pose proof alloc_size as Hn. cbv zeta in Hn. rewrite Hn. clear Hn.
  assert (Hpos : 0 <= blen bh + blen mh + blen xts + blen (layout P)).
  { pose proof (blen_nonneg bh). pose proof (blen_nonneg mh).
    pose proof (blen_nonneg xts). pose proof (blen_nonneg (layout P)). lia. }
  destruct (Z.ltb_spec (blen bh + blen mh + blen xts + blen (layout P)) 0); [lia|].
  assert (Ha : alloc (blen bh + blen mh + blen xts + blen (layout P))
               = repeat 0 (length bh) ++ repeat 0 (length mh)
                 ++ repeat 0 (length xts) ++ repeat 0 (length (layout P))).
  { unfold alloc, blen. rewrite <- !repeat_app. f_equal. lia. }
  rewrite Ha.
  pose proof (copy_mid bh [] (repeat 0 (length bh))
                (repeat 0 (length mh) ++ repeat 0 (length xts)
                 ++ repeat 0 (length (layout P))) 0 eq_refl
                (repeat_length _ _)) as Hc0.
  cbn [app] in Hc0. rewrite Hc0. clear Hc0. rewrite Z.add_0_l.
  rewrite (copy_mid mh bh (repeat 0 (length mh)) _ (blen bh))
    by (reflexivity || apply repeat_length).
  assert (Hext :
    (if useExt ts
     then chunks ← writeUIntBE (bh ++ mh ++ repeat 0 (length xts)
                                   ++ repeat 0 (length (layout P)))
                                ts (blen bh + blen mh) 4;
          Ok (chunks, blen bh + blen mh + 4)
     else Ok (bh ++ mh ++ repeat 0 (length xts) ++ repeat 0 (length (layout P)),
              blen bh + blen mh))
    = Ok ((bh ++ mh ++ xts) ++ repeat 0 (length (layout P)),
          blen (bh ++ mh ++ xts))).
  { unfold xts, ext. destruct (useExt ts).
    - rewrite (app_assoc bh mh).
      change 4 with (Z.of_nat 4) at 1.
      rewrite (writeUIntBE_mid (bh ++ mh) (repeat 0 (length (be_bytes 4 ts))) _ 4 ts).
      + cbn [mbind result_bind Js.bind]. rewrite <- !app_assoc.
        rewrite !blen_app.
        f_equal; f_equal; unfold blen; rewrite ?length_be_bytes; lia.
      + rewrite blen_app. reflexivity.
      + rewrite repeat_length, length_be_bytes. reflexivity.
      + change (256 ^ Z.of_nat 4) with 4294967296. lia.
    - cbn [app length repeat]. rewrite !blen_app. change (blen []) with 0.
      rewrite <- !app_assoc. cbn [app]. f_equal; f_equal; lia. }
  rewrite Hext. cbn [mbind result_bind Js.bind].
  assert (HLn : Z.to_nat L = length P) by (unfold L, blen; lia).
  rewrite HLn.
  pose proof (chunks_loop_body C ts bh3 P HC Hts (length P) 0
                (bh ++ mh ++ xts) (repeat 0 (length (layout P)))) as Hloop.
  rewrite drop_0 in Hloop. change (Z.of_nat 0) with 0 in Hloop.
  fold (layout P) in Hloop. fold L in Hloop.
  change (rtmpChunkBasicHeaderCreate RTMP_CHUNK_TYPE_3 cid) with bh3.
  rewrite Hloop; [| lia | lia | apply repeat_length].
  unfold enc. rewrite <- !app_assoc. reflexivity.
Qed.

(** ** The parser on the layout *)


Definition st (pbuf : Buffer) (state : parse_state) (pb bb : Z)
    (pk : RtmpPacket.t) : parser :=
  mkParser pbuf state pb bb (Some cid) (<[cid := pk]> ∅) C 0 0 0 [] [].


















Lemma get_0 x (l : Buffer) : get (x :: l) 0 = Some x.
Proof. reflexivity. Qed.









End Message.
End RoundTrip.

(* ===================================================================== *)
(** * Claim C1 *)
(* ===================================================================== *)

Module ChunkRoundTrip.
Import Chunk RoundTrip.






(** A message of 2^24 bytes or more does not fit the 3-byte length
    field: [writeUIntBE] raises. *)
Lemma create_too_long (C : Z) (packet : RtmpPacket.t) :
  Header.fmt (RtmpPacket.header packet) = 0 ->
  0 <= Header.timestamp (RtmpPacket.header packet) ->
  16777216 <= Header.length (RtmpPacket.header packet) ->
  rtmpChunksCreate C packet = Throw RangeError.
Proof.
  intros Hf Ht Hl. unfold rtmpChunksCreate, rtmpChunkMessageHeaderCreate.
  rewrite Hf. change (rtmpHeaderSize (0 mod 4)) with (Some 11).
  change (0 <=? RTMP_CHUNK_TYPE_2) with true.
  change (0 <=? RTMP_CHUNK_TYPE_1) with true. cbv iota.
  unfold writeUIntBE at 3.
  change (256 ^ 3) with 16777216.
  set (t := if 16777215 <=? Header.timestamp (RtmpPacket.header packet)
            then 16777215 else Header.timestamp (RtmpPacket.header packet)).
  assert (Htr : 0 <= t < 16777216).
  { subst t. destruct (Z.leb_spec 16777215 (Header.timestamp (RtmpPacket.header packet))); lia. }
  destruct (Z.leb_spec 0 t); [|lia]. destruct (Z.ltb_spec t 16777216); [|lia].
  change (in_range (alloc 11) 0 3) with true. cbn [andb mbind result_bind Js.bind].
  unfold writeUIntBE at 2. change (256 ^ 3) with 16777216.
  destruct (Z.ltb_spec (Header.length (RtmpPacket.header packet)) 16777216); [lia|].
  rewrite andb_false_r. cbn [andb mbind result_bind Js.bind]. reflexivity.
Qed.

End ChunkRoundTrip.

(* ===================================================================== *)
(** * Strings *)
(* ===================================================================== *)

Module StringFacts.
Import JsFacts BufferFacts.

Lemma byte_of_ascii_range c : 0 <= byte_of_ascii c < 256.
Proof.
  unfold byte_of_ascii. pose proof (N_ascii_bounded c). lia.
Qed.

Lemma ascii_of_byte_of_ascii c : ascii_of_byte (byte_of_ascii c) = c.
Proof.
  unfold ascii_of_byte, byte_of_ascii. rewrite N2Z.id. apply ascii_N_embedding.
Qed.

Lemma of_bytes_utf8 s : of_bytes (utf8 s) = s.
Proof.
  unfold of_bytes, utf8. rewrite map_map.
  rewrite (map_ext _ (fun c => c)) by apply ascii_of_byte_of_ascii.
  rewrite map_id. apply string_of_list_ascii_of_string.
Qed.

Lemma utf8_range s : Forall (fun b => 0 <= b < 256) (utf8 s).
Proof.
  unfold utf8. apply Forall_map, Forall_forall. intros c _.
  apply byte_of_ascii_range.
Qed.

Lemma decode_ascii (bs : Buffer) :
  Forall (fun b => b < 0x80) bs -> decode bs dstate0 = bs.
Proof.
  induction 1 as [|b bs Hb _ IH]; [reflexivity|].
  cbn [decode]. change (needed dstate0 =? 0) with true. cbv iota.
  unfold lead. destruct (Z.ltb_spec b 128); [|lia].
  cbn [app]. rewrite IH. reflexivity.
Qed.

Lemma ascii_well_formed s : is_ascii s -> well_formed s.
Proof.
  intros H. unfold well_formed, toString. rewrite decode_ascii by exact H.
  apply of_bytes_utf8.
Qed.

Lemma ascii_js_length s : is_ascii s -> js_length s = blen (utf8 s).
Proof.
  unfold is_ascii, js_length. generalize (utf8 s) as bs.
  induction 1 as [|b bs Hb _ IH]; [reflexivity|].
  cbn [fold_right]. rewrite IH, blen_cons.
  unfold units. destruct (Z.ltb_spec b 128); lia.
Qed.

Lemma utf8_empty s : utf8 s = [] -> s = EmptyString.
Proof. destruct s; [reflexivity | discriminate]. Qed.

End StringFacts.

(* ===================================================================== *)
(** * AMF0: decoding what the encoder wrote *)
(* ===================================================================== *)

Module Amf0Facts.
Import JsFacts BufferFacts ParserFacts StringFacts Amf0.

(** ** Induction over a value and its members *)

Section MembersInd.
Variable P : jsval -> Prop.
Hypothesis Hundefined : P JUndefined.
Hypothesis Hnull : P JNull.
Hypothesis Hbool : forall b, P (JBool b).
Hypothesis Hnumber : forall bits, P (JNumber bits).
Hypothesis Hstring : forall s, P (JString s).
Hypothesis Hobject :
  forall props, Forall (fun kv => P kv.2) props -> P (JObject props).
Hypothesis Harray :
  forall sarray elems, Forall P elems -> P (JArray sarray elems).
Hypothesis Hdate : forall bits, P (JDate bits).

Fixpoint jsval_members_ind (v : jsval) : P v :=
  match v with
  | JUndefined => Hundefined
  | JNull => Hnull
  | JBool b => Hbool b
  | JNumber bits => Hnumber bits
  | JString s => Hstring s
  | JObject props =>
      Hobject props
        ((fix members (l : list (string * jsval))
            : Forall (fun kv => P kv.2) l :=
            match l with
            | [] => @List.Forall_nil _ _
            | (k, v') :: l' =>
                @List.Forall_cons _ (fun kv => P kv.2) (k, v') l'
                  (jsval_members_ind v') (members l')
            end) props)
  | JArray sarray elems =>
      Harray sarray elems
        ((fix members (l : list jsval) : Forall P l :=
            match l with
            | [] => @List.Forall_nil _ _
            | v' :: l' =>
                @List.Forall_cons _ P v' l' (jsval_members_ind v') (members l')
            end) elems)
  | JDate bits => Hdate bits
  end.
End MembersInd.

(** ** The values that come back as they were *)

(** A property name that is neither an array index nor [__proto__]:
    assigning it to an object that lacks it appends it. *)
Definition plain_key (k : string) : bool :=
  match array_index k with Some _ => false | None => true end
  && negb (String.eqb k "__proto__").

(** A property name the object codec carries: well-formed UTF-8, not
    empty, at most 65535 bytes, and the high byte of its length is not
    the end marker 9 the object decoder looks for first. *)
Definition key_ok (k : string) : bool :=
  String.eqb (toString (utf8 k)) k
  && negb (String.eqb k EmptyString)
  && (blen (utf8 k) <? 65536)
  && negb (blen (utf8 k) / 256 =? 9)
  && plain_key k.

Fixpoint distinct (ks : list string) : bool :=
  match ks with
  | [] => true
  | k :: ks' => negb (existsb (String.eqb k) ks') && distinct ks'
  end.

(** Numbers are 64-bit patterns; strings are ASCII of at most 65535
    characters; objects have distinct carried names; arrays are strict
    arrays of at most 2^32 - 1 elements. *)
Fixpoint roundtrips (v : jsval) : bool :=
  match v with
  | JUndefined | JNull | JBool _ => true
  | JNumber bits => (0 <=? bits) && (bits <? 18446744073709551616)
  | JString s => forallb (fun b => b <? 0x80) (utf8 s) && (blen (utf8 s) <? 65536)
  | JObject props =>
      distinct (map fst props)
      && forallb (fun kv => key_ok kv.1 && roundtrips kv.2) props
  | JArray sarray elems =>
      sarray && (Z.of_nat (length elems) <? 4294967296)
      && forallb roundtrips elems
  | JDate _ => false
  end.

(** ** The bytes of such a value *)

Definition key_bytes (k : string) : Buffer :=
  be_bytes 2 (blen (utf8 k)) ++ utf8 k.

Fixpoint encoding (v : jsval) : Buffer :=
  match v with
  | JUndefined => [0x06]
  | JNull => [0x05]
  | JBool b => [0x01; if b then 1 else 0]
  | JNumber bits => 0x00 :: be_bytes 8 bits
  | JString s => [0x02] ++ be_bytes 2 (blen (utf8 s)) ++ utf8 s
  | JObject props =>
      [0x03] ++ flat_map (fun kv => key_bytes kv.1 ++ encoding kv.2) props
      ++ [0; 0; 0x09]
  | JArray _ elems =>
      [0x0A] ++ be_bytes 4 (Z.of_nat (length elems)) ++ flat_map encoding elems
  | JDate _ => []
  end.

Definition fields_bytes (props : list (string * jsval)) : Buffer :=
  flat_map (fun kv => key_bytes kv.1 ++ encoding kv.2) props.

(** ** Reflection of the conditions *)

Lemma forallb_Forall {A} (f : A -> bool) (l : list A) :
  forallb f l = true <-> Forall (fun x => f x = true) l.
Proof. rewrite forallb_forall, List.Forall_forall. reflexivity. Qed.

Lemma roundtrips_string s :
  roundtrips (JString s) = true -> is_ascii s /\ blen (utf8 s) < 65536.
Proof.
  cbn [roundtrips]. intros [H1 H2]%andb_true_iff. split; [|lia].
  unfold is_ascii. apply forallb_Forall in H1.
  eapply Forall_impl; [exact H1|]. cbv beta. intros; lia.
Qed.

Lemma roundtrips_object props :
  roundtrips (JObject props) = true ->
  distinct (map fst props) = true
  /\ Forall (fun kv => key_ok kv.1 = true) props
  /\ Forall (fun kv => roundtrips kv.2 = true) props.
Proof.
  cbn [roundtrips]. intros [H1 H2]%andb_true_iff. split; [exact H1|].
  apply forallb_Forall in H2.
  split; (eapply Forall_impl; [exact H2|]); cbv beta;
    intros kv [? ?]%andb_true_iff; assumption.
Qed.

Lemma roundtrips_array sarray elems :
  roundtrips (JArray sarray elems) = true ->
  sarray = true /\ Z.of_nat (length elems) < 4294967296
  /\ Forall (fun v => roundtrips v = true) elems.
Proof.
  cbn [roundtrips]. intros [[H1 H2]%andb_true_iff H3]%andb_true_iff.
  apply forallb_Forall in H3. repeat split; [assumption | lia | assumption].
Qed.

Lemma key_ok_spec k :
  key_ok k = true ->
  well_formed k /\ k <> EmptyString /\ 0 <= blen (utf8 k) < 65536
  /\ blen (utf8 k) / 256 <> 9 /\ plain_key k = true.
Proof.
  unfold key_ok.
  intros [[[[H1 H2]%andb_true_iff H3]%andb_true_iff H4]%andb_true_iff H5]%andb_true_iff.
  apply String.eqb_eq in H1.
  apply negb_true_iff, String.eqb_neq in H2.
  apply negb_true_iff, Z.eqb_neq in H4.
  pose proof (blen_nonneg (utf8 k)).
  repeat split; try assumption; lia.
Qed.

(** ** Assignments to the decoded object *)

Lemma get_prop_fresh (obj rest : list (string * jsval)) k v :
  distinct (map fst (obj ++ (k, v) :: rest)) = true -> get_prop obj k = None.
Proof.
  induction obj as [|[k' v'] obj IH]; [reflexivity|].
  cbn [app map fst distinct get_prop].
  intros [Hk Hd]%andb_true_iff.
  destruct (String.eqb_spec k' k) as [->|_]; [|apply IH, Hd].
  apply negb_true_iff in Hk.
  assert (Hin : existsb (String.eqb k) (map fst (obj ++ (k, v) :: rest)) = true).
  { apply existsb_exists. exists k. split; [|apply String.eqb_refl].
    rewrite map_app. apply in_or_app. right. left. reflexivity. }
  congruence.
Qed.

Lemma set_prop_fresh (obj : list (string * jsval)) k v :
  plain_key k = true -> get_prop obj k = None ->
  set_prop obj k v = obj ++ [(k, v)].
Proof.
  unfold plain_key, set_prop. intros [Hi Hp]%andb_true_iff Hg.
  apply negb_true_iff in Hp. rewrite Hp, Hg.
  destruct (array_index k); [discriminate | reflexivity].
Qed.

(** ** The encoder on such values *)

Lemma writeUInt8_alloc n m :
  (0 < n)%nat -> 0 <= m < 256 ->
  writeUInt8 (alloc (Z.of_nat n)) m 0 = Ok (m :: repeat 0 (n - 1)).
Proof.
  intros Hn Hm. destruct n as [|n]; [lia|].
  unfold alloc. rewrite Nat2Z.id. cbn [repeat].
  replace (S n - 1)%nat with n by lia.
  pose proof (writeUIntBE_mid [] [0] (repeat 0 n) 1 m 0 eq_refl eq_refl) as H.
  change (256 ^ Z.of_nat 1) with 256 in H. specialize (H Hm).
  cbn [app] in H. unfold writeUInt8.
  change (Z.of_nat 1) with 1 in H. rewrite H.
  unfold be_bytes, le_bytes. cbn [rev app].
  rewrite Z.mod_small by lia. reflexivity.
Qed.

Lemma amf0encUString_ok k :
  0 <= blen (utf8 k) < 65536 -> amf0encUString k = Ok (key_bytes k).
Proof.
  intros Hk. unfold amf0encUString, key_bytes.
  pose proof (writeUIntBE_mid [] [0; 0] [] 2 (blen (utf8 k)) 0
                eq_refl eq_refl) as H.
  change (256 ^ Z.of_nat 2) with 65536 in H. specialize (H Hk).
  cbn [app] in H. rewrite app_nil_r in H.
  change (alloc 2) with [0; 0]. change (Z.of_nat 2) with 2 in H.
  rewrite H. reflexivity.
Qed.

Lemma encObjectEnd_ok data : encObjectEnd data = Ok (data ++ [0; 0; 0x09]).
Proof. reflexivity. Qed.

Lemma amf0encString_ok s :
  is_ascii s -> blen (utf8 s) < 65536 ->
  amf0encString s = Ok ([0x02] ++ be_bytes 2 (blen (utf8 s)) ++ utf8 s).
Proof.
  intros Ha Hl. unfold amf0encString.
  rewrite (ascii_js_length s Ha).
  change (alloc 3) with (alloc (Z.of_nat 3)).
  rewrite writeUInt8_alloc by lia.
  cbn [repeat Nat.sub mbind result_bind Js.bind].
  pose proof (blen_nonneg (utf8 s)) as Hn.
  pose proof (writeUIntBE_mid [2] [0; 0] [] 2 (blen (utf8 s)) 1
                eq_refl eq_refl) as H.
  change (256 ^ Z.of_nat 2) with 65536 in H.
  specialize (H (conj Hn Hl)).
  cbn [app] in H. rewrite app_nil_r in H. change (Z.of_nat 2) with 2 in H.
  rewrite H. reflexivity.
Qed.

Lemma encProps_ok (props : list (string * jsval)) :
  Forall (fun kv => key_ok kv.1 = true) props ->
  Forall (fun kv => amf0EncodeOne kv.2 = Ok (encoding kv.2)) props ->
  forall data,
    encProps amf0EncodeOne data props = Ok (data ++ fields_bytes props).
Proof.
  induction props as [|[k v] props IH]; intros Hk He data.
  - cbn. rewrite app_nil_r. reflexivity.
  - apply Forall_cons_1 in Hk as [Hk Hks].
    apply Forall_cons_1 in He as [He Hes].
    cbn [fst snd] in Hk, He.
    apply key_ok_spec in Hk as (_ & _ & Hlen & _).
    cbn [encProps]. rewrite (amf0encUString_ok k Hlen), He.
    cbn [mbind result_bind Js.bind].
    rewrite (IH Hks Hes). unfold fields_bytes. cbn [flat_map fst snd].
    rewrite <- !app_assoc. reflexivity.
Qed.

Lemma encElems_ok (elems : list jsval) :
  Forall (fun v => amf0EncodeOne v = Ok (encoding v)) elems ->
  forall buf,
    encElems amf0EncodeOne buf elems = Ok (buf ++ flat_map encoding elems).
Proof.
  induction elems as [|v elems IH]; intros He buf.
  - cbn. rewrite app_nil_r. reflexivity.
  - apply Forall_cons_1 in He as [He Hes].
    cbn [encElems]. rewrite He. cbn [mbind result_bind Js.bind].
    rewrite (IH Hes). cbn [flat_map]. rewrite <- !app_assoc. reflexivity.
Qed.

(** The encoder raises nothing on these values and writes [encoding]. *)
Lemma amf0EncodeOne_ok v :
  roundtrips v = true -> amf0EncodeOne v = Ok (encoding v).
Proof.
  induction v as [| |b|bits|s|props IH|sarray elems IH|bits]
    using jsval_members_ind; intros Hv; try reflexivity.
  - apply roundtrips_string in Hv as [Ha Hl].
    cbn [amf0EncodeOne encoding]. apply amf0encString_ok; assumption.
  - apply roundtrips_object in Hv as (_ & Hk & Hr).
    cbn [amf0EncodeOne encoding].
    rewrite (encProps_ok props Hk).
    + cbn [mbind result_bind Js.bind]. rewrite encObjectEnd_ok.
      rewrite <- app_assoc. reflexivity.
    + rewrite Forall_forall in *. intros kv Hin. apply IH; [exact Hin|].
      apply Hr, Hin.
  - apply roundtrips_array in Hv as (-> & Hn & Hr).
    cbn [amf0EncodeOne encoding].
    change (alloc 5) with (alloc (Z.of_nat 5)).
    rewrite writeUInt8_alloc by lia.
    cbn [repeat Nat.sub mbind result_bind Js.bind].
    pose proof (writeUIntBE_mid [10] [0; 0; 0; 0] [] 4
                  (Z.of_nat (length elems)) 1 eq_refl eq_refl) as H.
    change (256 ^ Z.of_nat 4) with 4294967296 in H.
    specialize (H ltac:(lia)).
    cbn [app] in H. rewrite app_nil_r in H. change (Z.of_nat 4) with 4 in H.
    rewrite H. cbn [mbind result_bind Js.bind].
    rewrite encElems_ok; [reflexivity|].
    rewrite Forall_forall in *. intros x Hin. apply IH; [exact Hin|].
    apply Hr, Hin.
  - discriminate Hv.
Qed.


(** ** The decoder on these bytes *)

Lemma readUInt8_cons b (bs : Buffer) : readUInt8 (b :: bs) 0 = Ok b.
Proof.
  unfold readUInt8, readUIntBE, in_range. rewrite blen_cons.
  pose proof (blen_nonneg bs).
  destruct (Z.leb_spec (0 + 1) (1 + blen bs)); [|lia].
  change (slice (b :: bs) 0 (0 + 1)) with [b].
  change (be_value [b]) with (b + 256 * 0).
  cbn [Z.leb Z.compare andb]. f_equal. lia.
Qed.

Lemma slice_from_app (a b : Buffer) n :
  n = blen a -> slice_from (a ++ b) n = b.
Proof.
  intros ->. unfold slice_from, blen. rewrite Nat2Z.id.
  apply drop_app_length.
Qed.

Lemma blen_be_bytes n v : blen (be_bytes n v) = Z.of_nat n.
Proof. unfold blen. rewrite length_be_bytes. reflexivity. Qed.

Lemma be_bytes_2 n : be_bytes 2 n = [(n / 256) mod 256; n mod 256].
Proof. reflexivity. Qed.

(** A length on two bytes followed by that many bytes of a well-formed
    string, at the end of [pre]. *)
Lemma read_counted (pre rest : Buffer) s :
  0 <= blen (utf8 s) < 65536 -> well_formed s ->
  let buf := pre ++ be_bytes 2 (blen (utf8 s)) ++ utf8 s ++ rest in
  readUIntBE buf (blen pre) 2 = Ok (blen (utf8 s))
  /\ toString (slice buf (blen pre + 2) (blen pre + 2 + blen (utf8 s))) = s.
Proof.
  intros Hl Hw buf. subst buf. split.
  - apply (readUIntBE_mid pre (utf8 s ++ rest) 2); [reflexivity|].
    change (256 ^ Z.of_nat 2) with 65536. exact Hl.
  - rewrite (app_assoc pre).
    rewrite slice_mid; [exact Hw| |].
    + rewrite blen_app, blen_be_bytes. lia.
    + rewrite blen_app, blen_be_bytes. lia.
Qed.

Lemma amf0decString_ok s rest :
  0 <= blen (utf8 s) < 65536 -> well_formed s ->
  amf0decString ([0x02] ++ be_bytes 2 (blen (utf8 s)) ++ utf8 s ++ rest)
  = Ok (3 + blen (utf8 s), s).
Proof.
  intros Hl Hw. unfold amf0decString.
  destruct (read_counted [2] rest s Hl Hw) as [Hr Hs].
  change (blen [2]) with 1 in Hr, Hs. rewrite Hr.
  cbn [mbind result_bind Js.bind].
  change (1 + 2) with 3 in Hs. rewrite Hs. reflexivity.
Qed.

Lemma amf0decUString_ok k rest :
  0 <= blen (utf8 k) < 65536 -> well_formed k ->
  amf0decUString (key_bytes k ++ rest) = Ok (2 + blen (utf8 k), k).
Proof.
  intros Hl Hw. unfold amf0decUString, key_bytes.
  destruct (read_counted [] rest k Hl Hw) as [Hr Hs].
  change (blen []) with 0 in Hr, Hs. cbn [app] in Hr, Hs.
  rewrite <- app_assoc. rewrite Hr.
  cbn [mbind result_bind Js.bind].
  change (0 + 2) with 2 in Hs. rewrite Hs. reflexivity.
Qed.

(** The first byte of a value is its marker, never the object end. *)
Lemma encoding_head v :
  roundtrips v = true ->
  exists m e, encoding v = m :: e /\ m <> 0x09.
Proof.
  destruct v; cbn [roundtrips encoding app]; intros H;
    try discriminate H; eexists _, _; (split; [reflexivity | lia]).
Qed.

Lemma decode_number bits rest fuel :
  0 <= bits < 18446744073709551616 ->
  amf0DecodeOne (S fuel) (0x00 :: be_bytes 8 bits ++ rest)
  = Some (Ok (Some {| len := 9; value := JNumber bits |})).
Proof.
  intros Hb. cbn [amf0DecodeOne]. rewrite readUInt8_cons.
  cbn [mbind fr_bind lift Z.eqb]. unfold amf0decNumber.
  pose proof (readUIntBE_mid [0] rest 8 bits 1 eq_refl) as Hr.
  change (256 ^ Z.of_nat 8) with 18446744073709551616 in Hr.
  specialize (Hr Hb). cbn [app] in Hr. change (Z.of_nat 8) with 8 in Hr.
  rewrite Hr. reflexivity.
Qed.

Lemma decode_string s rest fuel :
  is_ascii s -> blen (utf8 s) < 65536 ->
  amf0DecodeOne (S fuel) ([0x02] ++ be_bytes 2 (blen (utf8 s)) ++ utf8 s ++ rest)
  = Some (Ok (Some {| len := 3 + blen (utf8 s); value := JString s |})).
Proof.
  intros Ha Hl. pose proof (blen_nonneg (utf8 s)) as Hn.
  set (buf := [2] ++ be_bytes 2 (blen (utf8 s)) ++ utf8 s ++ rest).
  assert (Hh : readUInt8 buf 0 = Ok 2) by apply readUInt8_cons.
  cbn [amf0DecodeOne]. rewrite Hh.
  cbn [mbind fr_bind lift Z.eqb Pos.eqb]. subst buf.
  rewrite amf0decString_ok; [reflexivity | lia | apply ascii_well_formed, Ha].
Qed.

(** The loop of [amf0decObject] over the fields that are left. *)
Lemma object_loop (props : list (string * jsval)) :
  Forall (fun kv => key_ok kv.1 = true) props ->
  Forall (fun kv => roundtrips kv.2 = true) props ->
  Forall (fun kv => forall rest fuel,
            (length (encoding kv.2) <= fuel)%nat ->
            amf0DecodeOne fuel (encoding kv.2 ++ rest)
            = Some (Ok (Some {| len := blen (encoding kv.2); value := kv.2 |})))
         props ->
  forall obj n rest fuel,
    distinct (map fst (obj ++ props)) = true ->
    (length (fields_bytes props) < fuel)%nat ->
    amf0decObject_loop fuel obj (fields_bytes props ++ [0; 0; 0x09] ++ rest) n
    = Some (Ok {| len := n + blen (fields_bytes props) + 3;
                  value := JObject (obj ++ props) |}).
Proof.
  induction props as [|[k v] props IH]; intros Hk Hr Hd obj n rest fuel Hn Hf.
  - destruct fuel as [|fuel]; [cbn in Hf; lia|].
    cbn [fields_bytes flat_map app amf0decObject_loop].
    rewrite readUInt8_cons. cbn [mbind fr_bind lift Z.eqb].
    unfold amf0decUString.
    pose proof (readUIntBE_mid [] (9 :: rest) 2 0 0 eq_refl) as Hz.
    change (256 ^ Z.of_nat 2) with 65536 in Hz. specialize (Hz ltac:(lia)).
    change (readUIntBE (0 :: 0 :: 9 :: rest) 0 2 = Ok 0) in Hz.
    rewrite Hz. clear Hz.
    cbn [mbind result_bind Js.bind fr_bind fst snd].
    rewrite !blen_cons. pose proof (blen_nonneg rest).
    destruct (Z.ltb_spec (1 + (1 + (1 + blen rest))) (2 + 0)); [lia|].
    change (slice_from (0 :: 0 :: 9 :: rest) (2 + 0)) with (9 :: rest).
    rewrite readUInt8_cons. cbn [mbind fr_bind lift Z.eqb Pos.eqb].
    unfold mret, fr_ret. rewrite app_nil_r.
    change (blen []) with 0.
    replace (n + (2 + 0) + 1) with (n + 0 + 3) by lia. reflexivity.
  - apply Forall_cons_1 in Hk as [Hk Hks].
    apply Forall_cons_1 in Hr as [Hr Hrs].
    apply Forall_cons_1 in Hd as [Hd Hds].
    cbn [fst snd] in Hk, Hr, Hd.
    apply key_ok_spec in Hk as (Hw & Hne & Hlen & H9 & Hpk).
    destruct (encoding_head v Hr) as (m & e & He & Hm).
    destruct fuel as [|fuel]; [lia|].
    assert (Hbytes : fields_bytes ((k, v) :: props)
                     = key_bytes k ++ encoding v ++ fields_bytes props).
    { unfold fields_bytes. cbn [flat_map fst snd].
      rewrite <- app_assoc. reflexivity. }
    rewrite Hbytes in *. rewrite !length_app in Hf.
    rewrite <- !app_assoc.
    set (tail := fields_bytes props ++ [0; 0; 9] ++ rest).
    set (iBuf := key_bytes k ++ encoding v ++ tail).
    assert (Hhi : 0 <= blen (utf8 k) / 256 < 256)
      by (split; [apply Z.div_pos; lia | apply Z.div_lt_upper_bound; lia]).
    assert (Hkl : blen (key_bytes k) = 2 + blen (utf8 k)).
    { unfold key_bytes. rewrite blen_app, blen_be_bytes. lia. }
    (* the test of the loop reads the high byte of the length *)
    assert (Hh : readUInt8 iBuf 0 = Ok (blen (utf8 k) / 256)).
    { subst iBuf. unfold key_bytes. rewrite be_bytes_2. cbn [app].
      rewrite readUInt8_cons, Z.mod_small by exact Hhi. reflexivity. }
    assert (Hu : amf0decUString iBuf = Ok (2 + blen (utf8 k), k))
      by (apply amf0decUString_ok; assumption).
    assert (Hl : (blen iBuf <? 2 + blen (utf8 k)) = false).
    { subst iBuf. rewrite blen_app, Hkl.
      pose proof (blen_nonneg (encoding v ++ tail)). apply Z.ltb_ge. lia. }
    assert (Hs : slice_from iBuf (2 + blen (utf8 k)) = encoding v ++ tail)
      by (apply slice_from_app; symmetry; exact Hkl).
    (* the value is there, and is not the end marker *)
    assert (Hv : readUInt8 (encoding v ++ tail) 0 = Ok m)
      by (rewrite He; apply readUInt8_cons).
    assert (Hs' : slice_from iBuf (2 + blen (utf8 k) + blen (encoding v)) = tail).
    { subst iBuf. rewrite (app_assoc (key_bytes k)). apply slice_from_app.
      rewrite blen_app. lia. }
    cbn [amf0decObject_loop]. rewrite Hh. cbn [mbind fr_bind lift].
    destruct (Z.eqb_spec (blen (utf8 k) / 256) 9) as [|_]; [contradiction|].
    rewrite Hu. cbn [mbind fr_bind lift fst snd]. rewrite Hl, Hs, Hv.
    cbn [mbind fr_bind lift].
    destruct (Z.eqb_spec m 9) as [|_]; [contradiction|].
    destruct (String.eqb_spec k EmptyString) as [|_]; [contradiction|].
    rewrite (Hd tail fuel) by lia.
    cbn [mbind fr_bind Amf0.len Amf0.value].
    rewrite (set_prop_fresh obj k v Hpk (get_prop_fresh obj props k v Hn)).
    rewrite Hs'. subst tail. rewrite (IH Hks Hrs Hds).
    + rewrite <- app_assoc. cbn [app].
      replace (n + (2 + blen (utf8 k)) + blen (encoding v)
               + blen (fields_bytes props) + 3)
        with (n + blen (key_bytes k ++ encoding v ++ fields_bytes props) + 3)
        by (rewrite !blen_app, Hkl; lia).
      reflexivity.
    + rewrite <- app_assoc. exact Hn.
    + unfold blen in Hkl, Hlen. lia.
Qed.


(** The loop of [amf0decSArray] over the elements that are left; [pre]
    is what has been read of the buffer. *)
Lemma sarray_loop (elems : list jsval) :
  Forall (fun v => roundtrips v = true) elems ->
  Forall (fun v => forall rest fuel,
            (length (encoding v) <= fuel)%nat ->
            amf0DecodeOne fuel (encoding v ++ rest)
            = Some (Ok (Some {| len := blen (encoding v); value := v |})))
         elems ->
  forall pre a rest fuel,
    (length (flat_map encoding elems) < fuel)%nat ->
    amf0decSArray_loop fuel (pre ++ flat_map encoding elems ++ rest)
      (Z.of_nat (length elems)) a (blen pre)
    = Some (Ok (a ++ elems, blen pre + blen (flat_map encoding elems))).
Proof.
  induction elems as [|v elems IH]; intros Hr Hd pre a rest fuel Hf.
  - destruct fuel as [|fuel]; [cbn in Hf; lia|].
    cbn [amf0decSArray_loop length flat_map Z.of_nat Z.eqb].
    rewrite app_nil_r. change (blen []) with 0. rewrite Z.add_0_r.
    reflexivity.
  - apply Forall_cons_1 in Hr as [Hr Hrs].
    apply Forall_cons_1 in Hd as [Hd Hds].
    destruct (encoding_head v Hr) as (m & e & He & _).
    destruct fuel as [|fuel]; [lia|].
    cbn [flat_map] in *. rewrite length_app in Hf.
    assert (H1 : (1 <= length (encoding v))%nat) by (rewrite He; cbn; lia).
    assert (Hs : slice_from (pre ++ (encoding v ++ flat_map encoding elems) ++ rest)
                   (blen pre)
                 = encoding v ++ flat_map encoding elems ++ rest).
    { rewrite <- app_assoc. apply slice_from_app. reflexivity. }
    cbn [amf0decSArray_loop].
    destruct (Z.eqb_spec (Z.of_nat (length (v :: elems))) 0) as [Hz|_];
      [cbn [length] in Hz; lia|].
    rewrite Hs, (Hd _ fuel) by lia.
    cbn [mbind fr_bind Amf0.len Amf0.value].
    replace (Z.of_nat (length (v :: elems)) - 1) with (Z.of_nat (length elems))
      by (cbn [length]; lia).
    replace (pre ++ (encoding v ++ flat_map encoding elems) ++ rest)
      with ((pre ++ encoding v) ++ flat_map encoding elems ++ rest)
      by (rewrite <- !app_assoc; reflexivity).
    rewrite <- blen_app. rewrite (IH Hrs Hds) by lia.
    rewrite <- app_assoc. cbn [app].
    rewrite !blen_app, Z.add_assoc. reflexivity.
Qed.

Lemma same_len n n' v :
  n = n' ->
  (Some (Ok (Some {| len := n; value := v |})) : fr (option decoded))
  = Some (Ok (Some {| len := n'; value := v |})).
Proof. intros ->. reflexivity. Qed.

(** Decoding the bytes of a value gives the value and the number of
    bytes, whatever follows them, as soon as the decoder is given one
    turn for each byte. *)
Lemma decode_encoding v :
  roundtrips v = true ->
  forall rest fuel,
    (length (encoding v) <= fuel)%nat ->
    amf0DecodeOne fuel (encoding v ++ rest)
    = Some (Ok (Some {| len := blen (encoding v); value := v |})).
Proof.
  induction v as [| |b|bits|s|props IH|sarray elems IH|bits]
    using jsval_members_ind; intros Hv rest fuel Hf;
    (destruct fuel as [|fuel];
     [destruct (encoding_head _ Hv) as (m & e & He & _);
      rewrite He in Hf; cbn [length] in Hf; lia|]).
  - cbn [encoding app amf0DecodeOne]. rewrite readUInt8_cons. reflexivity.
  - cbn [encoding app amf0DecodeOne]. rewrite readUInt8_cons. reflexivity.
  - cbn [encoding app amf0DecodeOne]. rewrite readUInt8_cons.
    cbn [mbind fr_bind lift Z.eqb Pos.eqb]. unfold amf0decBool.
    assert (Hx : forall x, 0 <= x < 256 -> readUInt8 (1 :: x :: rest) 1 = Ok x).
    { intros x Hx.
      pose proof (readUIntBE_mid [1] rest 1 x 1 eq_refl) as H.
      change (256 ^ Z.of_nat 1) with 256 in H. specialize (H Hx).
      change (be_bytes 1 x) with [x mod 256] in H.
      rewrite Z.mod_small in H by exact Hx. exact H. }
    destruct b; rewrite Hx by lia; reflexivity.
  - cbn [roundtrips] in Hv. apply andb_true_iff in Hv as [H1 H2].
    cbn [encoding]. change ((0 :: be_bytes 8 bits) ++ rest)
      with (0 :: be_bytes 8 bits ++ rest).
    rewrite decode_number by lia.
    rewrite blen_cons, blen_be_bytes. reflexivity.
  - apply roundtrips_string in Hv as [Ha Hl].
    cbn [encoding]. rewrite <- !app_assoc. rewrite decode_string by assumption.
    apply same_len. rewrite !blen_app, blen_be_bytes.
    change (blen [2]) with 1. lia.
  - apply roundtrips_object in Hv as (Hn & Hk & Hr).
    cbn [encoding]. fold (fields_bytes props).
    cbn [encoding] in Hf. fold (fields_bytes props) in Hf.
    rewrite !length_app in Hf. cbn [length] in Hf.
    destruct fuel as [|fuel]; [lia|].
    rewrite <- !app_assoc. cbn [app amf0DecodeOne].
    rewrite readUInt8_cons. cbn [mbind fr_bind lift Z.eqb Pos.eqb].
    cbn [amf0decObject].
    change (slice_from (3 :: ?x) 1) with x.
    change (fields_bytes props ++ 0 :: 0 :: 9 :: rest)
      with (fields_bytes props ++ [0; 0; 9] ++ rest).
    rewrite (object_loop props Hk Hr).
    + cbn [fmap fr_fmap result_fmap]. apply same_len.
      rewrite blen_cons, blen_app. change (blen [0; 0; 9]) with 3. lia.
    + rewrite Forall_forall in *. intros kv Hin rest' fuel' Hf'.
      apply IH; [exact Hin | apply Hr, Hin | exact Hf'].
    + exact Hn.
    + lia.
  - apply roundtrips_array in Hv as (-> & Hn & Hr).
    cbn [encoding]. cbn [encoding] in Hf.
    rewrite !length_app, length_be_bytes in Hf. cbn [length] in Hf.
    set (count := Z.of_nat (length elems)) in *.
    set (buf := ([10] ++ be_bytes 4 count ++ flat_map encoding elems) ++ rest).
    assert (Hh : readUInt8 buf 0 = Ok 10) by apply readUInt8_cons.
    assert (Hc : readUIntBE buf 1 4 = Ok count).
    { subst buf. rewrite <- !app_assoc.
      apply (readUIntBE_mid [10] _ 4 count 1 eq_refl).
      change (256 ^ Z.of_nat 4) with 4294967296. subst count. lia. }
    cbn [amf0DecodeOne]. rewrite Hh.
    cbn [mbind fr_bind lift Z.eqb Pos.eqb]. rewrite Hc.
    cbn [mbind fr_bind lift].
    assert (Hb : buf = ([10] ++ be_bytes 4 count) ++ flat_map encoding elems ++ rest)
      by (subst buf; rewrite <- !app_assoc; reflexivity).
    assert (H5 : blen ([10] ++ be_bytes 4 count) = 5)
      by (rewrite blen_app, blen_be_bytes; reflexivity).
    rewrite Hb, <- H5. subst count.
    rewrite (sarray_loop elems Hr).
    + cbn [mbind fr_bind fst snd]. unfold mret, fr_ret.
      apply same_len. rewrite H5, !blen_app, blen_be_bytes.
      change (blen [10]) with 1. lia.
    + rewrite Forall_forall in *. intros x Hin rest' fuel' Hf'.
      apply IH; [exact Hin | apply Hr, Hin | exact Hf'].
    + lia.
  - discriminate Hv.
Qed.


(** ** Command messages *)

(** The names of [ks] are the first names of the schema. *)
Fixpoint prefix_of (ks names : list string) : bool :=
  match ks, names with
  | [], _ => true
  | k :: ks', n :: names' => String.eqb k n && prefix_of ks' names'
  | _ :: _, [] => false
  end.

(** A message that follows a schema of [table]: [cmd] first, a string
    that names a schema, then the first fields of that schema in its
    order, each with a value that comes back as it was. *)
Definition follows (table : list (string * list string))
    (m : list (string * jsval)) : bool :=
  match m with
  | (k, JString name) :: fields =>
      String.eqb k "cmd"
      && roundtrips (JString name)
      && match assoc table name with
         | Some names =>
             prefix_of (map fst fields) names
             && forallb (fun kv => roundtrips kv.2) fields
         | None => false
         end
  | _ => false
  end.

(** What the tables have to satisfy: in each schema the names and [cmd]
    are distinct plain names. *)
Definition schema_ok (names : list string) : bool :=
  distinct ("cmd"%string :: names) && forallb plain_key names.

Definition table_ok (table : list (string * list string)) : bool :=
  forallb (fun e => schema_ok e.2) table.

Lemma rtmpCmdCode_ok : table_ok rtmpCmdCode = true.
Proof. vm_compute. reflexivity. Qed.

Lemma rtmpDataCode_ok : table_ok rtmpDataCode = true.
Proof. vm_compute. reflexivity. Qed.

Lemma assoc_schema_ok table name names :
  table_ok table = true -> assoc table name = Some names ->
  schema_ok names = true.
Proof.
  unfold table_ok. induction table as [|[k v] table IH]; [discriminate|].
  cbn [forallb assoc snd]. intros [H1 H2]%andb_true_iff.
  destruct (String.eqb k name); [|apply IH, H2].
  intros [= <-]. exact H1.
Qed.

Lemma distinct_NoDup ks : distinct ks = true -> NoDup ks.
Proof.
  induction ks as [|k ks IH]; [constructor|].
  cbn [distinct]. intros [H1 H2]%andb_true_iff.
  constructor; [|apply IH, H2].
  intros Hin. apply negb_true_iff in H1.
  assert (existsb (String.eqb k) ks = true); [|congruence].
  apply existsb_exists. exists k. split; [|apply String.eqb_refl].
  apply list_elem_of_In, Hin.
Qed.

Lemma NoDup_distinct ks : NoDup ks -> distinct ks = true.
Proof.
  induction 1 as [|k ks Hk _ IH]; [reflexivity|].
  cbn [distinct]. rewrite IH, andb_true_r. apply negb_true_iff.
  destruct (existsb (String.eqb k) ks) eqn:E; [|reflexivity].
  apply existsb_exists in E as (x & Hin & ->%String.eqb_eq).
  apply list_elem_of_In in Hin. contradiction.
Qed.

Lemma get_prop_absent (l : list (string * jsval)) k :
  k ∉ map fst l -> get_prop l k = None.
Proof.
  induction l as [|[k' v] l IH]; [reflexivity|].
  cbn [map fst get_prop]. intros [Hne Hin]%not_elem_of_cons.
  destruct (String.eqb_spec k' k); [congruence | apply IH, Hin].
Qed.

Lemma get_prop_skip (pre l : list (string * jsval)) k :
  k ∉ map fst pre -> get_prop (pre ++ l) k = get_prop l k.
Proof.
  induction pre as [|[k' v] pre IH]; [reflexivity|].
  cbn [map fst get_prop app]. intros [Hne Hin]%not_elem_of_cons.
  destruct (String.eqb_spec k' k); [congruence | apply IH, Hin].
Qed.

Lemma get_prop_head (l : list (string * jsval)) k v :
  get_prop ((k, v) :: l) k = Some v.
Proof. cbn [get_prop]. rewrite String.eqb_refl. reflexivity. Qed.

Definition values_bytes (fields : list (string * jsval)) : Buffer :=
  flat_map (fun kv => encoding kv.2) fields.

(** The encoder takes the fields in the order of the schema. *)
Lemma encodeFields_ok (names : list string) :
  forall (pre fields : list (string * jsval)) data,
    prefix_of (map fst fields) names = true ->
    NoDup (map fst pre ++ names) ->
    Forall (fun kv => roundtrips kv.2 = true) fields ->
    encodeFields (pre ++ fields) data names
    = Ok (data ++ values_bytes fields).
Proof.
  induction names as [|n names IH]; intros pre fields data Hp Hd Hr.
  - destruct fields; [|discriminate Hp].
    cbn. rewrite app_nil_r. reflexivity.
  - apply NoDup_app in Hd as (Hd1 & Hd2 & Hd3).
    apply NoDup_cons in Hd3 as [Hn Hd3].
    assert (Hpre : n ∉ map fst pre).
    { intros Hin. apply (Hd2 n Hin). left. }
    cbn [encodeFields]. rewrite get_prop_skip by exact Hpre.
    destruct fields as [|[k v] fields].
    + cbn [get_prop].
      rewrite (IH pre [] data eq_refl); [reflexivity| |constructor].
      apply NoDup_app. repeat split; [exact Hd1| |exact Hd3].
      intros x Hx Hx'. apply (Hd2 x Hx). right. exact Hx'.
    + cbn [map fst prefix_of] in Hp.
      apply andb_true_iff in Hp as [->%String.eqb_eq Hp].
      apply Forall_cons_1 in Hr as [Hv Hr]. cbn [snd] in Hv.
      rewrite get_prop_head, (amf0EncodeOne_ok v Hv).
      cbn [mbind result_bind Js.bind].
      replace (pre ++ (n, v) :: fields) with ((pre ++ [(n, v)]) ++ fields)
        by (rewrite <- app_assoc; reflexivity).
      rewrite (IH _ fields _ Hp); [| |exact Hr].
      * unfold values_bytes. cbn [flat_map snd].
        rewrite <- !app_assoc. reflexivity.
      * rewrite map_app. cbn [map fst]. rewrite <- app_assoc. cbn [app].
        apply NoDup_app. repeat split; [exact Hd1|exact Hd2|].
        apply NoDup_cons. split; assumption.
Qed.

Lemma decodeFields_end fuel resp (names : list string) :
  decodeFields fuel resp [] names = Some (Ok resp).
Proof. induction names as [|n names IH]; [reflexivity | exact IH]. Qed.

(** The decoder names the values it finds after the schema. *)
Lemma decodeFields_ok (names : list string) :
  forall (resp fields : list (string * jsval)) fuel,
    prefix_of (map fst fields) names = true ->
    NoDup (map fst resp ++ names) ->
    Forall (fun n => plain_key n = true) names ->
    Forall (fun kv => roundtrips kv.2 = true) fields ->
    (length (values_bytes fields) <= fuel)%nat ->
    decodeFields fuel resp (values_bytes fields) names
    = Some (Ok (resp ++ fields)).
Proof.
  induction names as [|n names IH]; intros resp fields fuel Hp Hd Hk Hr Hf.
  - destruct fields; [|discriminate Hp].
    cbn. rewrite app_nil_r. reflexivity.
  - destruct fields as [|[k v] fields].
    { rewrite decodeFields_end, app_nil_r. reflexivity. }
    cbn [map fst prefix_of] in Hp.
    apply andb_true_iff in Hp as [->%String.eqb_eq Hp].
    apply Forall_cons_1 in Hr as [Hv Hr]. cbn [snd] in Hv.
    apply Forall_cons_1 in Hk as [Hn Hk].
    apply NoDup_app in Hd as (Hd1 & Hd2 & Hd3).
    apply NoDup_cons in Hd3 as [Hn' Hd3].
    assert (Hresp : n ∉ map fst resp).
    { intros Hin. apply (Hd2 n Hin). left. }
    unfold values_bytes in *. cbn [flat_map snd] in *.
    rewrite length_app in Hf.
    destruct (encoding_head v Hv) as (m & e & He & _).
    cbn [decodeFields].
    assert (Hb : (0 <? blen (encoding v ++ flat_map (fun kv => encoding kv.2) fields))
                 = true).
    { rewrite He. cbn [app]. rewrite blen_cons.
      pose proof (blen_nonneg (e ++ flat_map (fun kv => encoding kv.2) fields)).
      apply Z.ltb_lt. lia. }
    rewrite Hb, (decode_encoding v Hv) by lia.
    cbn [mbind fr_bind Amf0.len Amf0.value].
    rewrite (set_prop_fresh resp n v Hn (get_prop_absent resp n Hresp)).
    rewrite slice_from_app by reflexivity.
    rewrite (IH _ fields fuel Hp); [| |exact Hk|exact Hr|lia].
    + rewrite <- app_assoc. reflexivity.
    + rewrite map_app. cbn [map fst]. rewrite <- app_assoc. cbn [app].
      apply NoDup_app. repeat split; [exact Hd1|exact Hd2|].
      apply NoDup_cons. split; assumption.
Qed.

(** A message that follows a schema of an admissible table is encoded
    without error, and the decoder gives it back. *)
Lemma message_roundtrip table (m : list (string * jsval)) :
  table_ok table = true -> follows table m = true ->
  exists e,
    encodeWith table m = Ok e
    /\ forall fuel, (length e <= fuel)%nat ->
         decodeWith table fuel e = Some (Ok m).
Proof.
  intros Ht Hm. destruct m as [|[k [| | | |name| | |]] fields]; try discriminate Hm.
  cbn [follows] in Hm.
  apply andb_true_iff in Hm as [[->%String.eqb_eq Hname]%andb_true_iff Hm].
  destruct (assoc table name) as [names|] eqn:Hs; [|discriminate Hm].
  apply andb_true_iff in Hm as [Hp Hr]. apply forallb_Forall in Hr.
  apply (assoc_schema_ok _ _ _ Ht) in Hs as Hok.
  unfold schema_ok in Hok. apply andb_true_iff in Hok as [Hd Hk].
  apply distinct_NoDup in Hd. apply forallb_Forall in Hk.
  set (cmd := JString name) in *.
  assert (Hschema : schema table cmd = Ok (Some names)).
  { subst cmd. unfold schema. cbn [property_key mbind result_bind Js.bind].
    rewrite Hs. reflexivity. }
  exists (encoding cmd ++ values_bytes fields). split.
  - unfold encodeWith, prop_or_undefined. cbv zeta. rewrite get_prop_head.
    change (default JUndefined (Some cmd)) with cmd.
    rewrite (amf0EncodeOne_ok cmd Hname), Hschema.
    cbn [mbind result_bind Js.bind].
    apply (encodeFields_ok names [("cmd"%string, cmd)] fields);
      assumption.
  - intros fuel Hf. rewrite length_app in Hf.
    unfold decodeWith. rewrite (decode_encoding cmd Hname) by lia.
    cbv zeta. cbn [mbind fr_bind Amf0.len Amf0.value lift]. rewrite Hschema.
    cbn [mbind fr_bind lift].
    rewrite slice_from_app by reflexivity.
    change (set_prop [] "cmd" cmd) with [("cmd"%string, cmd)].
    rewrite (decodeFields_ok names); [reflexivity| | | | |lia];
      assumption.
Qed.


(** ** The round trip *)

(** C2 (amended): encode-then-decode is the identity on the values built
    from numbers, booleans, null, undefined, ASCII strings of at most
    65535 characters, strict arrays, and objects whose property names
    are distinct, non-empty, well-formed UTF-8, not array indices, not
    [__proto__], and of a byte length whose high byte is not 9; the
    order of the properties is kept and the decoder consumes exactly the
    encoded bytes.  A command message made of [cmd] and the first fields
    of its schema, in the order of the schema and with such values, is
    given back by [decodeAmf0Cmd] after [encodeAmf0Cmd]. *)
Theorem amf0_roundtrip (v : jsval) (m : list (string * jsval)) :
  roundtrips v = true ->
  follows rtmpCmdCode m = true ->
  (exists e,
      amf0EncodeOne v = Ok e
      /\ forall fuel, (length e <= fuel)%nat ->
           amf0DecodeOne fuel e
           = Some (Ok (Some {| len := blen e; value := v |})))
  /\ (exists e,
        encodeAmf0Cmd m = Ok e
        /\ forall fuel, (length e <= fuel)%nat ->
             decodeAmf0Cmd fuel e = Some (Ok m)).
Proof.
  intros Hv Hm. split.
  - exists (encoding v). split; [apply amf0EncodeOne_ok, Hv|].
    intros fuel Hf.
    pose proof (decode_encoding v Hv [] fuel Hf) as H.
    rewrite app_nil_r in H. exact H.
  - apply message_roundtrip; [apply rtmpCmdCode_ok | exact Hm].
Qed.

Definition sample_value : jsval :=
  JObject [ ("level", JString "status");
            ("code", JString "NetStream.Play.Start");
            ("clientid", JNumber 4607182418800017408);
            ("flags", JArray true [JBool true; JNull; JUndefined]);
            ("nested", JObject [("k", JObject [])]) ]%string.

Definition sample_message : list (string * jsval) :=
  [ ("cmd", JString "onStatus");
    ("transId", JNumber 0);
    ("cmdObj", JNull);
    ("info", sample_value) ]%string.

Lemma amf0_roundtrip_witness :
  (exists e,
      amf0EncodeOne sample_value = Ok e
      /\ forall fuel, (length e <= fuel)%nat ->
           amf0DecodeOne fuel e
           = Some (Ok (Some {| len := blen e; value := sample_value |})))
  /\ (exists e,
        encodeAmf0Cmd sample_message = Ok e
        /\ forall fuel, (length e <= fuel)%nat ->
             decodeAmf0Cmd fuel e = Some (Ok sample_message)).
Proof.
  apply (amf0_roundtrip sample_value sample_message); vm_compute; reflexivity.
Defined.

(** Encoding and then decoding with plenty of turns. *)
Definition recode (v : jsval) : option (result (option decoded)) :=
  match amf0EncodeOne v with
  | Ok e => amf0DecodeOne (S (length e)) e
  | Throw x => Some (Throw x)
  end.

Definition recodeCmd (m : list (string * jsval))
    : option (result (list (string * jsval))) :=
  match encodeAmf0Cmd m with
  | Ok e => decodeAmf0Cmd (S (length e)) e
  | Throw x => Some (Throw x)
  end.

(** C2, the claim as stated, fails.  The string "e-acute" (UTF-8 C3 A9,
    one character) is written with length 1, so that the decoder reads
    one byte of it and returns U+FFFD; a Date is written as an empty
    object; an ECMA array comes back as an object, with a length one
    past the end of the buffer; a command that lacks a field of its
    schema comes back with the next value under that name. *)
Lemma amf0_roundtrip_fails :
  amf0EncodeOne (JString (of_bytes [0xC3; 0xA9])) = Ok [2; 0; 1; 0xC3; 0xA9]
  /\ recode (JString (of_bytes [0xC3; 0xA9]))
     = Some (Ok (Some {| len := 4; value := JString (of_bytes FFFD) |}))
  /\ recode (JDate 4784016440524800000)
     = Some (Ok (Some {| len := 4; value := JObject [] |}))
  /\ amf0EncodeOne (JArray false [JBool true])
     = Ok [8; 0; 0; 0; 1; 0; 1; 48; 1; 1; 0; 0; 9]
  /\ recode (JArray false [JBool true])
     = Some (Ok (Some {| len := 14; value := JObject [("0"%string, JBool true)] |}))
  /\ recodeCmd [ ("cmd", JString "_result"); ("transId", JNumber 0);
                 ("info", JNull) ]%string
     = Some (Ok [ ("cmd", JString "_result"); ("transId", JNumber 0);
                  ("cmdObj", JNull) ]%string).
Proof. vm_compute. repeat split; reflexivity. Qed.

End Amf0Facts.

(* ===================================================================== *)
(** * The handlers on the broker context *)
(* ===================================================================== *)

Module BrokerFacts.
Import Broker.

(** What a computation leaves of the context. *)
Definition exec {A} (m : M A) (c : context) : context := snd (m c).

Lemma bind_run {A B} (m : M A) (k : A -> M B) c :
  (m ≫= k) c
  = match m c with
    | (Ok a, c') => k a c'
    | (Throw e, c') => (Throw e, c')
    end.
Proof. reflexivity. Qed.

Lemma bind_ok {A B} (m : M A) (k : A -> M B) c a c' :
  m c = (Ok a, c') -> (m ≫= k) c = k a c'.
Proof. intros H. rewrite bind_run, H. reflexivity. Qed.

Lemma bind_throw {A B} (m : M A) (k : A -> M B) c e c' :
  m c = (Throw e, c') -> (m ≫= k) c = (Throw e, c').
Proof. intros H. rewrite bind_run, H. reflexivity. Qed.

Lemma object_run id c s :
  objects c !! id = Some s -> object id c = (Ok s, c).
Proof. intros H. unfold object. rewrite H. reflexivity. Qed.

Lemma update_run id f c :
  update id f c = (Ok tt, set_objects (alter f id (objects c)) c).
Proof. reflexivity. Qed.

(** ** Sets of ids *)

Lemma has_In x l : has x l = true <-> In x l.
Proof.
  unfold has. rewrite existsb_exists. split.
  - intros (y & Hy & ->%String.eqb_eq). exact Hy.
  - intros H. exists x. split; [exact H | apply String.eqb_refl].
Qed.

Lemma has_delete x y l : has x (delete y l) = has x l && negb (String.eqb y x).
Proof.
  induction l as [|z l IH]; [reflexivity|].
  unfold delete in *. cbn [filter]. change (list_filter ?P _ ?l) with (filter P l) in *.
  destruct (String.eqb_spec y z) as [->|Hyz]; cbn [negb].
  - unfold filter. cbn [list_filter]. fold (filter (fun y0 => negb (String.eqb z y0)) l).
    rewrite decide_False by (rewrite String.eqb_refl; cbn; tauto).
    rewrite IH. cbn [has existsb]. unfold has.
    destruct (String.eqb_spec x z) as [->|Hxz]; cbn [orb].
    + rewrite String.eqb_refl. cbn. rewrite andb_false_r. reflexivity.
    + reflexivity.
  - unfold filter. cbn [list_filter]. fold (filter (fun y0 => negb (String.eqb y y0)) l).
    rewrite decide_True.
    2:{ destruct (String.eqb_spec y z); [contradiction|]. cbn. tauto. }
    cbn [has existsb]. unfold has in IH. rewrite IH. unfold has.
    destruct (String.eqb_spec x z) as [->|Hxz]; cbn [orb]; [|reflexivity].
    destruct (String.eqb_spec y z); [contradiction|]. reflexivity.
Qed.

Lemma delete_absent x l : has x l = false -> delete x l = l.
Proof.
  induction l as [|z l IH]; [reflexivity|].
  unfold has. cbn [existsb]. intros [H1 H2]%orb_false_iff.
  unfold delete, filter. cbn [list_filter].
  rewrite decide_True by (rewrite H1; cbn; tauto).
  f_equal. apply IH, H2.
Qed.

Lemma delete_idem x l : delete x (delete x l) = delete x l.
Proof.
  apply delete_absent. rewrite has_delete, String.eqb_refl.
  apply andb_false_r.
Qed.

End BrokerFacts.

Module SendFacts.
Import Broker NodeRtmpSession BrokerFacts.

(** The chunks of a type-0 message, as [rtmpChunksCreate] returns them
    ([[]] where it raises). *)
Definition chunksOf (C cid type sid timestamp : Z) (P : Buffer) : Buffer :=
  match message cid type sid timestamp (Some P) with
  | Ok packet =>
      match Chunk.rtmpChunksCreate C packet with
      | Ok chunks => chunks
      | Throw _ => []
      end
  | Throw _ => []
  end.

(** A message of 1 to 2^24 - 1 bytes on one of the channels 2..63 is
    chunked without error, whatever the chunk size. *)
Lemma chunksOf_ok (C cid type sid timestamp : Z) (P : Buffer) :
  1 <= C -> 2 <= cid <= 63 -> 0 <= type < 256 ->
  0 <= sid < 4294967296 -> 0 <= timestamp < 4294967296 ->
  1 <= blen P < 16777216 ->
  exists packet,
    message cid type sid timestamp (Some P) = Ok packet
    /\ Chunk.rtmpChunksCreate C packet = Ok (chunksOf C cid type sid timestamp P).
Proof.
  intros HC Hcid Hty Hsid Hts HL. eexists. split; [reflexivity|].
  unfold chunksOf, message.
  set (packet := RtmpPacket.mk
                   (Header.mk Chunk.RTMP_CHUNK_TYPE_0 cid timestamp (blen P) type sid)
                   0 0 (Some P) 0 0).
  rewrite (RoundTrip.create_enc C cid timestamp type sid P HC (or_introl Hcid)
             Hts Hty Hsid HL packet eq_refl eq_refl).
  reflexivity.
Qed.

Lemma chunksCreate_run this c s packet chunks :
  objects c !! this = Some s ->
  Chunk.rtmpChunksCreate (Session.outChunkSize s) packet = Ok chunks ->
  chunksCreate this packet c = (Ok chunks, c).
Proof.
  intros Hs Hc. unfold chunksCreate.
  rewrite (bind_ok _ _ _ _ _ (object_run _ _ _ Hs)).
  unfold lift. rewrite Hc. reflexivity.
Qed.

(** The context after [socket.write(buf)] on the session [this]. *)
Definition written (this : string) (buf : Buffer) (c : context) : context :=
  set_objects (alter (Session.write buf) this (objects c)) c.

Lemma sendCached_run this c s cid type sid timestamp P :
  objects c !! this = Some s ->
  1 <= Session.outChunkSize s -> 2 <= cid <= 63 -> 0 <= type < 256 ->
  0 <= sid < 4294967296 -> 0 <= timestamp < 4294967296 ->
  1 <= blen P < 16777216 ->
  sendCached this cid type sid timestamp (Some P) c
  = (Ok tt, written this (chunksOf (Session.outChunkSize s) cid type sid timestamp P) c).
Proof.
  intros Hs HC Hcid Hty Hsid Hts HL.
  destruct (chunksOf_ok _ cid type sid timestamp P HC Hcid Hty Hsid Hts HL)
    as (packet & Hm & Hc).
  unfold sendCached.
  rewrite (bind_ok (lift _) _ c packet c) by (unfold lift; rewrite Hm; reflexivity).
  rewrite (bind_ok _ _ _ _ _ (chunksCreate_run _ _ _ _ _ Hs Hc)).
  reflexivity.
Qed.

Lemma sendInvokeMessage_run this c s sid opt P :
  objects c !! this = Some s ->
  1 <= Session.outChunkSize s -> 0 <= sid < 4294967296 ->
  Amf0.encodeAmf0Cmd opt = Ok P -> 1 <= blen P < 16777216 ->
  sendInvokeMessage this sid opt c
  = (Ok tt, written this
              (chunksOf (Session.outChunkSize s) RTMP_CHANNEL_INVOKE
                 RTMP_TYPE_INVOKE sid 0 P) c).
Proof.
  intros Hs HC Hsid HP HL. unfold sendInvokeMessage.
  rewrite (bind_ok (lift _) _ c P c) by (unfold lift; rewrite HP; reflexivity).
  fold (sendCached this RTMP_CHANNEL_INVOKE RTMP_TYPE_INVOKE sid 0 (Some P)).
  apply sendCached_run; try assumption; unfold RTMP_CHANNEL_INVOKE, RTMP_TYPE_INVOKE; lia.
Qed.

(** A status message whose three strings are ASCII and short is encoded
    without error, in 50 bytes and the strings. *)
Definition statusBytes (level code description : string) : Buffer :=
  Amf0Facts.encoding (JString "onStatus") ++ Amf0Facts.encoding (JNumber 0)
  ++ Amf0Facts.encoding JNull
  ++ Amf0Facts.encoding
       (JObject [ ("level", JString level); ("code", JString code);
                  ("description", JString description) ]%string).

Lemma statusMessage_encoded level code description :
  Amf0Facts.roundtrips (JString level) = true ->
  Amf0Facts.roundtrips (JString code) = true ->
  Amf0Facts.roundtrips (JString description) = true ->
  Amf0.encodeAmf0Cmd
    (statusMessage (JString level) (JString code) (JString description))
  = Ok (statusBytes level code description).
Proof.
  intros Hl Hc Hd.
  assert (Hinfo : Amf0Facts.roundtrips
                    (JObject [ ("level", JString level); ("code", JString code);
                               ("description", JString description) ]%string)
                  = true).
  { change (Amf0Facts.distinct ["level"; "code"; "description"]%string
            && (Amf0Facts.key_ok "level" && Amf0Facts.roundtrips (JString level)
                && (Amf0Facts.key_ok "code" && Amf0Facts.roundtrips (JString code)
                    && (Amf0Facts.key_ok "description"
                        && Amf0Facts.roundtrips (JString description) && true)))
            = true).
    rewrite Hl, Hc, Hd. vm_compute. reflexivity. }
  unfold Amf0.encodeAmf0Cmd, Amf0.encodeWith, statusMessage.
  cbv zeta. change (Amf0.prop_or_undefined _ "cmd") with (JString "onStatus").
  change (Amf0.amf0EncodeOne (JString "onStatus"))
    with (Ok (Amf0Facts.encoding (JString "onStatus")) : result Buffer).
  change (Amf0.schema Amf0.rtmpCmdCode (JString "onStatus"))
    with (Ok (Some ["transId"; "cmdObj"; "info"]%string)
          : result (option (list string))).
  cbn [mbind result_bind Js.bind Amf0.encodeFields].
  change (get_prop _ "transId") with (Some (JNumber 0)).
  change (get_prop _ "cmdObj") with (Some JNull).
  cbn [Amf0.amf0EncodeOne Amf0.amf0encNumber Amf0.amf0encNull
       mbind result_bind Js.bind].
  change (get_prop _ "info")
    with (Some (JObject [ ("level", JString level); ("code", JString code);
                          ("description", JString description) ]%string)).
  cbv iota beta.
  rewrite (Amf0Facts.amf0EncodeOne_ok _ Hinfo).
  cbn [mbind result_bind Js.bind]. unfold statusBytes.
  rewrite <- !app_assoc. reflexivity.
Qed.

End SendFacts.

Module PublishFacts.
Import Broker NodeRtmpSession BrokerFacts SendFacts.

Lemma blen_string_encoding s :
  blen (Amf0Facts.encoding (JString s)) = 3 + blen (utf8 s).
Proof.
  cbn [Amf0Facts.encoding]. rewrite !BufferFacts.blen_app, Amf0Facts.blen_be_bytes.
  change (blen [2]) with 1. lia.
Qed.

Lemma blen_statusBytes level code description :
  blen (statusBytes level code description)
  = 60 + blen (utf8 level) + blen (utf8 code) + blen (utf8 description).
Proof.
  unfold statusBytes. cbn [Amf0Facts.encoding flat_map fst snd].
  unfold Amf0Facts.key_bytes.
  rewrite !BufferFacts.blen_app, !BufferFacts.blen_cons, !Amf0Facts.blen_be_bytes.
  change (blen (utf8 "onStatus")) with 8. change (blen (utf8 "level")) with 5.
  change (blen (utf8 "code")) with 4. change (blen (utf8 "description")) with 11.
  change (blen []) with 0. change (blen [2]) with 1. change (blen [3]) with 1.
  change (blen [0; 0; 9]) with 3. lia.
Qed.

(** [sendStatusMessage] with three short ASCII strings writes one
    buffer, the chunks of the encoded message. *)
Lemma sendStatusMessage_run this c s sid level code description :
  objects c !! this = Some s ->
  1 <= Session.outChunkSize s -> 0 <= sid < 4294967296 ->
  Amf0Facts.roundtrips (JString level) = true ->
  Amf0Facts.roundtrips (JString code) = true ->
  Amf0Facts.roundtrips (JString description) = true ->
  sendStatusMessage this sid (JString level) (JString code) (JString description) c
  = (Ok tt, written this
              (chunksOf (Session.outChunkSize s) RTMP_CHANNEL_INVOKE
                 RTMP_TYPE_INVOKE sid 0 (statusBytes level code description)) c).
Proof.
  intros Hs HC Hsid Hl Hc Hd. unfold sendStatusMessage.
  apply (sendInvokeMessage_run this c s sid _ _ Hs HC Hsid
           (statusMessage_encoded level code description Hl Hc Hd)).
  rewrite blen_statusBytes.
  apply Amf0Facts.roundtrips_string in Hl as [_ Hl], Hc as [_ Hc], Hd as [_ Hd].
  pose proof (BufferFacts.blen_nonneg (utf8 level)).
  pose proof (BufferFacts.blen_nonneg (utf8 code)).
  pose proof (BufferFacts.blen_nonneg (utf8 description)).
  lia.
Qed.

Definition badName : Buffer :=
  statusBytes "error" "NetStream.Publish.BadName" "Stream already publishing".

(** C6 (amended): when a started session whose request passes the
    authorization gate sends [publish] for a path that has an entry in
    [publishers], [onPublish] returns after one write to that session,
    the chunks of the [onStatus] message with level [error] and code
    [NetStream.Publish.BadName]; the registries are as before (the path
    still maps to the incumbent), every other session object is as
    before, and the session itself keeps its [isPublishing] flag and its
    subscriber set. *)
Theorem duplicate_publish (c : context) (this name incumbent : string)
    (s : Session.t) (pp : RtmpPacket.t) (verified : bool) :
  let sid := Header.stream_id (RtmpPacket.header pp) in
  let path := stream_path (Session.appname s) name in
  objects c !! this = Some s ->
  Session.isStarting s = true ->
  Session.parserPacket s = Some pp ->
  0 <= sid < 4294967296 ->
  1 <= Session.outChunkSize s ->
  gate s (Session.authPublish s) verified = false ->
  publishers c !! path = Some incumbent ->
  exists c' s',
    onPublish this (JString name) verified c = (Ok tt, c')
    /\ publishers c' = publishers c
    /\ sessions c' = sessions c
    /\ idlePlayers c' = idlePlayers c
    /\ (forall id, id <> this -> objects c' !! id = objects c !! id)
    /\ objects c' !! this = Some s'
    /\ Amf0.encodeAmf0Cmd
         (statusMessage (JString "error") (JString "NetStream.Publish.BadName")
            (JString "Stream already publishing")) = Ok badName
    /\ Session.socket s'
       = Session.socket s
         ++ [chunksOf (Session.outChunkSize s) RTMP_CHANNEL_INVOKE
               RTMP_TYPE_INVOKE sid 0 badName]
    /\ Session.isPublishing s' = Session.isPublishing s
    /\ Session.players s' = Session.players s.
Proof.
  intros sid path Hs Hst Hpp Hsid HC Hgate Hreg.
  set (s1 := Session.set_publishStreamId sid (Session.set_publishStreamPath path s)).
  set (c1 := set_objects (alter (Session.set_publishStreamId sid) this
                            (alter (Session.set_publishStreamPath path) this
                               (objects c))) c).
  assert (Hs1 : objects c1 !! this = Some s1).
  { subst c1 s1. cbn [objects set_objects].
    rewrite !lookup_alter_eq, Hs. reflexivity. }
  set (chunks := chunksOf (Session.outChunkSize s) RTMP_CHANNEL_INVOKE
                   RTMP_TYPE_INVOKE sid 0 badName).
  exists (written this chunks c1), (Session.write chunks s1).
  split.
  - unfold onPublish.
    rewrite (bind_ok _ _ _ _ _ (object_run _ _ _ Hs)).
    fold path. rewrite bind_run, update_run.
    rewrite Hpp. rewrite bind_run. cbn [mret M_ret]. fold sid.
    rewrite bind_run, update_run.
    rewrite Hst, Hgate. cbn [negb].
    rewrite bind_run. unfold read at 1.
    match goal with |- context [publishers ?x] => change x with c1 end.
    change (publishers c1) with (publishers c). rewrite Hreg.
    apply (sendStatusMessage_run this c1 s1 sid _ _ _ Hs1 HC Hsid);
      vm_compute; reflexivity.
  - split; [reflexivity|]. split; [reflexivity|]. split; [reflexivity|].
    split; [|split; [|split; [|repeat split]]].
    3: apply statusMessage_encoded; vm_compute; reflexivity.
    + intros id Hid. unfold written. subst c1. cbn [objects set_objects].
      rewrite !lookup_alter_ne by congruence. reflexivity.
    + unfold written. cbn [objects set_objects]. rewrite lookup_alter_eq, Hs1.
      reflexivity.
Qed.

End PublishFacts.

(** ** Sessions at work *)

Module Scenario.
Import Broker NodeRtmpSession BrokerFacts SendFacts PublishFacts.

(** A started session of the application [app], with the GOP cache on
    and the default chunk size; [auth] is [config.auth.play]. *)
Definition client (id : string) (auth : bool) : Session.t :=
  Session.set_appname "app"
    (Session.run (Session.create id false false auth true 0)).

(** The parser hands over a message of [payload] on the message stream
    [sid], with clock [clock]. *)
Definition receive (this : string) (sid clock : Z) (payload : Buffer) : M unit :=
  update this (Session.set_parserPacket
    (Some (RtmpPacket.mk (Header.mk 0 3 clock (blen payload) 20 sid)
             clock 0 (Some payload) (blen payload) (blen payload)))).

(** Two sessions; [P] publishes [/app/cam]. *)
Definition onePublisher : context :=
  exec (_ ← register (client "P" false);
        _ ← register (client "Q" false);
        _ ← receive "P" 1 0 [];
        onPublish "P" (JString "cam") true) empty.

(** [Q] publishes [/app/own] as well. *)
Definition twoPublishers : context :=
  exec (_ ← receive "Q" 1 0 [];
        onPublish "Q" (JString "own?sign=1") true) onePublisher.

Definition field {A} (f : Session.t -> A) (c : context) (id : string) : option A :=
  f <$> objects c !! id.
End Scenario.

Module PublishCases.
Import Broker NodeRtmpSession BrokerFacts SendFacts PublishFacts Scenario.

Lemma duplicate_publish_witness :
  exists c' s',
    onPublish "Q" (JString "cam") true (exec (receive "Q" 1 0 []) onePublisher)
    = (Ok tt, c')
    /\ publishers c' = publishers onePublisher
    /\ sessions c' = sessions onePublisher
    /\ idlePlayers c' = idlePlayers onePublisher
    /\ (forall id, id <> "Q"%string ->
          objects c' !! id = objects (exec (receive "Q" 1 0 []) onePublisher) !! id)
    /\ objects c' !! "Q"%string = Some s'
    /\ Amf0.encodeAmf0Cmd
         (statusMessage (JString "error") (JString "NetStream.Publish.BadName")
            (JString "Stream already publishing")) = Ok badName
    /\ Session.socket s'
       = [] ++ [chunksOf 128 RTMP_CHANNEL_INVOKE RTMP_TYPE_INVOKE 1 0 badName]
    /\ Session.isPublishing s' = false
    /\ Session.players s' = [].
Proof.
  apply (duplicate_publish (exec (receive "Q" 1 0 []) onePublisher)
           "Q" "cam" "P"
           (Session.set_parserPacket
              (Some (RtmpPacket.mk (Header.mk 0 3 0 0 20 1) 0 0 (Some []) 0 0))
              (client "Q" false))
           (RtmpPacket.mk (Header.mk 0 3 0 0 20 1) 0 0 (Some []) 0 0) true);
    try (vm_compute; reflexivity); cbn; lia.
Defined.

(** C6, the claim as stated, fails: [Q] publishes [/app/own] and then
    asks for [/app/cam], which [P] publishes.  [Q] gets the BadName
    status and [P] stays the publisher of [/app/cam], but [Q] is still
    publishing: its [isPublishing] is [true], not [false]. *)
Lemma duplicate_publish_keeps_flag :
  let c := exec (receive "Q" 2 0 []) twoPublishers in
  let c' := exec (onPublish "Q" (JString "cam") true) c in
  publishers c !! "/app/cam"%string = Some "P"%string
  /\ fst (onPublish "Q" (JString "cam") true c) = Ok tt
  /\ publishers c' !! "/app/cam"%string = Some "P"%string
  /\ (last <$> field Session.socket c' "Q")
     = Some (Some (chunksOf 128 RTMP_CHANNEL_INVOKE RTMP_TYPE_INVOKE 2 0 badName))
  /\ field Session.isPublishing c' "Q" = Some true.
Proof. vm_compute. repeat split; reflexivity. Qed.

End PublishCases.

Module PauseCases.
Import Broker NodeRtmpSession BrokerFacts SendFacts Scenario.

(** [Q] plays [/app/cam], which [P] publishes. *)
Definition playing : context :=
  exec (_ ← receive "Q" 1 0 [];
        onPlay "Q" (JString "cam") true) onePublisher.

Definition pauseNotify : list (string * jsval) :=
  statusMessage (JString "NetStream.Pause.Notify") (JString "Paused live")
    JUndefined.

(** C8 (evaluation at the failing input): on [pause] with the flag
    [true], [onPause] sets [isPause], sends StreamEOF for the play
    stream and then an [onStatus] message that decodes to level
    [NetStream.Pause.Notify], code [Paused live] and no description:
    [sendStatusMessage] is called with three arguments, one short. *)
Theorem pause_status_is_shifted :
  exists payload,
    let c' := exec (onPause "Q" (JBool true)) playing in
    fst (onPause "Q" (JBool true) playing) = Ok tt
    /\ field Session.isPause c' "Q" = Some true
    /\ Amf0.encodeAmf0Cmd pauseNotify = Ok payload
    /\ field Session.socket c' "Q"
       = (fun w => w ++ [ [2; 0; 0; 0; 0; 0; 6; 4; 0; 0; 0; 0; 0; 1; 0; 0; 0; 1];
                          chunksOf 128 RTMP_CHANNEL_INVOKE RTMP_TYPE_INVOKE 1 0
                            payload ])
         <$> field Session.socket playing "Q"
    /\ Amf0.decodeAmf0Cmd (S (length payload)) payload
       = Some (Ok [ ("cmd", JString "onStatus"); ("transId", JNumber 0);
                    ("cmdObj", JNull);
                    ("info", JObject [ ("level", JString "NetStream.Pause.Notify");
                                       ("code", JString "Paused live");
                                       ("description", JUndefined) ]) ]%string).
Proof.
  eexists. cbv zeta. split; [vm_compute; reflexivity|].
  split; [vm_compute; reflexivity|].
  split; [vm_compute; reflexivity|].
  split; vm_compute; reflexivity.
Qed.

End PauseCases.

Module GopCases.
Import Broker NodeRtmpSession BrokerFacts SendFacts Scenario.

Definition avcHeader : Buffer := [0x17; 0; 0; 0; 0; 1; 0x64; 0; 0x1F].
Definition mp3Frame : Buffer := [0x2F; 0xFF; 0xFB; 0x90].
Definition aacHeader : Buffer := [0xAF; 0; 0x12; 0x10].

(** [P] publishes and sends an AVC sequence header, then an MP3 frame,
    then an AAC sequence header. *)
Definition mixedAudio : context :=
  exec (_ ← receive "P" 1 0 avcHeader; _ ← rtmpVideoHandler "P";
        _ ← receive "P" 1 20 mp3Frame; _ ← rtmpAudioHandler "P";
        _ ← receive "P" 1 40 aacHeader; rtmpAudioHandler "P") onePublisher.

(** C7 (evaluation at the failing input): the first audio message [P]
    sends is an MP3 frame, so that no AAC sequence header is ever
    stored; the AAC sequence header that follows (codec 10, second byte
    0) is then not skipped: its chunks are in the GOP queue. *)
Theorem aac_header_in_gop_cache :
  field Session.aacSequenceHeader mixedAudio "P" = Some None
  /\ field Session.rtmpGopCacheQueue mixedAudio "P"
     = Some (Some [ chunksOf 128 RTMP_CHANNEL_AUDIO RTMP_TYPE_AUDIO 0 20 mp3Frame;
                    chunksOf 128 RTMP_CHANNEL_AUDIO RTMP_TYPE_AUDIO 0 40 aacHeader ])
  /\ Z.land (Z.shiftr (bits_at aacHeader 0) 4) 0x0f = 10
  /\ is_at aacHeader 1 0 = true.
Proof. vm_compute. repeat split; reflexivity. Qed.

End GopCases.

Module StopCases.
Import Broker NodeRtmpSession BrokerFacts SendFacts Scenario.

(** A server that asks for a signature on [play]; [R] asks for
    [/app/cam] with a signature that is not accepted. *)
Definition rejected : context :=
  exec (_ ← register (client "R" true);
        _ ← receive "R" 1 0 [];
        onPlay "R" (JString "cam?sign=0") false) empty.

(** C9 (evaluation at the failing input): after a [play] that was
    refused, [playStreamId] is set and the session neither plays nor
    idles; [stop] then looks up the publisher of the path, gets
    [undefined], which passes the test [publisherId !== null], and
    raises a [TypeError] before the session is taken out of the
    registry: [R] is still registered and its socket is not destroyed. *)
Theorem stop_raises_after_refused_play :
  field Session.playStreamId rejected "R" = Some 1
  /\ field Session.isIdling rejected "R" = Some false
  /\ fst (stop "R" rejected) = Throw TypeError
  /\ sessions (exec (stop "R") rejected) = ["R"%string]
  /\ field Session.destroyed (exec (stop "R") rejected) "R" = Some false
  /\ exec (stop "R") (exec (stop "R") rejected) = exec (stop "R") rejected.
Proof. vm_compute. repeat split; reflexivity. Qed.

End StopCases.

Module PlayFacts.
Import Broker NodeRtmpSession BrokerFacts SendFacts Scenario.

(** ** Fields of the objects across updates *)

Lemma field_alter {A} (f : Session.t -> A) g id id' (m : gmap string Session.t) :
  (forall s, f (g s) = f s) ->
  f <$> alter g id m !! id' = f <$> m !! id'.
Proof.
  intros H. destruct (decide (id = id')) as [->|Hne].
  - rewrite lookup_alter_eq. destruct (m !! id'); cbn; [rewrite H|]; reflexivity.
  - rewrite lookup_alter_ne by exact Hne. reflexivity.
Qed.

Lemma field_written {A} (f : Session.t -> A) this buf c id :
  (forall s w, f (Session.set_socket w s) = f s) ->
  field f (written this buf c) id = field f c id.
Proof.
  intros H. unfold field, written. cbn [objects set_objects].
  apply field_alter. intros s. apply H.
Qed.


Lemma chunksCreate_field this c C packet chunks :
  field Session.outChunkSize c this = Some C ->
  Chunk.rtmpChunksCreate C packet = Ok chunks ->
  chunksCreate this packet c = (Ok chunks, c).
Proof.
  unfold field. intros Hf Hc.
  destruct (objects c !! this) as [s|] eqn:Hs; [|discriminate].
  injection Hf as <-. exact (chunksCreate_run this c s packet chunks Hs Hc).
Qed.

(** ** The stream id of a cached chunk buffer *)

(** [chunks.writeUInt32LE(sid, 8)]. *)
Definition stamp (sid : Z) (chunks : Buffer) : Buffer :=
  take 8 chunks ++ le_bytes 4 sid ++ drop 12 chunks.

Lemma writeUInt32LE_stamp chunks sid :
  12 <= blen chunks -> 0 <= sid < 4294967296 ->
  writeUInt32LE chunks sid 8 = Ok (stamp sid chunks).
Proof.
  intros Hl Hsid. unfold blen in Hl.
  rewrite <- (take_drop 8 chunks) at 1.
  rewrite <- (take_drop 4 (drop 8 chunks)) at 1.
  rewrite drop_drop. change (8 + 4)%nat with 12%nat.
  apply ParserFacts.writeUInt32LE_mid.
  - unfold blen. rewrite length_take. lia.
  - rewrite length_take, length_drop. lia.
  - exact Hsid.
Qed.












Lemma sessions_get_run id c s :
  has id (sessions c) = true -> objects c !! id = Some s ->
  sessions_get id c = (Ok (Some s), c).
Proof. intros H1 H2. unfold sessions_get, read. rewrite H1, H2. reflexivity. Qed.



End PlayFacts.

Module PlayCases.
Import Broker NodeRtmpSession BrokerFacts SendFacts Scenario PlayFacts.

Definition metaBytes : Buffer :=
  [2; 0; 10; 111; 110; 77; 101; 116; 97; 68; 97; 116; 97; 5].

(** [P] publishes [/app/cam] with metadata, both sequence headers, a
    key frame and an audio frame; [Q] has asked for [/app/cam] on the
    message stream 1. *)
Definition live : context :=
  exec (_ ← update "P" (Session.set_metaData (Some metaBytes));
        _ ← receive "P" 1 0 [0x17; 0; 0; 0; 0; 1; 0x64; 0; 0x1F];
        _ ← rtmpVideoHandler "P";
        _ ← receive "P" 1 0 [0xAF; 0; 0x12; 0x10];
        _ ← rtmpAudioHandler "P";
        _ ← receive "P" 1 40 [0x17; 1; 0; 0; 0; 7; 7; 7];
        _ ← rtmpVideoHandler "P";
        _ ← receive "P" 1 60 [0xAF; 1; 0x21; 0x10];
        _ ← rtmpAudioHandler "P";
        update "Q" (fun s => Session.set_playStreamPath "/app/cam"
                               (Session.set_playStreamId 1 s)))
    onePublisher.

Definition subscriber : Session.t := default (client "Q" false) (objects live !! "Q"%string).
Definition publisher : Session.t := default (client "P" false) (objects live !! "P"%string).


(** What the subscriber of [live] gets: the metadata, the two sequence
    headers, then the key frame and the audio frame, all on its
    message stream 1. *)
Example start_play_bytes :
  field Session.socket (exec (onStartPlay "Q") live) "Q"
  = Some [ [6; 0; 0; 0; 0; 0; 14; 18; 1; 0; 0; 0;
            2; 0; 10; 111; 110; 77; 101; 116; 97; 68; 97; 116; 97; 5];
           [4; 0; 0; 0; 0; 0; 4; 8; 1; 0; 0; 0; 0xAF; 0; 0x12; 0x10];
           [5; 0; 0; 0; 0; 0; 9; 9; 1; 0; 0; 0; 0x17; 0; 0; 0; 0; 1; 0x64; 0; 0x1F];
           [5; 0; 0; 40; 0; 0; 8; 9; 1; 0; 0; 0; 0x17; 1; 0; 0; 0; 7; 7; 7];
           [4; 0; 0; 60; 0; 0; 4; 8; 1; 0; 0; 0; 0xAF; 1; 0x21; 0x10] ].
Proof. vm_compute. reflexivity. Qed.

End PlayCases.

(* ===================================================================== *)
(** * More of the AMF codec *)
(* ===================================================================== *)

Module Amf3Range.
Import Amf3 JsFacts BufferFacts ParserFacts.

Lemma bor_127 x :
  0 <= x < 65536 -> bor x 0x7F = x + 127 - x mod 128.
Proof.
  intros Hx. unfold bor.
  rewrite (to_int32_small x), (to_int32_small 127) by lia.
  pose proof (Z.add_lor_land x 127) as H.
  change 127 with (Z.ones 7) in H at 2. rewrite Z.land_ones in H by lia.
  change (2 ^ 7) with 128 in H.
  pose proof (Z.mod_pos_bound x 128 ltac:(lia)).
  rewrite to_int32_small; lia.
Qed.

Lemma bor_128 x : 0 <= x < 128 -> bor x 0x80 = x + 128.
Proof.
  intros Hx.
  assert (H : forallb (fun x => bor x 0x80 =? x + 128) (map Z.of_nat (seq 0 128)) = true)
    by (vm_compute; reflexivity).
  apply Z.eqb_eq. exact (forall_below _ _ H x ltac:(lia)).
Qed.

Lemma writeUInt8_at (pre rest : Buffer) old v :
  0 <= v < 256 ->
  writeUInt8 (pre ++ old :: rest) v (blen pre) = Ok (pre ++ v :: rest).
Proof.
  intros Hv.
  pose proof (writeUIntBE_mid pre [old] rest 1 v (blen pre) eq_refl eq_refl) as H.
  change (256 ^ Z.of_nat 1) with 256 in H. specialize (H Hv).
  change (be_bytes 1 v) with [v mod 256] in H.
  rewrite Z.mod_small in H by exact Hv. exact H.
Qed.

Lemma write_first (rest : Buffer) v :
  0 <= v < 256 -> writeUInt8 (0 :: rest) v 0 = Ok (v :: rest).
Proof. intros Hv. exact (writeUInt8_at [] rest 0 v Hv). Qed.

Lemma write_second (rest : Buffer) a v :
  0 <= v < 256 -> writeUInt8 (a :: 0 :: rest) v 1 = Ok (a :: v :: rest).
Proof. intros Hv. exact (writeUInt8_at [a] rest 0 v Hv). Qed.

Lemma write_third (rest : Buffer) a b v :
  0 <= v < 256 -> writeUInt8 (a :: b :: 0 :: rest) v 2 = Ok (a :: b :: v :: rest).
Proof. intros Hv. exact (writeUInt8_at [a; b] rest 0 v Hv). Qed.

Lemma writeUInt8_high (buf : Buffer) v off : 256 <= v -> writeUInt8 buf v off = Throw RangeError.
Proof.
  intros Hv. unfold writeUInt8, writeUIntBE. change (256 ^ 1) with 256.
  destruct (Z.ltb_spec v 256); [lia|].
  rewrite andb_false_r. reflexivity.
Qed.

Lemma mask30 n : 0 <= n < 1073741824 -> band n 0x3FFFFFFF = n.
Proof.
  intros Hn. change 0x3FFFFFFF with (Z.ones 30).
  rewrite band_ones by lia. change (2 ^ 30) with 1073741824.
  apply Z.mod_small. exact Hn.
Qed.

(** X1: [amf3encInteger] writes every integer below 0x200000 in the
    3-byte form (the tests on [num] are not exclusive, the last one that
    holds wins), with the flag on the last byte; [amf3decInteger] then
    goes on reading while [len < 5] and raises a RangeError at the end
    of the buffer. *)
Theorem amf3_small_integers (n : Z) :
  0 <= n < 2097152 ->
  amf3encInteger n
  = Ok [4; n mod 128; (n / 128) mod 128; n / 16384 + 128]
  /\ amf3decInteger [4; n mod 128; (n / 128) mod 128; n / 16384 + 128]
     = Throw RangeError.
Proof.
  intros Hn.
  split; [|reflexivity].
  unfold amf3encInteger. rewrite mask30 by lia.
  unfold amf3encUI29. rewrite Amf3Facts.ui29_len_3_or_4.
  destruct (Z.ltb_spec n 0x200000) as [_|]; [|lia].
  change 0x7F with (Z.ones 7).
  rewrite (shr_small n 7), (shr_small n 14) by lia.
  change (2 ^ 7) with 128. change (2 ^ 14) with 16384.
  assert (H7 : 0 <= n / 128 < 2147483648)
    by (split; [apply Z.div_pos; lia | apply Z.div_lt_upper_bound; lia]).
  rewrite (band_ones n 7), (band_ones (n / 128) 7) by lia.
  change (2 ^ 7) with 128.
  rewrite bor_128
    by (split; [apply Z.div_pos; lia | apply Z.div_lt_upper_bound; lia]).
  pose proof (Z.mod_pos_bound n 128 ltac:(lia)) as H0.
  pose proof (Z.mod_pos_bound (n / 128) 128 ltac:(lia)) as H1.
  assert (H2 : 0 <= n / 16384 < 128)
    by (split; [apply Z.div_pos; lia | apply Z.div_lt_upper_bound; lia]).
  change (alloc 3) with [0; 0; 0].
  rewrite write_first by lia. cbn [mbind result_bind Js.bind].
  rewrite write_second by lia. cbn [mbind result_bind Js.bind].
  rewrite write_third by lia. reflexivity.
Qed.

Lemma amf3_small_integers_witness :
  amf3encInteger 300 = Ok [4; 300 mod 128; (300 / 128) mod 128; 300 / 16384 + 128]
  /\ amf3decInteger [4; 300 mod 128; (300 / 128) mod 128; 300 / 16384 + 128]
     = Throw RangeError.
Proof. apply (amf3_small_integers 300). lia. Defined.

(** X2: from 2^23 on, [amf3encInteger] raises: in the 4-byte form the
    third byte is [(num >> 15) | 0x7F], which does not fit a byte. *)
Theorem amf3_large_integers (n : Z) :
  8388608 <= n < 1073741824 -> amf3encInteger n = Throw RangeError.
Proof.
  intros Hn.
  unfold amf3encInteger. rewrite mask30 by lia.
  unfold amf3encUI29. rewrite Amf3Facts.ui29_len_3_or_4.
  destruct (Z.ltb_spec n 0x200000) as [|_]; [lia|].
  change 0xFF with (Z.ones 8). change 0x7F with (Z.ones 7).
  rewrite (shr_small n 8), (shr_small n 15) by lia.
  change (2 ^ 8) with 256. change (2 ^ 15) with 32768.
  assert (H8 : 0 <= n / 256 < 2147483648)
    by (split; [apply Z.div_pos; lia | apply Z.div_lt_upper_bound; lia]).
  rewrite (band_ones n 8), (band_ones (n / 256) 7) by lia.
  change (2 ^ 8) with 256. change (2 ^ 7) with 128.
  pose proof (Z.mod_pos_bound n 256 ltac:(lia)) as H0.
  pose proof (Z.mod_pos_bound (n / 256) 128 ltac:(lia)) as H1.
  change (alloc 4) with [0; 0; 0; 0].
  rewrite write_first by lia. cbn [mbind result_bind Js.bind].
  rewrite write_second by lia. cbn [mbind result_bind Js.bind].
  rewrite writeUInt8_high; [reflexivity|].
  assert (H2 : 256 <= n / 32768 < 32768)
    by (split; [apply Z.div_le_lower_bound; lia | apply Z.div_lt_upper_bound; lia]).
  change (Z.ones 7) with 0x7F. rewrite bor_127 by lia.
  pose proof (Z.mod_pos_bound (n / 32768) 128 ltac:(lia)). lia.
Qed.

Lemma amf3_large_integers_witness : amf3encInteger 8388608 = Throw RangeError.
Proof. apply (amf3_large_integers 8388608). lia. Defined.

End Amf3Range.

Module Amf0Extras.
Import Amf0 JsFacts BufferFacts ParserFacts StringFacts Amf0Facts.

(** X3: the decoder reads a value off the front of a buffer: after
    the bytes [amf0EncodeOne] wrote for [v], whatever follows,
    [amf0DecodeOne] gives [v] and the number of those bytes. *)
Theorem amf0_decode_front (v : jsval) (rest : Buffer) (fuel : nat) :
  roundtrips v = true ->
  (length (encoding v) <= fuel)%nat ->
  amf0EncodeOne v = Ok (encoding v)
  /\ amf0DecodeOne fuel (encoding v ++ rest)
     = Some (Ok (Some {| len := blen (encoding v); value := v |})).
Proof.
  intros Hv Hf. split; [apply amf0EncodeOne_ok, Hv|].
  apply decode_encoding; assumption.
Qed.

Lemma amf0_decode_front_witness :
  amf0EncodeOne (JString "play") = Ok (encoding (JString "play"))
  /\ amf0DecodeOne 7 (encoding (JString "play") ++ [0; 64; 0; 0; 0])
     = Some (Ok (Some {| len := blen (encoding (JString "play"));
                         value := JString "play" |})).
Proof.
  apply (amf0_decode_front (JString "play") [0; 64; 0; 0; 0] 7);
    [reflexivity | cbn; lia].
Defined.

(** X4: a data message made of [cmd] and the first fields of its
    schema in [rtmpDataCode] comes back from [decodeAmf0Data] as
    [encodeAmf0Data] got it. *)
Theorem amf0_data_roundtrip (m : list (string * jsval)) :
  follows rtmpDataCode m = true ->
  exists e,
    encodeAmf0Data m = Ok e
    /\ forall fuel, (length e <= fuel)%nat -> decodeAmf0Data fuel e = Some (Ok m).
Proof. intros Hm. apply message_roundtrip; [apply rtmpDataCode_ok | exact Hm]. Qed.

Definition sample_data : list (string * jsval) :=
  [ ("cmd", JString "onMetaData");
    ("dataObj", JObject [ ("width", JNumber 4653344160763904000);
                          ("encoder", JString "obs") ]) ]%string.

Lemma amf0_data_roundtrip_witness :
  exists e,
    encodeAmf0Data sample_data = Ok e
    /\ forall fuel, (length e <= fuel)%nat ->
         decodeAmf0Data fuel e = Some (Ok sample_data).
Proof. apply (amf0_data_roundtrip sample_data). vm_compute. reflexivity. Defined.




(** X6: the fields of a command that names no schema are not
    written: [encodeAmf0Cmd] gives the bytes of [cmd] alone, and
    [decodeAmf0Cmd] stops after [cmd] whatever follows it. *)
Theorem amf0_unknown_command (name : string) (fields : list (string * jsval))
    (rest : Buffer) (fuel : nat) :
  roundtrips (JString name) = true ->
  assoc rtmpCmdCode name = None ->
  existsb (String.eqb name) inherited = false ->
  (length (encoding (JString name)) <= fuel)%nat ->
  encodeAmf0Cmd (("cmd"%string, JString name) :: fields)
  = Ok (encoding (JString name))
  /\ decodeAmf0Cmd fuel (encoding (JString name) ++ rest)
     = Some (Ok [("cmd"%string, JString name)]).
Proof.
  intros Hn Ha Hi Hf.
  assert (Hs : schema rtmpCmdCode (JString name) = Ok None).
  { unfold schema. cbn [property_key mbind result_bind Js.bind].
    rewrite Ha, Hi. reflexivity. }
  split.
  - unfold encodeAmf0Cmd, encodeWith, prop_or_undefined. cbv zeta.
    rewrite get_prop_head. change (default JUndefined (Some ?x)) with x.
    rewrite (amf0EncodeOne_ok _ Hn), Hs. reflexivity.
  - unfold decodeAmf0Cmd, decodeWith.
    rewrite (decode_encoding _ Hn) by exact Hf.
    cbv zeta. cbn [mbind fr_bind Amf0.len Amf0.value lift]. rewrite Hs.
    reflexivity.
Qed.

Lemma amf0_unknown_command_witness :
  encodeAmf0Cmd [ ("cmd", JString "onBWDone"); ("transId", JNumber 0) ]%string
  = Ok (encoding (JString "onBWDone"))
  /\ decodeAmf0Cmd 11 (encoding (JString "onBWDone") ++ [5])
     = Some (Ok [("cmd"%string, JString "onBWDone")]).
Proof.
  apply (amf0_unknown_command "onBWDone" [("transId"%string, JNumber 0)] [5] 11);
    [reflexivity | reflexivity | reflexivity | cbn; lia].
Defined.

(** X7: an ECMA array (marker 8, a count, then the fields and the
    end of an object) is decoded as an object with these properties in
    their order; the count is not used, and the length reported is one
    more than the bytes of the array: [amf0decArray] adds 5 to the
    length of an object that starts at offset 4. *)
Theorem amf0_ecma_array (props : list (string * jsval)) (count rest : Buffer)
    (fuel : nat) :
  roundtrips (JObject props) = true ->
  length count = 4%nat ->
  (length (fields_bytes props) + 3 <= fuel)%nat ->
  let array := [0x08] ++ count ++ fields_bytes props ++ [0; 0; 0x09] in
  amf0DecodeOne fuel (array ++ rest)
  = Some (Ok (Some {| len := blen array + 1; value := JObject props |})).
Proof.
  intros Hv Hc Hf array. subst array.
  apply roundtrips_object in Hv as (Hn & Hk & Hr).
  destruct count as [|c0 [|c1 [|c2 [|c3 [|]]]]]; try discriminate Hc.
  destruct fuel as [|[|fuel]]; try lia.
  cbn [app]. cbn [amf0DecodeOne]. rewrite readUInt8_cons.
  cbn [mbind fr_bind lift Z.eqb Pos.eqb].
  change (slice_from (8 :: c0 :: c1 :: c2 :: c3 :: ?x) 4) with (c3 :: x).
  cbn [amf0decObject]. change (slice_from (c3 :: ?x) 1) with x.
  rewrite <- app_assoc.
  rewrite (object_loop props Hk Hr).
  - cbn [mbind fr_bind Amf0.len Amf0.value]. unfold mret, fr_ret.
    apply same_len. rewrite !blen_cons, blen_app.
    change (blen [0; 0; 9]) with 3. lia.
  - rewrite Forall_forall in *. intros kv Hin rest' fuel' Hf'.
    apply decode_encoding; [apply Hr, Hin | exact Hf'].
  - exact Hn.
  - lia.
Qed.

Lemma amf0_ecma_array_witness :
  amf0DecodeOne 16
    (([0x08] ++ [0; 0; 0; 1]
      ++ fields_bytes [("duration"%string, JNull)] ++ [0; 0; 0x09]) ++ [5])
  = Some (Ok (Some {| len := blen ([0x08] ++ [0; 0; 0; 1]
                                   ++ fields_bytes [("duration"%string, JNull)]
                                   ++ [0; 0; 0x09]) + 1;
                      value := JObject [("duration"%string, JNull)] |})).
Proof.
  apply (amf0_ecma_array [("duration"%string, JNull)] [0; 0; 0; 1] [5] 16);
    [reflexivity | reflexivity | cbn; lia].
Defined.

End Amf0Extras.

(** ** What a handler leaves alone *)

Module Frame.
Import Broker NodeRtmpSession BrokerFacts SendFacts Scenario PlayFacts.

(** [m] takes every context to one related to it by [R], whether it
    returns or raises. *)
Definition preserves {A} (R : context -> context -> Prop) (m : M A) : Prop :=
  forall c, R c (snd (m c)).

Section Preserves.
Context (R : context -> context -> Prop) `{!PreOrder R}.

Lemma preserves_ret {A} (a : A) : preserves R (mret a).
Proof. intros c. reflexivity. Qed.

Lemma preserves_raise {A} e : preserves R (raise e : M A).
Proof. intros c. reflexivity. Qed.

Lemma preserves_lift {A} (r : result A) : preserves R (lift r).
Proof. intros c. reflexivity. Qed.

Lemma preserves_read {A} (f : context -> A) : preserves R (read f).
Proof. intros c. reflexivity. Qed.

Lemma preserves_object id : preserves R (object id).
Proof. intros c. unfold object. destruct (objects c !! id); reflexivity. Qed.

Lemma preserves_sessions_get id : preserves R (sessions_get id).
Proof. intros c. reflexivity. Qed.

Lemma preserves_bind {A B} (m : M A) (k : A -> M B) :
  preserves R m -> (forall a, preserves R (k a)) -> preserves R (m ≫= k).
Proof.
  intros Hm Hk c. rewrite bind_run. specialize (Hm c).
  destruct (m c) as [[a|e] c']; cbn [snd] in *; [|exact Hm].
  transitivity c'; [exact Hm | apply Hk].
Qed.

Lemma preserves_when (b : bool) (m : M unit) :
  preserves R m -> preserves R (when b m).
Proof. intros Hm. destruct b; [exact Hm | apply preserves_ret]. Qed.

Lemma preserves_forEach {A} (l : list A) (body : A -> M unit) :
  (forall x, preserves R (body x)) -> preserves R (forEach l body).
Proof.
  intros Hb. induction l as [|x l IH]; [apply preserves_ret|].
  cbn [forEach]. apply preserves_bind; [apply Hb | intros _; exact IH].
Qed.

Lemma preserves_update id g :
  (forall c, R c (set_objects (alter g id (objects c)) c)) ->
  preserves R (update id g).
Proof. intros H c. rewrite update_run. apply H. Qed.

Lemma preserves_modify h :
  (forall c, R c (h c)) -> preserves R (modify h).
Proof. intros H c. apply H. Qed.
End Preserves.

(** Every session object has in [c'] the value of [f] that it has in
    [c]; no object appears or disappears. *)
Definition same {A} (f : Session.t -> A) (c c' : context) : Prop :=
  forall id, field f c' id = field f c id.

#[global] Instance same_preorder {A} (f : Session.t -> A) : PreOrder (same f).
Proof.
  split.
  - intros c id. reflexivity.
  - intros a b c H1 H2 id. rewrite H2. apply H1.
Qed.

Lemma same_alter {A} (f : Session.t -> A) g id c :
  (forall s, f (g s) = f s) ->
  same f c (set_objects (alter g id (objects c)) c).
Proof.
  intros H id'. unfold field. cbn [objects set_objects]. apply field_alter, H.
Qed.

(** The registry of sessions is the same. *)
Definition registered (c c' : context) : Prop := sessions c' = sessions c.

#[global] Instance registered_preorder : PreOrder registered.
Proof.
  split.
  - intros c. reflexivity.
  - intros a b c H1 H2. unfold registered in *. congruence.
Qed.

(** The three registries are the same. *)
Definition registries (c c' : context) : Prop :=
  sessions c' = sessions c /\ publishers c' = publishers c
  /\ idlePlayers c' = idlePlayers c.

#[global] Instance registries_preorder : PreOrder registries.
Proof.
  split.
  - intros c. repeat split.
  - intros a b c (A1 & A2 & A3) (B1 & B2 & B3). unfold registries.
    split_and!; congruence.
Qed.

(** Steps of a proof that a handler preserves a relation: through the
    binds, the loops and the tests, down to the assignments. *)
Ltac frame_step :=
  first
    [ match goal with |- PreOrder _ => apply _ end
    | apply preserves_ret | apply preserves_raise | apply preserves_lift
    | apply preserves_read | apply preserves_object
    | apply preserves_sessions_get
    | apply preserves_bind; [| | intros ?]
    | apply preserves_when
    | apply preserves_forEach; [| intros ?]
    | match goal with
      | |- preserves _ (match ?x with _ => _ end) => destruct x
      | |- preserves _ (match ?x with _ => _ end _) => destruct x
      end ].

Ltac frame_same :=
  repeat first
    [ frame_step
    | apply preserves_update; intros ?; apply same_alter; intros ?; reflexivity
    | apply preserves_modify; intros ? ?; reflexivity ].

Ltac frame_registered :=
  repeat first
    [ frame_step
    | apply preserves_update; intros ?; reflexivity
    | apply preserves_modify; intros ?; reflexivity ].


Ltac open_sends :=
  unfold sendStatusMessage, sendInvokeMessage, sendDataMessage,
    sendRtmpSampleAccess, sendStreamStatus, sendCached, chunksCreate,
    socket_write, storeGop, storeLast.

(** The fields that only [run], [stop] and the constructor assign. *)
Definition lifecycle (s : Session.t) : bool * bool * bool :=
  (Session.isStarting s, Session.destroyed s, Session.pingInterval s).

Lemma onDeleteStream_lifecycle this streamId :
  preserves (same lifecycle) (onDeleteStream this streamId).
Proof. unfold onDeleteStream. open_sends. frame_same. Qed.

Lemma onDeleteStream_registered this streamId :
  preserves registered (onDeleteStream this streamId).
Proof. unfold onDeleteStream. open_sends. frame_registered. Qed.

End Frame.

Module StopFacts.
Import Broker NodeRtmpSession BrokerFacts SendFacts Scenario PlayFacts Frame.

Lemma field_some {A} (f : Session.t -> A) c id a :
  field f c id = Some a -> exists s, objects c !! id = Some s /\ f s = a.
Proof.
  unfold field. destruct (objects c !! id) as [s|]; [|discriminate].
  intros [= <-]. exists s. split; reflexivity.
Qed.

Lemma field_of {A} (f : Session.t -> A) c id s :
  objects c !! id = Some s -> field f c id = Some (f s).
Proof. unfold field. intros ->. reflexivity. Qed.

(** X8: after [stop], whether it returned or raised, the session is
    not starting any more, and a second [stop] returns at once and
    changes nothing. *)
Theorem stop_is_final (c : context) (this : string) (s : Session.t) :
  objects c !! this = Some s ->
  field Session.isStarting (exec (stop this) c) this = Some false
  /\ stop this (exec (stop this) c) = (Ok tt, exec (stop this) c).
Proof.
  intros Hs.
  assert (H : field Session.isStarting (exec (stop this) c) this = Some false).
  { unfold exec, stop. rewrite (bind_ok _ _ _ _ _ (object_run _ _ _ Hs)).
    destruct (Session.isStarting s) eqn:Hst; cbn [when].
    - rewrite bind_run, update_run.
      set (c1 := set_objects _ c).
      match goal with
      | |- field _ (snd (?m c1)) _ = _ =>
          assert (Hp : preserves (same Session.isStarting) m)
            by (unfold onDeleteStream; open_sends; frame_same);
          rewrite (Hp c1 this)
      end.
      unfold field, c1. cbn [objects set_objects].
      rewrite lookup_alter_eq, Hs. reflexivity.
    - cbn [snd mret M_ret]. rewrite (field_of _ _ _ _ Hs), Hst. reflexivity. }
  split; [exact H|].
  apply field_some in H as (s' & Hs' & Hst').
  unfold stop at 1. rewrite (bind_ok _ _ _ _ _ (object_run _ _ _ Hs')).
  rewrite Hst'. reflexivity.
Qed.

Lemma stop_is_final_witness :
  field Session.isStarting (exec (stop "P") onePublisher) "P" = Some false
  /\ stop "P" (exec (stop "P") onePublisher)
     = (Ok tt, exec (stop "P") onePublisher).
Proof.
  apply (stop_is_final onePublisher "P"
           (default (client "P" false) (objects onePublisher !! "P"%string))).
  vm_compute. reflexivity.
Defined.

(** The context after the part of [stop] that follows the two calls of
    [onDeleteStream]. *)
Definition closed (this : string) (c : context) : context :=
  set_objects
    (alter (Session.set_destroyed true) this
       (alter (Session.set_pingInterval false) this (objects c)))
    (set_sessions (delete this (sessions c)) c).

(** The outcome of [stop] on a session that is starting: either both
    [onDeleteStream] calls return, and the result is [closed] of the
    context they leave, or one raises, and the sessions and the
    life-cycle fields are those of the context with [isStarting]
    cleared. *)
Lemma stop_outcome (c : context) (this : string) (s : Session.t) :
  objects c !! this = Some s ->
  Session.isStarting s = true ->
  let c1 := set_objects (alter (Session.set_isStarting false) this (objects c)) c in
  exists c3,
    same lifecycle c1 c3 /\ registered c1 c3
    /\ (stop this c = (Ok tt, closed this c3)
        \/ exists e, stop this c = (Throw e, c3)).
Proof.
  intros Hs Hst c1.
  unfold stop. rewrite (bind_ok _ _ _ _ _ (object_run _ _ _ Hs)).
  rewrite Hst. cbn [when]. rewrite bind_run, update_run. fold c1.
  rewrite bind_run.
  set (m2 := when (0 <? Session.playStreamId s)
               (onDeleteStream this (Some (Session.playStreamId s)))).
  assert (L2 : same lifecycle c1 (snd (m2 c1)))
    by (apply preserves_when; [apply _ | apply onDeleteStream_lifecycle]).
  assert (R2 : registered c1 (snd (m2 c1)))
    by (apply preserves_when; [apply _ | apply onDeleteStream_registered]).
  destruct (m2 c1) as [[[]|e] c2]; cbn [snd] in L2, R2.
  2:{ exists c2. split; [exact L2|]. split; [exact R2|]. right. exists e. reflexivity. }
  assert (Hl1 : field lifecycle c1 this = Some (false, Session.destroyed s, Session.pingInterval s)).
  { unfold field, c1. cbn [objects set_objects]. rewrite lookup_alter_eq, Hs. reflexivity. }
  pose proof (L2 this) as Hl2. rewrite Hl1 in Hl2.
  apply field_some in Hl2 as (s2 & Hs2 & _).
  rewrite (bind_ok _ _ _ _ _ (object_run _ _ _ Hs2)).
  rewrite bind_run.
  set (m3 := when (0 <? Session.publishStreamId s2)
               (onDeleteStream this (Some (Session.publishStreamId s2)))).
  assert (L3 : same lifecycle c2 (snd (m3 c2)))
    by (apply preserves_when; [apply _ | apply onDeleteStream_lifecycle]).
  assert (R3 : registered c2 (snd (m3 c2)))
    by (apply preserves_when; [apply _ | apply onDeleteStream_registered]).
  destruct (m3 c2) as [[[]|e] c3]; cbn [snd] in L3, R3;
    exists c3; (split; [etransitivity; eassumption|]);
    (split; [etransitivity; eassumption|]).
  - left. reflexivity.
  - right. exists e. reflexivity.
Qed.

(** X9: when [stop] returns on a session that was starting, the
    session is out of the registry, its socket is destroyed and its
    ping timer cleared; the other sessions are registered as before. *)
Theorem stop_unregisters (c c' : context) (this : string) (s : Session.t) :
  objects c !! this = Some s ->
  Session.isStarting s = true ->
  stop this c = (Ok tt, c') ->
  has this (sessions c') = false
  /\ field Session.destroyed c' this = Some true
  /\ field Session.pingInterval c' this = Some false
  /\ (forall id, id <> this -> has id (sessions c') = has id (sessions c)).
Proof.
  intros Hs Hst Hrun.
  destruct (stop_outcome c this s Hs Hst) as (c3 & L & R & [H|[e H]]);
    rewrite H in Hrun; [|discriminate].
  injection Hrun as <-.
  pose proof (L this) as Hl. unfold field in Hl. cbn [objects set_objects] in Hl.
  rewrite lookup_alter_eq, Hs in Hl. cbn in Hl.
  destruct (objects c3 !! this) as [s3|] eqn:Hs3; [|discriminate].
  unfold registered in R. cbn [sessions set_objects] in R.
  split_and!.
  - unfold closed. cbn [sessions set_objects set_sessions].
    rewrite has_delete, String.eqb_refl. apply andb_false_r.
  - unfold field, closed. cbn [objects set_objects set_sessions].
    rewrite lookup_alter_eq, lookup_alter_eq, Hs3. reflexivity.
  - unfold field, closed. cbn [objects set_objects set_sessions].
    rewrite lookup_alter_eq, lookup_alter_eq, Hs3. reflexivity.
  - intros id Hid. unfold closed. cbn [sessions set_objects set_sessions].
    rewrite has_delete, R.
    destruct (String.eqb_spec this id); [congruence|]. apply andb_true_r.
Qed.

Lemma stop_unregisters_witness :
  has "P" (sessions (exec (stop "P") onePublisher)) = false
  /\ field Session.destroyed (exec (stop "P") onePublisher) "P" = Some true
  /\ field Session.pingInterval (exec (stop "P") onePublisher) "P" = Some false
  /\ (forall id, id <> "P"%string ->
        has id (sessions (exec (stop "P") onePublisher))
        = has id (sessions onePublisher)).
Proof.
  apply (stop_unregisters onePublisher (exec (stop "P") onePublisher) "P"
           (default (client "P" false) (objects onePublisher !! "P"%string)));
    vm_compute; reflexivity.
Defined.

(** X10: when [stop] raises on a session that was starting, the
    session stays in the registry, its socket is not destroyed and its
    ping timer is left as it was, while [isStarting] is cleared: no
    later [stop] will do the rest. *)
Theorem stop_raises_keeps_session (c c' : context) (this : string)
    (s : Session.t) (e : error) :
  objects c !! this = Some s ->
  Session.isStarting s = true ->
  stop this c = (Throw e, c') ->
  sessions c' = sessions c
  /\ field Session.isStarting c' this = Some false
  /\ field Session.destroyed c' this = Some (Session.destroyed s)
  /\ field Session.pingInterval c' this = Some (Session.pingInterval s)
  /\ stop this c' = (Ok tt, c').
Proof.
  intros Hs Hst Hrun.
  destruct (stop_outcome c this s Hs Hst) as (c3 & L & R & [H|[e' H]]);
    rewrite H in Hrun; [discriminate|].
  injection Hrun as <- <-.
  pose proof (L this) as Hl. unfold field in Hl. cbn [objects set_objects] in Hl.
  rewrite lookup_alter_eq, Hs in Hl. cbn in Hl.
  destruct (objects c3 !! this) as [s3|] eqn:Hs3; [|discriminate].
  injection Hl as H1 H2 H3.
  split_and!.
  - exact R.
  - rewrite (field_of _ _ _ _ Hs3), H1. reflexivity.
  - rewrite (field_of _ _ _ _ Hs3), H2. reflexivity.
  - rewrite (field_of _ _ _ _ Hs3), H3. reflexivity.
  - unfold stop. rewrite (bind_ok _ _ _ _ _ (object_run _ _ _ Hs3)).
    rewrite H1. reflexivity.
Qed.

Lemma stop_raises_keeps_session_witness :
  sessions (exec (stop "R") StopCases.rejected) = sessions StopCases.rejected
  /\ field Session.isStarting (exec (stop "R") StopCases.rejected) "R" = Some false
  /\ field Session.destroyed (exec (stop "R") StopCases.rejected) "R" = Some false
  /\ field Session.pingInterval (exec (stop "R") StopCases.rejected) "R" = Some false
  /\ stop "R" (exec (stop "R") StopCases.rejected)
     = (Ok tt, exec (stop "R") StopCases.rejected).
Proof.
  pose proof (stop_raises_keeps_session StopCases.rejected
                (exec (stop "R") StopCases.rejected) "R"
                (default (client "R" true) (objects StopCases.rejected !! "R"%string))
                TypeError) as H.
  vm_compute in H. vm_compute. apply H; reflexivity.
Defined.

End StopFacts.

(** ** Forwarding of the media messages *)

Module ForwardFacts.
Import Broker NodeRtmpSession BrokerFacts SendFacts Scenario PlayFacts Frame
       StopFacts.

(** The test of the loop over [this.players]. *)
Definition eligible (receives : Session.t -> bool) (ps : Session.t) : bool :=
  Session.isStarting ps && Session.isPlaying ps
  && negb (Session.isPause ps) && receives ps.

(** The socket of a session after the loop: [target] tells whether the
    session is a registered member of the set. *)
Definition deliver (receives : Session.t -> bool) (target : bool)
    (b : Buffer) (ps : Session.t) : list Buffer :=
  if target && eligible receives ps
  then Session.socket ps ++ [stamp (Session.playStreamId ps) b]
  else Session.socket ps.

Lemma stamp_stamp sid sid' b :
  12 <= blen b -> stamp sid (stamp sid' b) = stamp sid b.
Proof.
  intros Hb. unfold blen in Hb. unfold stamp.
  assert (H8 : length (take 8 b) = 8%nat) by (rewrite length_take; lia).
  assert (H12 : length (take 8 b ++ le_bytes 4 sid') = 12%nat)
    by (rewrite length_app, H8, BufferFacts.length_le_bytes; reflexivity).
  rewrite (take_app_length' (take 8 b)) by lia.
  replace (take 8 b ++ le_bytes 4 sid' ++ drop 12 b)
    with ((take 8 b ++ le_bytes 4 sid') ++ drop 12 b)
    by (rewrite <- app_assoc; reflexivity).
  rewrite (drop_app_length' _ _ 12) by lia.
  reflexivity.
Qed.

Lemma has_cons x y l : has x (y :: l) = String.eqb x y || has x l.
Proof. reflexivity. Qed.

Section Loop.
Variables (this : string) (cached : bool) (receives : Session.t -> bool).
Hypothesis receives_socket :
  forall s w, receives (Session.set_socket w s) = receives s.
Hypothesis receives_queue :
  forall s q, receives (Session.set_rtmpGopCacheQueue q s) = receives s.

Lemma deliver_queue target b s q :
  deliver receives target b (Session.set_rtmpGopCacheQueue q s)
  = deliver receives target b s.
Proof. unfold deliver, eligible. rewrite receives_queue. reflexivity. Qed.

Lemma field_storeLast {A} (f : Session.t -> A) b c id :
  (forall s q, f (Session.set_rtmpGopCacheQueue q s) = f s) ->
  field f (exec (when cached (storeLast this b)) c) id = field f c id.
Proof.
  intros H. destruct cached; [|reflexivity].
  unfold field, exec, when, storeLast. rewrite update_run.
  cbn [snd objects set_objects]. apply field_alter. intros s. apply H.
Qed.

(** The loop writes the chunks, with its play stream id at offset 8,
    to every member of the set that is registered and passes the
    test, and to no other session. *)
Lemma broadcast_run (players : list string) :
  NoDup players ->
  forall (b : Buffer) (c : context),
    12 <= blen b ->
    (forall id sid, In id players ->
                    field Session.playStreamId c id = Some sid ->
                    0 <= sid < 4294967296) ->
    exists c',
      broadcast this cached receives b players c = (Ok tt, c')
      /\ sessions c' = sessions c
      /\ publishers c' = publishers c
      /\ idlePlayers c' = idlePlayers c
      /\ forall id,
           field Session.socket c' id
           = field (deliver receives (has id players && has id (sessions c)) b) c id.
Proof.
  induction 1 as [|p l Hnin Hnd IH]; intros b c Hb Hsid.
  - exists c. split_and!; try reflexivity.
  - assert (Hskip :
      (forall ps, objects c !! p = Some ps -> has p (sessions c) = true ->
                  eligible receives ps = false) ->
      exists c',
        broadcast this cached receives b l c = (Ok tt, c')
        /\ sessions c' = sessions c /\ publishers c' = publishers c
        /\ idlePlayers c' = idlePlayers c
        /\ forall id,
             field Session.socket c' id
             = field (deliver receives (has id (p :: l) && has id (sessions c)) b) c id).
    { intros Hne.
      destruct (IH b c Hb) as (c' & Hrun & S1 & S2 & S3 & S4).
      { intros id sid Hin. apply Hsid. right. exact Hin. }
      exists c'. split_and!; try assumption.
      intros id. rewrite S4, has_cons.
      destruct (String.eqb_spec id p) as [->|Hne']; [|reflexivity].
      cbn [orb]. unfold field.
      destruct (objects c !! p) as [ps|] eqn:Hps; [|reflexivity].
      cbn. f_equal. unfold deliver.
      destruct (has p (sessions c)) eqn:Hreg.
      - rewrite (Hne ps eq_refl eq_refl), !andb_false_r. reflexivity.
      - rewrite !andb_false_r. reflexivity. }
    cbn [broadcast]. rewrite bind_run. unfold sessions_get at 1, read.
    destruct (has p (sessions c)) eqn:Hreg.
    2:{ apply Hskip. intros ps _ E. discriminate E. }
    destruct (objects c !! p) as [ps|] eqn:Hps.
    2:{ apply Hskip. intros ps E. discriminate E. }
    fold (eligible receives ps).
    destruct (eligible receives ps) eqn:Hel.
    2:{ apply Hskip. intros ps' [= <-] _. exact Hel. }
    clear Hskip.
    assert (Hr : 0 <= Session.playStreamId ps < 4294967296).
    { apply (Hsid p); [left; reflexivity|]. rewrite (field_of _ _ _ _ Hps). reflexivity. }
    set (b1 := stamp (Session.playStreamId ps) b).
    rewrite (bind_ok (lift _) _ c b1 c)
      by (unfold lift; rewrite (writeUInt32LE_stamp b _ Hb Hr); reflexivity).
    rewrite bind_run.
    assert (Hs1 : when cached (storeLast this b1) c
                  = (Ok tt, exec (when cached (storeLast this b1)) c))
      by (destruct cached; reflexivity).
    rewrite Hs1. set (c1 := exec (when cached (storeLast this b1)) c).
    rewrite bind_run. unfold socket_write at 1. rewrite update_run.
    set (c2 := set_objects (alter (Session.write b1) p (objects c1)) c1).
    assert (Hb1 : 12 <= blen b1).
    { unfold b1, stamp, blen in *. rewrite !length_app, length_take, length_drop.
      rewrite BufferFacts.length_le_bytes. lia. }
    assert (Hreg2 : sessions c2 = sessions c)
      by (unfold c2, c1; destruct cached; reflexivity).
    assert (Hpub2 : publishers c2 = publishers c)
      by (unfold c2, c1; destruct cached; reflexivity).
    assert (Hidle2 : idlePlayers c2 = idlePlayers c)
      by (unfold c2, c1; destruct cached; reflexivity).
    assert (F2 : forall {A} (f : Session.t -> A) id,
               (forall s q, f (Session.set_rtmpGopCacheQueue q s) = f s) ->
               id <> p -> field f c2 id = field f c id).
    { intros A f id Hq Hne. unfold field at 1, c2. cbn [objects set_objects].
      rewrite lookup_alter_ne by congruence.
      apply (field_storeLast f b1 c id Hq). }
    destruct (IH b1 c2 Hb1) as (c' & Hrun & S1 & S2 & S3 & S4).
    { intros id sid Hin Hf. apply (Hsid id); [right; exact Hin|].
      rewrite <- Hf. symmetry. unfold field at 1, c2. cbn [objects set_objects].
      rewrite field_alter by reflexivity.
      apply (field_storeLast Session.playStreamId b1 c id). reflexivity. }
    exists c'. split; [exact Hrun|].
    split; [congruence|]. split; [congruence|]. split; [congruence|].
    intros id. rewrite S4, Hreg2, has_cons.
    destruct (String.eqb_spec id p) as [->|Hne].
    + assert (Hl : has p l = false).
      { destruct (has p l) eqn:E; [|reflexivity].
        apply has_In in E. apply list_elem_of_In in E. contradiction. }
      rewrite Hl, Hreg. cbn [orb andb].
      unfold field at 1, c2. cbn [objects set_objects].
      rewrite lookup_alter_eq.
      pose proof (field_storeLast
                    (fun s => Session.socket s ++ [b1]) b1 c p
                    ltac:(reflexivity)) as E.
      unfold field in E. fold c1 in E.
      rewrite Hps in E. unfold field. rewrite Hps.
      destruct (objects c1 !! p) as [ps1|]; [|discriminate E].
      cbn in E |- *. injection E as E. f_equal.
      unfold deliver. cbn [andb]. rewrite Hel.
      unfold Session.write. cbn [Session.socket Session.set_socket].
      exact E.
    + cbn [orb].
      rewrite (F2 _ (deliver receives (has id l && has id (sessions c)) b1) id)
        by (intros; apply deliver_queue || exact Hne).
      unfold field. destruct (objects c !! id) as [s|]; [|reflexivity].
      cbn. f_equal. unfold deliver, b1.
      rewrite stamp_stamp by exact Hb. reflexivity.
Qed.
End Loop.

(** ** The chunks of a media message *)

Lemma chunksOf_split (C cid type sid timestamp : Z) (P : Buffer) :
  1 <= C -> 2 <= cid <= 63 -> 0 <= type < 256 ->
  0 <= sid < 4294967296 -> 0 <= timestamp < 4294967296 ->
  1 <= blen P < 16777216 ->
  exists H T,
    length H = 8%nat
    /\ forall sid', 0 <= sid' < 4294967296 ->
         chunksOf C cid type sid' timestamp P = H ++ le_bytes 4 sid' ++ T.
Proof.
  intros HC Hcid Hty Hsid Hts HL.
  exists ([cid] ++ be_bytes 3 (RoundTrip.tsf timestamp)
          ++ be_bytes 3 (RoundTrip.L P) ++ [type]),
         (RoundTrip.xts timestamp ++ RoundTrip.layout C cid timestamp P).
  split.
  - rewrite !length_app, !BufferFacts.length_be_bytes. reflexivity.
  - intros sid' Hsid'.
    destruct (chunksOf_ok C cid type sid' timestamp P HC Hcid Hty Hsid' Hts HL)
      as (packet & Hm & Hc).
    injection Hm as <-.
    set (packet := RtmpPacket.mk _ 0 0 (Some P) 0 0) in Hc.
    rewrite (RoundTrip.create_enc C cid timestamp type sid' P HC (or_introl Hcid)
               Hts Hty Hsid' HL packet eq_refl eq_refl) in Hc.
    injection Hc as <-.
    unfold RoundTrip.enc, RoundTrip.mh.
    destruct (RoundTrip.length_bh_cases C cid P (or_introl Hcid))
      as [(-> & _)|(_ & ? & _)]; [|lia].
    rewrite <- !app_assoc. reflexivity.
Qed.

(** Writing the stream id at offset 8 of the chunks of a message gives
    the chunks of the message on that stream. *)
Lemma stamp_chunksOf (C cid type sid timestamp : Z) (P : Buffer) :
  1 <= C -> 2 <= cid <= 63 -> 0 <= type < 256 ->
  0 <= sid < 4294967296 -> 0 <= timestamp < 4294967296 ->
  1 <= blen P < 16777216 ->
  stamp sid (chunksOf C cid type 0 timestamp P) = chunksOf C cid type sid timestamp P
  /\ 12 <= blen (chunksOf C cid type 0 timestamp P).
Proof.
  intros HC Hcid Hty Hsid Hts HL.
  destruct (chunksOf_split C cid type sid timestamp P HC Hcid Hty Hsid Hts HL)
    as (H & T & H8 & E).
  rewrite (E 0 ltac:(lia)), (E sid Hsid). split.
  - unfold stamp. rewrite (take_app_length' H) by lia.
    replace (H ++ le_bytes 4 0 ++ T) with ((H ++ le_bytes 4 0) ++ T)
      by (rewrite <- app_assoc; reflexivity).
    rewrite (drop_app_length' _ _ 12)
      by (rewrite length_app, H8, BufferFacts.length_le_bytes; reflexivity).
    reflexivity.
  - unfold blen. rewrite !length_app, H8, BufferFacts.length_le_bytes. lia.
Qed.

End ForwardFacts.

Module MediaFacts.
Import Broker NodeRtmpSession BrokerFacts SendFacts Scenario PlayFacts Frame
       StopFacts ForwardFacts.

(** What the forwarding loop reads of a session, and its socket. *)
Definition receiver (s : Session.t) :=
  (Session.socket s,
   (Session.isStarting s, Session.isPlaying s, Session.isPause s),
   (Session.isReceiveAudio s, Session.isReceiveVideo s),
   Session.playStreamId s, Session.players s, Session.outChunkSize s).


Lemma field_through {A B} (f : Session.t -> A) (g : A -> B)
    (h : Session.t -> B) c c' id :
  (forall s, h s = g (f s)) -> same f c c' -> field h c' id = field h c id.
Proof.
  intros Hh Hs. specialize (Hs id). unfold field in *.
  destruct (objects c' !! id) as [s'|], (objects c !! id) as [s|];
    cbn in *; try discriminate; [|reflexivity].
  injection Hs as Hs. rewrite !Hh, Hs. reflexivity.
Qed.


(** The sockets after a media message was forwarded to the members of
    [members]: a session that is registered, starting, playing, not
    paused and that receives this kind of message has one more buffer,
    [chunks] of its play stream id. *)
Definition forwarded (receives : Session.t -> bool) (members : list string)
    (c : context) (chunks : Z -> Buffer) (id : string) : option (list Buffer) :=
  (fun ps =>
     if has id members && has id (sessions c) && eligible receives ps
     then Session.socket ps ++ [chunks (Session.playStreamId ps)]
     else Session.socket ps) <$> objects c !! id.







End MediaFacts.

Module VideoFacts.
Import Broker NodeRtmpSession BrokerFacts SendFacts Scenario PlayFacts Frame
       StopFacts ForwardFacts MediaFacts.

(** The tests of [rtmpVideoHandler] on the payload. *)
Definition codec_id (P : Buffer) : Z := band (bits_at P 0) 0x0f.
Definition frame_type (P : Buffer) : Z := band (shr (bits_at P 0) 4) 0x0f.
Definition avc (P : Buffer) : bool := (codec_id P =? 7) || (codec_id P =? 12).








(** ** The queue under the loop *)




End VideoFacts.

Module GopFacts.
Import Broker NodeRtmpSession BrokerFacts SendFacts Scenario PlayFacts Frame
       StopFacts ForwardFacts MediaFacts VideoFacts.









End GopFacts.

(** ** More of the chunk encoder *)

Module ChunkExtras.
Import Chunk JsFacts BufferFacts EncoderFacts ParserFacts RoundTrip.

(** X14: the chunks of a message on a chunk stream 2..63: the 1-byte
    basic header, the 11-byte message header (timestamp capped at
    0xFFFFFF, length, type, stream id little-endian), the extended
    timestamp when the timestamp is 0xFFFFFF or more, then the payload
    in pieces of [C] bytes, each but the last followed by the type-3
    basic header and the extended timestamp ([body]).  Their length
    counts one continuation header for every full piece before the
    last. *)
Theorem chunks_layout (C : Z) (packet : RtmpPacket.t) (P : Buffer)
    (cid ts ty sid : Z) :
  RtmpPacket.header packet = Header.mk 0 cid ts (blen P) ty sid ->
  RtmpPacket.payload packet = Some P ->
  1 <= C -> 2 <= cid <= 63 ->
  0 <= ts < 4294967296 -> 0 <= ty < 256 -> 0 <= sid < 4294967296 ->
  1 <= blen P < 16777216 ->
  let chunks :=
    [cid] ++ be_bytes 3 (Z.min ts 0xFFFFFF) ++ be_bytes 3 (blen P) ++ [ty]
    ++ le_bytes 4 sid ++ ext ts ++ body C ts [192 + cid] (length P) P in
  rtmpChunksCreate C packet = Ok chunks
  /\ blen chunks
     = 12 + blen (ext ts) + blen P + ((blen P - 1) / C) * (1 + blen (ext ts))
  /\ (blen P <= C -> body C ts [192 + cid] (length P) P = P).
Proof.
  intros Hh Hp HC Hcid Hts Hty Hsid HL chunks.
  assert (E : enc C cid ts ty sid P = chunks).
  { unfold enc, mh, xts, layout, chunks.
    destruct (length_bh_cases C cid P (or_introl Hcid))
      as [(-> & -> & _)|(_ & ? & _)]; [|lia].
    unfold tsf. replace (Z.min ts 16777215)
      with (if 16777215 <=? ts then 16777215 else ts)
      by (destruct (Z.leb_spec 16777215 ts); lia).
    rewrite <- !app_assoc. reflexivity. }
  split; [|split].
  - rewrite <- E. apply (create_enc C cid ts ty sid P HC (or_introl Hcid)
                           Hts Hty Hsid HL packet Hh Hp).
  - unfold chunks. rewrite !blen_app.
    rewrite (length_body C ts [192 + cid] HC (length P) P) by (unfold blen in *; lia).
    assert (B3 : forall x, blen (be_bytes 3 x) = 3)
      by (intros x; unfold blen; rewrite length_be_bytes; reflexivity).
    assert (L4 : blen (le_bytes 4 sid) = 4)
      by (unfold blen; rewrite length_le_bytes; reflexivity).
    rewrite !B3, L4.
    change (blen [192 + cid]) with 1. change (blen [cid]) with 1.
    change (blen [ty]) with 1. lia.
  - intros Hfit. destruct P as [|b P']; [unfold blen in HL; cbn in HL; lia|].
    cbn [length body].
    destruct (Z.ltb_spec C (blen (b :: P'))); [lia | reflexivity].
Qed.

Lemma chunks_layout_witness :
  rtmpChunksCreate 2
    (RtmpPacket.mk (Header.mk 0 4 16777216 3 8 1) 0 0 (Some [7; 8; 9]) 0 0)
  = Ok ([4] ++ be_bytes 3 (Z.min 16777216 0xFFFFFF) ++ be_bytes 3 (blen [7; 8; 9])
        ++ [8] ++ le_bytes 4 1 ++ ext 16777216
        ++ body 2 16777216 [192 + 4] (length [7; 8; 9]) [7; 8; 9])
  /\ blen ([4] ++ be_bytes 3 (Z.min 16777216 0xFFFFFF) ++ be_bytes 3 (blen [7; 8; 9])
           ++ [8] ++ le_bytes 4 1 ++ ext 16777216
           ++ body 2 16777216 [192 + 4] (length [7; 8; 9]) [7; 8; 9])
     = 12 + blen (ext 16777216) + blen [7; 8; 9]
       + ((blen [7; 8; 9] - 1) / 2) * (1 + blen (ext 16777216))
  /\ (blen [7; 8; 9] <= 2 -> body 2 16777216 [192 + 4] (length [7; 8; 9]) [7; 8; 9]
                             = [7; 8; 9]).
Proof.
  apply (chunks_layout 2
           (RtmpPacket.mk (Header.mk 0 4 16777216 3 8 1) 0 0 (Some [7; 8; 9]) 0 0)
           [7; 8; 9] 4 16777216 8 1);
    try reflexivity; try lia; vm_compute; split; discriminate || reflexivity.
Defined.

(** The message header of a type-0 chunk. *)
Lemma message_header (cid ts len ty sid : Z) :
  0 <= ts -> 0 <= len < 16777216 -> 0 <= ty < 256 -> 0 <= sid < 4294967296 ->
  rtmpChunkMessageHeaderCreate (Header.mk 0 cid ts len ty sid)
  = Ok (be_bytes 3 (Z.min ts 0xFFFFFF) ++ be_bytes 3 len ++ [ty] ++ le_bytes 4 sid).
Proof.
  intros Hts Hlen Hty Hsid.
  unfold rtmpChunkMessageHeaderCreate. cbn [Header.fmt Header.timestamp
    Header.length Header.type Header.stream_id].
  change (rtmpHeaderSize (0 mod 4)) with (Some 11).
  change (0 <=? RTMP_CHUNK_TYPE_2) with true.
  change (0 <=? RTMP_CHUNK_TYPE_1) with true.
  change (0 =? RTMP_CHUNK_TYPE_0) with true. cbv iota.
  replace (if 16777215 <=? ts then 16777215 else ts) with (Z.min ts 16777215)
    by (destruct (Z.leb_spec 16777215 ts); lia).
  set (t := Z.min ts 16777215). assert (Ht : 0 <= t < 16777216) by (unfold t; lia).
  change (alloc 11) with ([] ++ [0; 0; 0] ++ [0; 0; 0; 0; 0; 0; 0; 0]).
  rewrite (writeUIntBE_mid [] [0;0;0] _ 3 t 0)
    by (reflexivity || (change (256 ^ Z.of_nat 3) with 16777216; lia)).
  cbn [mbind result_bind Js.bind app].
  change [0; 0; 0; 0; 0; 0; 0; 0] with ([0; 0; 0] ++ [0; 0; 0; 0; 0]).
  rewrite (writeUIntBE_mid (be_bytes 3 t) [0;0;0] _ 3 len 3).
  2:{ unfold blen. rewrite length_be_bytes. reflexivity. }
  2:{ reflexivity. }
  2:{ change (256 ^ Z.of_nat 3) with 16777216. lia. }
  cbn [mbind result_bind Js.bind].
  unfold writeUInt8.
  change [0; 0; 0; 0; 0] with ([0] ++ [0; 0; 0; 0]).
  rewrite (app_assoc (be_bytes 3 t)).
  rewrite (writeUIntBE_mid _ [0] _ 1 ty 6).
  2:{ rewrite blen_app. unfold blen. rewrite !length_be_bytes. reflexivity. }
  2:{ reflexivity. }
  2:{ change (256 ^ Z.of_nat 1) with 256. lia. }
  cbn [mbind result_bind Js.bind].
  assert (Hb1 : be_bytes 1 ty = [ty]).
  { unfold be_bytes. cbn [le_bytes rev app]. rewrite Z.mod_small by lia. reflexivity. }
  rewrite Hb1.
  rewrite (app_assoc _ [ty]).
  rewrite <- (app_nil_r [0; 0; 0; 0]).
  rewrite (writeUInt32LE_mid _ [0;0;0;0] [] sid 7).
  2:{ rewrite !blen_app. unfold blen. rewrite !length_be_bytes. reflexivity. }
  2:{ reflexivity. }
  2:{ lia. }
  rewrite app_nil_r. rewrite <- !app_assoc. reflexivity.
Qed.

(** A copy into a target that is too short: what fits. *)
Lemma copy_short (src pre : Buffer) (k : nat) :
  (k <= length src)%nat ->
  copy src (pre ++ repeat 0 k) (blen pre) = pre ++ take k src.
Proof.
  intros Hk. unfold copy, blen. rewrite Nat2Z.id.
  rewrite take_app_length, length_app, repeat_length.
  replace (Nat.min (length src) (length pre + k - length pre)) with k by lia.
  rewrite (drop_ge (pre ++ repeat 0 k))
    by (rewrite length_app, repeat_length; lia).
  rewrite app_nil_r. reflexivity.
Qed.

(** X15: a message without payload ([header.length] 0) is not
    chunked well: the allocation is one byte short of the header (for a
    length that is a multiple of the chunk size one continuation header
    is taken off), so that below the timestamp 0xFFFFFF the result is
    the header without the last byte of the stream id, and from
    0xFFFFFF on the write of the extended timestamp raises a
    RangeError. *)
Theorem chunks_empty_payload (C : Z) (packet : RtmpPacket.t) (cid ts ty sid : Z) :
  RtmpPacket.header packet = Header.mk 0 cid ts 0 ty sid ->
  1 <= C -> 2 <= cid <= 63 ->
  0 <= ts < 4294967296 -> 0 <= ty < 256 -> 0 <= sid < 4294967296 ->
  rtmpChunksCreate C packet
  = if 0xFFFFFF <=? ts then Throw RangeError
    else Ok ([cid] ++ be_bytes 3 ts ++ [0; 0; 0] ++ [ty] ++ take 3 (le_bytes 4 sid)).
Proof.
  intros Hh HC Hcid Hts Hty Hsid.
  unfold rtmpChunksCreate. rewrite Hh.
  cbn [Header.fmt Header.cid Header.timestamp Header.length].
  rewrite (message_header cid ts 0 ty sid) by lia.
  cbn [mbind result_bind Js.bind].
  destruct (bh_small 0 cid ltac:(lia) ltac:(lia)) as [-> _].
  change (0 * 64 + cid) with cid.
  destruct (Z.ltb_spec C 1) as [|_]; [lia|].
  assert (Hm : blen (be_bytes 3 (Z.min ts 16777215) ++ be_bytes 3 0 ++ [ty]
                     ++ le_bytes 4 sid) = 11).
  { unfold blen. rewrite !length_app, !length_be_bytes, length_le_bytes. reflexivity. }
  rewrite Hm. change (blen [cid]) with 1.
  rewrite Z.div_0_l, Z.mod_0_l by lia. change (0 =? 0) with true. cbv iota.
  change (Z.to_nat 0) with 0%nat. cbn [chunks_loop].
  assert (Hcopy : copy (be_bytes 3 (Z.min ts 16777215) ++ be_bytes 3 0 ++ [ty]
                        ++ le_bytes 4 sid)
                    (copy [cid] (alloc 11) 0) (0 + 1)
                  = [cid] ++ be_bytes 3 (Z.min ts 16777215) ++ [0; 0; 0] ++ [ty]
                    ++ take 3 (le_bytes 4 sid)).
  { change (copy [cid] (alloc 11) 0) with ([cid] ++ repeat 0 10%nat).
    change (0 + 1) with (blen [cid]).
    rewrite copy_short
      by (rewrite !length_app, !length_be_bytes, length_le_bytes; cbn; lia).
    reflexivity. }
  destruct (Z.leb_spec 16777215 ts) as [Hbig|Hsmall].
  - change (1 + 11 + 4 + 0 + 0 + 0 * 4 - 1 - 4) with 11.
    change (11 <? 0) with false. cbv iota.
    rewrite Hcopy. unfold writeUIntBE, in_range.
    change (blen ([cid] ++ be_bytes 3 (Z.min ts 16777215) ++ [0; 0; 0] ++ [ty]
                  ++ take 3 (le_bytes 4 sid))) with 11.
    change (0 + 1 + 11 + 4 <=? 11) with false.
    rewrite !andb_false_r. reflexivity.
  - change (1 + 11 + 0 + 0 + 0 - 1) with 11.
    change (11 <? 0) with false. cbv iota.
    cbn [mbind result_bind Js.bind]. rewrite Hcopy.
    rewrite Z.min_l by lia. reflexivity.
Qed.

Lemma chunks_empty_payload_witness :
  rtmpChunksCreate 128 (RtmpPacket.mk (Header.mk 0 4 20 0 8 1) 0 0 (Some []) 0 0)
  = if 0xFFFFFF <=? 20 then Throw RangeError
    else Ok ([4] ++ be_bytes 3 20 ++ [0; 0; 0] ++ [8] ++ take 3 (le_bytes 4 1)).
Proof.
  apply (chunks_empty_payload 128
           (RtmpPacket.mk (Header.mk 0 4 20 0 8 1) 0 0 (Some []) 0 0) 4 20 8 1);
    [reflexivity | lia | lia | lia | lia | lia].
Defined.

(** X16: a message of 2^24 bytes or more cannot be chunked: its
    length does not fit the 3 bytes of the message header, and
    [rtmpChunksCreate] raises a RangeError before anything is
    written. *)
Theorem chunks_too_long (C : Z) (packet : RtmpPacket.t) :
  Header.fmt (RtmpPacket.header packet) = 0 ->
  0 <= Header.timestamp (RtmpPacket.header packet) ->
  16777216 <= Header.length (RtmpPacket.header packet) ->
  rtmpChunksCreate C packet = Throw RangeError.
Proof. apply ChunkRoundTrip.create_too_long. Qed.

Lemma chunks_too_long_witness :
  rtmpChunksCreate 128
    (RtmpPacket.mk (Header.mk 0 4 0 16777216 9 1) 0 0 None 0 0)
  = Throw RangeError.
Proof.
  apply (chunks_too_long 128
           (RtmpPacket.mk (Header.mk 0 4 0 16777216 9 1) 0 0 None 0 0));
    [reflexivity | cbn; lia | cbn; lia].
Defined.

End ChunkExtras.

(** ** The play request *)

Module PlayRequest.
Import Broker NodeRtmpSession BrokerFacts SendFacts PublishFacts Scenario
       PlayFacts Frame StopFacts.

(** The session [id] of [Scenario.client], without authorization, after
    [Scenario.receive] of an empty message on the stream [sid]. *)
Definition receiving (id : string) (sid : Z) : Session.t :=
  Session.set_parserPacket
    (Some (RtmpPacket.mk (Header.mk 0 3 0 0 20 sid) 0 0 (Some []) 0 0))
    (client id false).

(** The user control message of [sendStreamStatus]. *)
Definition streamStatus (st id : Z) : Buffer :=
  [2; 0; 0; 0; 0; 0; 6; 4; 0; 0; 0; 0] ++ be_bytes 2 st ++ be_bytes 4 id.

Lemma sendStreamStatus_run this c st id :
  0 <= st < 65536 -> 0 <= id < 4294967296 ->
  sendStreamStatus this st id c = (Ok tt, written this (streamStatus st id) c).
Proof.
  intros Hst Hid. unfold sendStreamStatus.
  change [2; 0; 0; 0; 0; 0; 6; 4; 0; 0; 0; 0; 0; 0; 0; 0; 0; 0]
    with ([2; 0; 0; 0; 0; 0; 6; 4; 0; 0; 0; 0] ++ [0; 0] ++ [0; 0; 0; 0]).
  rewrite (bind_ok (lift _) _ c
             ([2; 0; 0; 0; 0; 0; 6; 4; 0; 0; 0; 0] ++ be_bytes 2 st ++ [0; 0; 0; 0]) c).
  2:{ unfold lift. change 2 with (Z.of_nat 2) at 3.
      rewrite (ParserFacts.writeUIntBE_mid _ [0; 0] _ 2 st 12);
        [reflexivity | reflexivity | reflexivity
        | change (256 ^ Z.of_nat 2) with 65536; lia]. }
  rewrite (bind_ok (lift _) _ c (streamStatus st id) c).
  2:{ unfold lift, streamStatus.
      rewrite (app_assoc _ (be_bytes 2 st)).
      rewrite <- (app_nil_r [0; 0; 0; 0]).
      change 4 with (Z.of_nat 4) at 2.
      rewrite (ParserFacts.writeUIntBE_mid _ [0; 0; 0; 0] [] 4 id 14).
      - rewrite app_nil_r, <- app_assoc. reflexivity.
      - rewrite BufferFacts.blen_app. unfold blen at 2.
        rewrite BufferFacts.length_be_bytes. reflexivity.
      - reflexivity.
      - change (256 ^ Z.of_nat 4) with 4294967296. lia. }
  reflexivity.
Qed.

(** The payload of [sendRtmpSampleAccess]. *)
Definition sampleAccess : Buffer :=
  Amf0Facts.encoding (JString "|RtmpSampleAccess") ++ [1; 0; 1; 0].

Lemma sendRtmpSampleAccess_run this c s :
  objects c !! this = Some s -> 1 <= Session.outChunkSize s ->
  sendRtmpSampleAccess this None c
  = (Ok tt, written this (chunksOf (Session.outChunkSize s) RTMP_CHANNEL_DATA
                            RTMP_TYPE_DATA 0 0 sampleAccess) c).
Proof.
  intros Hs HC. unfold sendRtmpSampleAccess, sendDataMessage.
  rewrite (bind_ok (lift _) _ c sampleAccess c) by (vm_compute; reflexivity).
  change (default 0 None) with 0.
  fold (sendCached this RTMP_CHANNEL_DATA RTMP_TYPE_DATA 0 0 (Some sampleAccess)).
  apply sendCached_run; try assumption;
    try (unfold RTMP_CHANNEL_DATA, RTMP_TYPE_DATA; lia).
  vm_compute. split; [discriminate | reflexivity].
Qed.

Definition playReset : Buffer :=
  statusBytes "status" "NetStream.Play.Reset" "Playing and resetting stream.".
Definition playStart : Buffer :=
  statusBytes "status" "NetStream.Play.Start" "Started playing stream.".

(** What [respondPlay] writes on the play stream [sid] with the chunk
    size [C]. *)
Definition playResponse (C sid : Z) : list Buffer :=
  [ streamStatus STREAM_BEGIN sid;
    chunksOf C RTMP_CHANNEL_INVOKE RTMP_TYPE_INVOKE sid 0 playReset;
    chunksOf C RTMP_CHANNEL_INVOKE RTMP_TYPE_INVOKE sid 0 playStart;
    chunksOf C RTMP_CHANNEL_DATA RTMP_TYPE_DATA 0 0 sampleAccess ].

Lemma lookup_written this buf c :
  objects (written this buf c) !! this = Session.write buf <$> objects c !! this.
Proof. unfold written. cbn [objects set_objects]. apply lookup_alter_eq. Qed.

Lemma respondPlay_run this c s :
  objects c !! this = Some s ->
  1 <= Session.outChunkSize s -> 0 <= Session.playStreamId s < 4294967296 ->
  let C := Session.outChunkSize s in
  let sid := Session.playStreamId s in
  respondPlay this c
  = (Ok tt,
     written this (chunksOf C RTMP_CHANNEL_DATA RTMP_TYPE_DATA 0 0 sampleAccess)
       (written this (chunksOf C RTMP_CHANNEL_INVOKE RTMP_TYPE_INVOKE sid 0 playStart)
          (written this (chunksOf C RTMP_CHANNEL_INVOKE RTMP_TYPE_INVOKE sid 0 playReset)
             (written this (streamStatus STREAM_BEGIN sid) c)))).
Proof.
  intros Hs HC Hsid C sid. unfold respondPlay.
  rewrite (bind_ok _ _ _ _ _ (object_run _ _ _ Hs)). fold sid.
  rewrite (bind_ok _ _ _ _ _
             (sendStreamStatus_run this c STREAM_BEGIN sid ltac:(unfold STREAM_BEGIN; lia) Hsid)).
  set (c1 := written this (streamStatus STREAM_BEGIN sid) c).
  assert (H1 : objects c1 !! this = Some (Session.write (streamStatus STREAM_BEGIN sid) s))
    by (unfold c1; rewrite lookup_written, Hs; reflexivity).
  rewrite (bind_ok _ _ _ _ _
             (sendStatusMessage_run this c1 _ sid "status" "NetStream.Play.Reset"
                "Playing and resetting stream." H1 HC Hsid eq_refl eq_refl eq_refl)).
  cbn [Session.outChunkSize Session.write Session.set_socket]. fold C. fold playReset.
  set (c2 := written this (chunksOf C _ _ sid 0 playReset) c1).
  assert (H2 : objects c2 !! this
               = Some (Session.write (chunksOf C RTMP_CHANNEL_INVOKE RTMP_TYPE_INVOKE
                                        sid 0 playReset)
                         (Session.write (streamStatus STREAM_BEGIN sid) s)))
    by (unfold c2; rewrite lookup_written, H1; reflexivity).
  rewrite (bind_ok _ _ _ _ _
             (sendStatusMessage_run this c2 _ sid "status" "NetStream.Play.Start"
                "Started playing stream." H2 HC Hsid eq_refl eq_refl eq_refl)).
  cbn [Session.outChunkSize Session.write Session.set_socket]. fold C. fold playStart.
  set (c3 := written this (chunksOf C _ _ sid 0 playStart) c2).
  assert (H3 : exists s3, objects c3 !! this = Some s3 /\ Session.outChunkSize s3 = C)
    by (eexists; split; [unfold c3; rewrite lookup_written, H2; reflexivity | reflexivity]).
  destruct H3 as (s3 & H3 & E3).
  rewrite (sendRtmpSampleAccess_run this c3 s3 H3) by (rewrite E3; exact HC).
  rewrite E3. reflexivity.
Qed.

Lemma writes_4 b1 b2 b3 b4 s :
  Session.write b4 (Session.write b3 (Session.write b2 (Session.write b1 s)))
  = Session.set_socket (Session.socket s ++ [b1; b2; b3; b4]) s.
Proof.
  unfold Session.write. cbn [Session.socket Session.set_socket].
  rewrite <- !app_assoc. reflexivity.
Qed.

(** [onPlay] for a path without publisher, step by step. *)
Lemma play_idle_run (c : context) (this name : string)
    (s : Session.t) (pp : RtmpPacket.t) (verified : bool) :
  let sid := Header.stream_id (RtmpPacket.header pp) in
  let path := stream_path (Session.appname s) name in
  let C := Session.outChunkSize s in
  objects c !! this = Some s ->
  Session.isStarting s = true ->
  Session.parserPacket s = Some pp ->
  0 <= sid < 4294967296 ->
  1 <= C ->
  gate s (Session.authPlay s) verified = false ->
  Session.isPlaying s = false ->
  publishers c !! path = None ->
  exists c',
    onPlay this (JString name) verified c = (Ok tt, c')
    /\ sessions c' = sessions c
    /\ publishers c' = publishers c
    /\ idlePlayers c' = add this (idlePlayers c)
    /\ (forall id, id <> this -> objects c' !! id = objects c !! id)
    /\ objects c' !! this
       = Some (Session.set_isIdling true
                 (Session.set_socket (Session.socket s ++ playResponse C sid)
                    (Session.set_playStreamId sid
                       (Session.set_playStreamPath path s)))).
Proof.
  intros sid path C Hs Hst Hpp Hsid HC Hgate Hplaying Hfree.
  set (s2 := Session.set_playStreamId sid (Session.set_playStreamPath path s)).
  set (c2 := set_objects (alter (Session.set_playStreamId sid) this
                            (alter (Session.set_playStreamPath path) this
                               (objects c))) c).
  assert (Hs2 : objects c2 !! this = Some s2).
  { unfold c2, s2. cbn [objects set_objects].
    rewrite !lookup_alter_eq, Hs. reflexivity. }
  pose proof (respondPlay_run this c2 s2 Hs2 HC Hsid) as Hrun.
  cbv zeta in Hrun. change (Session.outChunkSize s2) with C in Hrun.
  change (Session.playStreamId s2) with sid in Hrun.
  match type of Hrun with _ = (_, ?x) => set (c4 := x) in * end.
  eexists. split.
  - unfold onPlay.
    rewrite (bind_ok _ _ _ _ _ (object_run _ _ _ Hs)).
    fold path. rewrite bind_run, update_run.
    rewrite Hpp. rewrite bind_run. cbn [mret M_ret]. fold sid.
    rewrite bind_run, update_run.
    rewrite Hst, Hgate, Hplaying. cbn [negb].
    match goal with |- (_ ≫= _) ?x = _ => change x with c2 end.
    rewrite (bind_ok _ _ _ _ _ Hrun).
    rewrite bind_run. unfold read at 1.
    change (publishers c4) with (publishers c). rewrite Hfree.
    rewrite bind_run, update_run. reflexivity.
  - split; [reflexivity|]. split; [reflexivity|]. split; [reflexivity|].
    split.
    + intros id Hid. unfold modify. cbn [snd objects set_objects set_idlePlayers].
      unfold c4, written, c2. cbn [objects set_objects].
      rewrite !lookup_alter_ne by congruence. reflexivity.
    + unfold modify. cbn [snd objects set_objects set_idlePlayers].
      rewrite lookup_alter_eq. unfold c4. rewrite !lookup_written, Hs2.
      cbn [fmap option_fmap option_map]. rewrite writes_4. reflexivity.
Qed.

(** X17: a [play] for a path that nobody publishes, from a session
    that is starting, passes the authorization and does not play yet:
    the session gets StreamBegin, NetStream.Play.Reset,
    NetStream.Play.Start and [|RtmpSampleAccess] (the last one on the
    message stream 0), is marked idle and joins [idlePlayers]; its play
    path and play stream id are those of the request; nothing else
    changes. *)
Theorem play_without_publisher (c : context) (this name : string)
    (s : Session.t) (pp : RtmpPacket.t) (verified : bool) :
  let sid := Header.stream_id (RtmpPacket.header pp) in
  let path := stream_path (Session.appname s) name in
  let C := Session.outChunkSize s in
  objects c !! this = Some s ->
  Session.isStarting s = true ->
  Session.parserPacket s = Some pp ->
  0 <= sid < 4294967296 ->
  1 <= C ->
  gate s (Session.authPlay s) verified = false ->
  Session.isPlaying s = false ->
  publishers c !! path = None ->
  exists c',
    onPlay this (JString name) verified c = (Ok tt, c')
    /\ sessions c' = sessions c
    /\ publishers c' = publishers c
    /\ idlePlayers c' = add this (idlePlayers c)
    /\ (forall id, id <> this -> objects c' !! id = objects c !! id)
    /\ objects c' !! this
       = Some (Session.set_isIdling true
                 (Session.set_socket (Session.socket s ++ playResponse C sid)
                    (Session.set_playStreamId sid
                       (Session.set_playStreamPath path s)))).
Proof. exact (play_idle_run c this name s pp verified). Qed.

(** [R] waits for [/app/cam], which nobody publishes. *)
Definition asking : context :=
  exec (_ ← register (client "R" false); receive "R" 1 0 []) empty.

Lemma play_without_publisher_witness :
  exists c',
    onPlay "R" (JString "cam") true asking = (Ok tt, c')
    /\ sessions c' = sessions asking
    /\ publishers c' = publishers asking
    /\ idlePlayers c' = add "R" (idlePlayers asking)
    /\ (forall id, id <> "R"%string -> objects c' !! id = objects asking !! id)
    /\ objects c' !! "R"%string
       = Some (Session.set_isIdling true
                 (Session.set_socket
                    (Session.socket (receiving "R" 1) ++ playResponse 128 1)
                    (Session.set_playStreamId 1
                       (Session.set_playStreamPath "/app/cam" (receiving "R" 1))))).
Proof.
  apply (play_without_publisher asking "R" "cam" (receiving "R" 1)
           (RtmpPacket.mk (Header.mk 0 3 0 0 20 1) 0 0 (Some []) 0 0) true);
    try reflexivity; cbn; lia.
Defined.

(** ** A second play *)

(** Every socket has in [c'] what it has in [c] and possibly more. *)
Definition grows (c c' : context) : Prop :=
  forall id, exists w,
    field Session.socket c' id = (fun x => x ++ w) <$> field Session.socket c id.

#[global] Instance grows_preorder : PreOrder grows.
Proof.
  split.
  - intros c id. exists []. destruct (field Session.socket c id); cbn;
      [rewrite app_nil_r|]; reflexivity.
  - intros a b c H1 H2 id. destruct (H1 id) as (w1 & E1), (H2 id) as (w2 & E2).
    exists (w1 ++ w2). rewrite E2, E1.
    destruct (field Session.socket a id); cbn; [rewrite app_assoc|]; reflexivity.
Qed.

Lemma grows_alter g id c :
  (forall s, exists w, Session.socket (g s) = Session.socket s ++ w) ->
  grows c (set_objects (alter g id (objects c)) c).
Proof.
  intros H id'. unfold field. cbn [objects set_objects].
  destruct (decide (id = id')) as [->|Hne].
  - rewrite lookup_alter_eq. destruct (objects c !! id') as [s|].
    + destruct (H s) as (w & E). exists w. cbn. rewrite E. reflexivity.
    + exists []. reflexivity.
  - rewrite lookup_alter_ne by exact Hne. exists [].
    destruct (objects c !! id'); cbn; [rewrite app_nil_r|]; reflexivity.
Qed.

Ltac frame_grows :=
  repeat first
    [ frame_step
    | apply preserves_update; intros ?; apply grows_alter; intros ?;
      first [ exists []; cbn; rewrite app_nil_r; reflexivity
            | eexists; reflexivity ]
    | apply preserves_modify; intros ? ?; exists [];
      match goal with
      | |- field _ _ ?i = _ <$> field _ ?c ?i =>
          destruct (field Session.socket c i); cbn; [rewrite app_nil_r|]; reflexivity
      end ].

Lemma sendGop_same {A} (f : Session.t -> A) this pid sid queue :
  (forall s w, f (Session.set_socket w s) = f s) ->
  (forall s q, f (Session.set_rtmpGopCacheQueue q s) = f s) ->
  forall i, preserves (same f) (sendGop this pid sid i queue).
Proof.
  intros Hw Hq. induction queue as [|b queue IH]; intros i; cbn [sendGop].
  - apply preserves_ret; apply _.
  - apply preserves_bind; [apply _ | apply preserves_lift; apply _ | intros b1].
    apply preserves_bind; [apply _ | | intros _].
    { unfold storeGop. apply preserves_update. intros c. apply same_alter.
      intros s0. apply Hq. }
    apply preserves_bind; [apply _ | | intros _; apply IH].
    unfold socket_write. apply preserves_update. intros c. apply same_alter.
    intros s0. apply Hw.
Qed.

Lemma sendGop_grows this pid sid queue :
  forall i, preserves grows (sendGop this pid sid i queue).
Proof.
  induction queue as [|b queue IH]; intros i; cbn [sendGop].
  - apply preserves_ret; apply _.
  - apply preserves_bind; [apply _ | apply preserves_lift; apply _ | intros b1].
    apply preserves_bind; [apply _ | | intros _].
    { unfold storeGop. apply preserves_update. intros c. apply grows_alter.
      intros s0. exists []. cbn. rewrite app_nil_r. reflexivity. }
    apply preserves_bind; [apply _ | | intros _; apply IH].
    unfold socket_write. apply preserves_update. intros c. apply grows_alter.
    intros s0. eexists. reflexivity.
Qed.

Definition badConnection : Buffer :=
  statusBytes "error" "NetStream.Play.BadConnection" "Connection already playing".

(** X18: a [play] from a session that already plays, for a path that
    is published, is answered with NetStream.Play.BadConnection, and
    the session is subscribed all the same: [onStartPlay] runs, the
    session joins the player set of the publisher of the new path, and no
    other player set changes, so that a set the session was in still
    has it. *)
Theorem play_while_playing (c : context) (this name pid : string)
    (s p : Session.t) (pp : RtmpPacket.t) (verified : bool) :
  let sid := Header.stream_id (RtmpPacket.header pp) in
  let path := stream_path (Session.appname s) name in
  let C := Session.outChunkSize s in
  let c' := exec (onPlay this (JString name) verified) c in
  objects c !! this = Some s ->
  Session.isStarting s = true ->
  Session.parserPacket s = Some pp ->
  0 <= sid < 4294967296 ->
  1 <= C ->
  gate s (Session.authPlay s) verified = false ->
  Session.isPlaying s = true ->
  publishers c !! path = Some pid ->
  has pid (sessions c) = true ->
  objects c !! pid = Some p ->
  field Session.players c' pid = Some (add this (Session.players p))
  /\ (forall id, id <> pid -> field Session.players c' id = field Session.players c id)
  /\ field Session.playStreamPath c' this = Some path
  /\ exists w,
       field Session.socket c' this
       = Some (Session.socket s
               ++ chunksOf C RTMP_CHANNEL_INVOKE RTMP_TYPE_INVOKE sid 0 badConnection
               :: w).
Proof.
  intros sid path C c' Hs Hst Hpp Hsid HC Hgate Hplaying Hreg Hin Hp.
  set (s2 := Session.set_playStreamId sid (Session.set_playStreamPath path s)).
  set (c2 := set_objects (alter (Session.set_playStreamId sid) this
                            (alter (Session.set_playStreamPath path) this
                               (objects c))) c).
  assert (Hs2 : objects c2 !! this = Some s2).
  { unfold c2, s2. cbn [objects set_objects].
    rewrite !lookup_alter_eq, Hs. reflexivity. }
  set (bad := chunksOf C RTMP_CHANNEL_INVOKE RTMP_TYPE_INVOKE sid 0 badConnection).
  set (c3 := written this bad c2).
  assert (Hs3 : objects c3 !! this = Some (Session.write bad s2))
    by (unfold c3; rewrite lookup_written, Hs2; reflexivity).
  assert (Hpl3 : forall id, field Session.players c3 id = field Session.players c id).
  { intros id. unfold field, c3, written, c2. cbn [objects set_objects].
    rewrite !field_alter by reflexivity. reflexivity. }
  pose proof (Hpl3 pid) as Hp3. rewrite (field_of _ _ _ _ Hp) in Hp3.
  apply field_some in Hp3 as (p3 & Hp3 & Epl).
  set (join := fun q => Session.set_players (add this (Session.players q)) q).
  set (c4 := set_objects (alter join pid (objects c3)) c3).
  assert (Hrun : exists rest : M unit,
             preserves (same Session.players) rest
             /\ preserves (same Session.playStreamPath) rest
             /\ preserves grows rest
             /\ c' = snd (rest c4)).
  { unfold c', exec, onPlay.
    rewrite (bind_ok _ _ _ _ _ (object_run _ _ _ Hs)).
    fold path. rewrite bind_run, update_run.
    rewrite Hpp. rewrite bind_run. cbn [mret M_ret]. fold sid.
    rewrite bind_run, update_run.
    rewrite Hst, Hgate, Hplaying. cbn [negb].
    match goal with |- context [(_ ≫= _) ?x] => change x with c2 end.
    rewrite (bind_ok _ _ _ _ _
               (sendStatusMessage_run this c2 s2 sid "error"
                  "NetStream.Play.BadConnection" "Connection already playing"
                  Hs2 HC Hsid eq_refl eq_refl eq_refl)).
    change (Session.outChunkSize s2) with C. fold badConnection. fold bad. fold c3.
    rewrite bind_run. unfold read at 1.
    change (publishers c3) with (publishers c). rewrite Hreg.
    unfold onStartPlay.
    rewrite (bind_ok _ _ _ _ _ (object_run _ _ _ Hs3)).
    rewrite bind_run. unfold read at 1.
    change (publishers c3) with (publishers c).
    change (Session.playStreamPath (Session.write bad s2)) with path.
    rewrite Hreg.
    rewrite (bind_ok _ _ _ _ _ (sessions_get_run pid c3 p3 Hin Hp3)).
    rewrite bind_run, update_run. fold join. fold c4.
    eexists. split; [|split; [|split; [|reflexivity]]].
    - frame_step. frame_step. frame_step. frame_step. frame_step. frame_step.
      all: try (unfold sendCached, chunksCreate, socket_write; frame_same).
      all: try (apply sendGop_same; reflexivity).
    - frame_step. frame_step. frame_step. frame_step. frame_step. frame_step.
      all: try (unfold sendCached, chunksCreate, socket_write; frame_same).
      all: try (apply sendGop_same; reflexivity).
    - frame_step. frame_step. frame_step. frame_step. frame_step. frame_step.
      all: try (unfold sendCached, chunksCreate, socket_write; frame_grows).
      all: try (apply sendGop_grows). }
  destruct Hrun as (rest & P1 & P2 & P3 & ->).
  split_and!.
  - rewrite (P1 c4 pid). unfold field, c4. cbn [objects set_objects].
    rewrite lookup_alter_eq, Hp3. cbn. rewrite Epl. reflexivity.
  - intros id Hid. rewrite (P1 c4 id), <- Hpl3.
    unfold field, c4. cbn [objects set_objects].
    rewrite lookup_alter_ne by congruence. reflexivity.
  - rewrite (P2 c4 this). unfold field, c4. cbn [objects set_objects].
    rewrite field_alter by reflexivity. rewrite Hs3. reflexivity.
  - destruct (P3 c4 this) as (w & E). exists w. rewrite E.
    unfold field, c4. cbn [objects set_objects].
    rewrite field_alter by reflexivity. rewrite Hs3. cbn.
    rewrite <- app_assoc. reflexivity.
Qed.

(** [R] plays [/app/cam] of [P], and [Q] publishes [/app/own]. *)
Definition zapping : context :=
  exec (_ ← register (client "R" false);
        _ ← receive "R" 1 0 [];
        onPlay "R" (JString "cam") true) twoPublishers.

Definition zapper : Session.t :=
  default (client "R" false) (objects zapping !! "R"%string).
Definition other : Session.t :=
  default (client "Q" false) (objects zapping !! "Q"%string).

Lemma play_while_playing_witness :
  let c' := exec (onPlay "R" (JString "own") true) zapping in
  field Session.players c' "Q" = Some (add "R" (Session.players other))
  /\ (forall id, id <> "Q"%string ->
        field Session.players c' id = field Session.players zapping id)
  /\ field Session.playStreamPath c' "R"
     = Some (stream_path (Session.appname zapper) "own")
  /\ exists w,
       field Session.socket c' "R"
       = Some (Session.socket zapper
               ++ chunksOf (Session.outChunkSize zapper) RTMP_CHANNEL_INVOKE
                    RTMP_TYPE_INVOKE
                    (Header.stream_id
                       (RtmpPacket.header
                          (RtmpPacket.mk (Header.mk 0 3 0 0 20 1) 0 0 (Some []) 0 0)))
                    0 badConnection
               :: w).
Proof.
  pose proof (play_while_playing zapping "R" "own" "Q" zapper other
                (RtmpPacket.mk (Header.mk 0 3 0 0 20 1) 0 0 (Some []) 0 0) true) as T.
  cbv zeta in T |- *. apply T.
  - vm_compute. reflexivity.
  - vm_compute. reflexivity.
  - vm_compute. reflexivity.
  - cbn. lia.
  - assert (E : Session.outChunkSize zapper = 128) by (vm_compute; reflexivity).
    rewrite E. lia.
  - vm_compute. reflexivity.
  - vm_compute. reflexivity.
  - vm_compute. reflexivity.
  - vm_compute. reflexivity.
  - vm_compute. reflexivity.
Defined.

End PlayRequest.

(** ** The publish request and the end of a session on the stream 0 *)

Module PublishRequest.
Import Broker NodeRtmpSession BrokerFacts SendFacts PublishFacts Scenario
       PlayFacts Frame StopFacts PlayRequest.

(** X19: [stop] ends the play and the publish stream only when their
    ids are above 0.  A session that plays, waits or publishes on the
    message stream 0 is taken out of [sessions] and its socket is
    destroyed, but [publishers], [idlePlayers] and every set of players
    are left as they are: its path stays published, its id stays
    listed. *)
Theorem stop_on_stream_zero (c : context) (this : string) (s : Session.t) :
  objects c !! this = Some s ->
  Session.isStarting s = true ->
  Session.playStreamId s <= 0 ->
  Session.publishStreamId s <= 0 ->
  exists c',
    stop this c = (Ok tt, c')
    /\ sessions c' = delete this (sessions c)
    /\ publishers c' = publishers c
    /\ idlePlayers c' = idlePlayers c
    /\ (forall id, id <> this -> objects c' !! id = objects c !! id)
    /\ objects c' !! this
       = Some (Session.set_destroyed true
                 (Session.set_pingInterval false
                    (Session.set_isStarting false s))).
Proof.
  intros Hs Hst Hplay Hpub.
  set (c1 := set_objects (alter (Session.set_isStarting false) this (objects c)) c).
  assert (Hs1 : objects c1 !! this = Some (Session.set_isStarting false s))
    by (unfold c1; cbn [objects set_objects]; rewrite lookup_alter_eq, Hs; reflexivity).
  eexists. split.
  - unfold stop. rewrite (bind_ok _ _ _ _ _ (object_run _ _ _ Hs)).
    rewrite Hst. cbn [when]. rewrite bind_run, update_run. fold c1.
    destruct (Z.ltb_spec 0 (Session.playStreamId s)) as [|_]; [lia|].
    cbn [when]. rewrite bind_run. cbn [mret M_ret].
    rewrite (bind_ok _ _ _ _ _ (object_run _ _ _ Hs1)).
    change (Session.publishStreamId (Session.set_isStarting false s))
      with (Session.publishStreamId s).
    destruct (Z.ltb_spec 0 (Session.publishStreamId s)) as [|_]; [lia|].
    cbn [when]. rewrite bind_run. cbn [mret M_ret].
    rewrite bind_run, update_run, bind_run. unfold modify at 1.
    rewrite update_run. reflexivity.
  - split; [reflexivity|]. split; [reflexivity|]. split; [reflexivity|].
    cbn [objects set_objects set_sessions]. split.
    + intros id Hid. unfold c1. cbn [objects set_objects].
      rewrite !lookup_alter_ne by congruence. reflexivity.
    + rewrite !lookup_alter_eq, Hs1. reflexivity.
Qed.

(** [R] waits for [/app/cam] on the message stream 0. *)
Definition waitingOnZero : context :=
  exec (_ ← register (client "R" false);
        _ ← receive "R" 0 0 [];
        onPlay "R" (JString "cam") true) empty.

Definition waiter : Session.t :=
  default (client "R" false) (objects waitingOnZero !! "R"%string).

Lemma stop_on_stream_zero_witness :
  has "R" (idlePlayers waitingOnZero) = true
  /\ exists c',
       stop "R" waitingOnZero = (Ok tt, c')
       /\ sessions c' = delete "R" (sessions waitingOnZero)
       /\ publishers c' = publishers waitingOnZero
       /\ idlePlayers c' = idlePlayers waitingOnZero
       /\ (forall id, id <> "R"%string ->
             objects c' !! id = objects waitingOnZero !! id)
       /\ objects c' !! "R"%string
          = Some (Session.set_destroyed true
                    (Session.set_pingInterval false
                       (Session.set_isStarting false waiter))).
Proof.
  split; [vm_compute; reflexivity|].
  apply (stop_on_stream_zero waitingOnZero "R" waiter).
  - vm_compute. reflexivity.
  - vm_compute. reflexivity.
  - vm_compute. discriminate.
  - vm_compute. discriminate.
Defined.

(** ** The idle players at a publish *)

(** The body of the loop of [onPublish] over [idlePlayers]. *)
Definition wake (path idlePlayerId : string) : M unit :=
  idlePlayer ← sessions_get idlePlayerId;
  match idlePlayer with
  | None => raise TypeError
  | Some idlePlayer =>
      when (String.eqb (Session.playStreamPath idlePlayer) path)
        (_ ← onStartPlay idlePlayerId;
         modify (fun c =>
           set_idlePlayers (delete idlePlayerId (idlePlayers c)) c))
  end.

(** The idle player [y] is registered and waits for another path. *)
Definition waitsElsewhere (c : context) (path y : string) : Prop :=
  has y (sessions c) = true
  /\ exists p, field Session.playStreamPath c y = Some p /\ p <> path.

Lemma wake_skip c path y :
  waitsElsewhere c path y -> wake path y c = (Ok tt, c).
Proof.
  intros (Hreg & p & (sy & Hy & <-)%field_some & Hne). unfold wake.
  rewrite (bind_ok _ _ _ _ _ (sessions_get_run y c sy Hreg Hy)).
  destruct (String.eqb_spec (Session.playStreamPath sy) path); [contradiction|].
  reflexivity.
Qed.

Lemma scan_skip c path l :
  Forall (waitsElsewhere c path) l -> forEach l (wake path) c = (Ok tt, c).
Proof.
  induction 1 as [|y l Hy _ IH]; [reflexivity|].
  cbn [forEach]. rewrite (bind_ok _ _ _ _ _ (wake_skip c path y Hy)). exact IH.
Qed.

Lemma scan_stale c path pre x post :
  Forall (waitsElsewhere c path) pre -> has x (sessions c) = false ->
  forEach (pre ++ x :: post) (wake path) c = (Throw TypeError, c).
Proof.
  intros Hpre Hx. induction Hpre as [|y l Hy _ IH].
  - cbn [app forEach]. rewrite bind_run. unfold wake at 1.
    rewrite bind_run. unfold sessions_get, read. rewrite Hx. reflexivity.
  - cbn [app forEach]. rewrite (bind_ok _ _ _ _ _ (wake_skip c path y Hy)). exact IH.
Qed.

(** The context after the publisher [this] of [path] was registered
    and told so. *)
Definition published (c : context) (this path : string) (sid : Z)
    (s : Session.t) : context :=
  written this
    (chunksOf (Session.outChunkSize s) RTMP_CHANNEL_INVOKE RTMP_TYPE_INVOKE sid 0
       (statusBytes "status" "NetStream.Publish.Start" (path ++ " is now published.")))
    (set_objects
       (alter (Session.set_isPublishing true) this
          (alter (Session.set_publishStreamId sid) this
             (alter (Session.set_publishStreamPath path) this (objects c))))
       (set_publishers (<[path := this]> (publishers c)) c)).

(** [onPublish] up to its loop over [idlePlayers]. *)
Lemma publish_steps (c : context) (this name : string)
    (s : Session.t) (pp : RtmpPacket.t) (verified : bool) :
  let sid := Header.stream_id (RtmpPacket.header pp) in
  let path := stream_path (Session.appname s) name in
  objects c !! this = Some s ->
  Session.isStarting s = true ->
  Session.parserPacket s = Some pp ->
  0 <= sid < 4294967296 ->
  1 <= Session.outChunkSize s ->
  gate s (Session.authPublish s) verified = false ->
  publishers c !! path = None ->
  Session.isPublishing s = false ->
  Amf0Facts.roundtrips (JString (path ++ " is now published.")) = true ->
  onPublish this (JString name) verified c
  = forEach (idlePlayers c) (wake path) (published c this path sid s).
Proof.
  intros sid path Hs Hst Hpp Hsid HC Hgate Hfree Hpub Hname.
  unfold onPublish.
  rewrite (bind_ok _ _ _ _ _ (object_run _ _ _ Hs)).
  fold path. rewrite bind_run, update_run.
  rewrite Hpp. rewrite bind_run. cbn [mret M_ret]. fold sid.
  rewrite bind_run, update_run.
  rewrite Hst, Hgate. cbn [negb].
  rewrite bind_run. unfold read at 1. cbn [publishers set_objects]. rewrite Hfree.
  rewrite Hpub.
  rewrite bind_run. unfold modify at 1.
  rewrite bind_run, update_run.
  match goal with |- (_ ≫= _) ?x = _ => set (c3 := x) end.
  assert (Hs3 : objects c3 !! this
                = Some (Session.set_isPublishing true
                          (Session.set_publishStreamId sid
                             (Session.set_publishStreamPath path s)))).
  { unfold c3. cbn [objects set_objects set_publishers].
    rewrite !lookup_alter_eq, Hs. reflexivity. }
  rewrite (bind_ok _ _ _ _ _
             (sendStatusMessage_run this c3 _ sid "status" "NetStream.Publish.Start"
                (path ++ " is now published.") Hs3 HC Hsid eq_refl eq_refl Hname)).
  rewrite bind_run. unfold read at 1. reflexivity.
Qed.

Lemma published_spec (c : context) (this path : string) (sid : Z) (s : Session.t) :
  objects c !! this = Some s ->
  let c' := published c this path sid s in
  publishers c' = <[path := this]> (publishers c)
  /\ sessions c' = sessions c
  /\ idlePlayers c' = idlePlayers c
  /\ (forall id, id <> this -> objects c' !! id = objects c !! id)
  /\ objects c' !! this
     = Some (Session.write
               (chunksOf (Session.outChunkSize s) RTMP_CHANNEL_INVOKE
                  RTMP_TYPE_INVOKE sid 0
                  (statusBytes "status" "NetStream.Publish.Start"
                     (path ++ " is now published.")))
               (Session.set_isPublishing true
                  (Session.set_publishStreamId sid
                     (Session.set_publishStreamPath path s)))).
Proof.
  intros Hs c'. split; [reflexivity|]. split; [reflexivity|]. split; [reflexivity|].
  unfold c', published, written. cbn [objects set_objects set_publishers]. split.
  - intros id Hid. rewrite !lookup_alter_ne by congruence. reflexivity.
  - rewrite !lookup_alter_eq, Hs. reflexivity.
Qed.

Lemma waitsElsewhere_published c this path sid s y :
  waitsElsewhere c path y -> waitsElsewhere (published c this path sid s) path y.
Proof.
  intros (Hreg & p & Hp & Hne). split; [exact Hreg|].
  exists p. split; [|exact Hne]. rewrite <- Hp.
  unfold field, published, written. cbn [objects set_objects set_publishers].
  rewrite !field_alter by reflexivity. reflexivity.
Qed.

(** X20: a [publish] for a free path, from a session that is
    starting, passes the authorization and does not publish yet, when
    every idle player is registered and waits for another path: the path
    is registered for the session, the session is marked publishing and
    gets NetStream.Publish.Start on the stream of the request; nothing
    else changes. *)
Theorem publish_registers (c : context) (this name : string)
    (s : Session.t) (pp : RtmpPacket.t) (verified : bool) :
  let sid := Header.stream_id (RtmpPacket.header pp) in
  let path := stream_path (Session.appname s) name in
  objects c !! this = Some s ->
  Session.isStarting s = true ->
  Session.parserPacket s = Some pp ->
  0 <= sid < 4294967296 ->
  1 <= Session.outChunkSize s ->
  gate s (Session.authPublish s) verified = false ->
  publishers c !! path = None ->
  Session.isPublishing s = false ->
  Amf0Facts.roundtrips (JString (path ++ " is now published.")) = true ->
  Forall (waitsElsewhere c path) (idlePlayers c) ->
  exists c',
    onPublish this (JString name) verified c = (Ok tt, c')
    /\ publishers c' = <[path := this]> (publishers c)
    /\ sessions c' = sessions c
    /\ idlePlayers c' = idlePlayers c
    /\ (forall id, id <> this -> objects c' !! id = objects c !! id)
    /\ objects c' !! this
       = Some (Session.write
                 (chunksOf (Session.outChunkSize s) RTMP_CHANNEL_INVOKE
                    RTMP_TYPE_INVOKE sid 0
                    (statusBytes "status" "NetStream.Publish.Start"
                       (path ++ " is now published.")))
                 (Session.set_isPublishing true
                    (Session.set_publishStreamId sid
                       (Session.set_publishStreamPath path s)))).
Proof.
  intros sid path Hs Hst Hpp Hsid HC Hgate Hfree Hpub Hname Hidle.
  exists (published c this path sid s). split.
  - rewrite (publish_steps c this name s pp verified Hs Hst Hpp Hsid HC Hgate
               Hfree Hpub Hname).
    apply scan_skip. eapply Forall_impl; [exact Hidle|].
    intros y. apply waitsElsewhere_published.
  - apply published_spec. exact Hs.
Qed.

(** [R] waits for [/app/cam]; [P] is about to publish. *)
Definition beforePublish : context :=
  exec (_ ← onPlay "R" (JString "cam") true;
        _ ← register (client "P" false);
        receive "P" 1 0 []) asking.

Lemma publish_registers_witness :
  exists c',
    onPublish "P" (JString "own") true beforePublish = (Ok tt, c')
    /\ publishers c' = <["/app/own"%string := "P"%string]> (publishers beforePublish)
    /\ sessions c' = sessions beforePublish
    /\ idlePlayers c' = idlePlayers beforePublish
    /\ (forall id, id <> "P"%string -> objects c' !! id = objects beforePublish !! id)
    /\ objects c' !! "P"%string
       = Some (Session.write
                 (chunksOf 128 RTMP_CHANNEL_INVOKE RTMP_TYPE_INVOKE 1 0
                    (statusBytes "status" "NetStream.Publish.Start"
                       ("/app/own" ++ " is now published.")))
                 (Session.set_isPublishing true
                    (Session.set_publishStreamId 1
                       (Session.set_publishStreamPath "/app/own" (receiving "P" 1))))).
Proof.
  apply (publish_registers beforePublish "P" "own" (receiving "P" 1)
           (RtmpPacket.mk (Header.mk 0 3 0 0 20 1) 0 0 (Some []) 0 0) true).
  - vm_compute. reflexivity.
  - reflexivity.
  - reflexivity.
  - cbn. lia.
  - cbn. lia.
  - reflexivity.
  - vm_compute. reflexivity.
  - reflexivity.
  - vm_compute. reflexivity.
  - assert (E : idlePlayers beforePublish = ["R"%string]) by (vm_compute; reflexivity).
    rewrite E. constructor; [|constructor].
    split; [vm_compute; reflexivity|].
    exists "/app/cam"%string. split; [vm_compute; reflexivity | discriminate].
Defined.

(** X21: when [idlePlayers] lists an id that is not in [sessions] (and
    the idle players before it are registered and wait for other paths),
    a [publish] that would succeed raises a TypeError in the loop over
    the idle players, after the path was registered for the session and
    NetStream.Publish.Start was sent: the idle players behind the stale
    id are not woken up. *)
Theorem publish_with_stale_idle_player (c : context) (this name : string)
    (s : Session.t) (pp : RtmpPacket.t) (verified : bool)
    (pre post : list string) (x : string) :
  let sid := Header.stream_id (RtmpPacket.header pp) in
  let path := stream_path (Session.appname s) name in
  objects c !! this = Some s ->
  Session.isStarting s = true ->
  Session.parserPacket s = Some pp ->
  0 <= sid < 4294967296 ->
  1 <= Session.outChunkSize s ->
  gate s (Session.authPublish s) verified = false ->
  publishers c !! path = None ->
  Session.isPublishing s = false ->
  Amf0Facts.roundtrips (JString (path ++ " is now published.")) = true ->
  idlePlayers c = pre ++ x :: post ->
  Forall (waitsElsewhere c path) pre ->
  has x (sessions c) = false ->
  exists c',
    onPublish this (JString name) verified c = (Throw TypeError, c')
    /\ publishers c' = <[path := this]> (publishers c)
    /\ sessions c' = sessions c
    /\ idlePlayers c' = idlePlayers c
    /\ (forall id, id <> this -> objects c' !! id = objects c !! id)
    /\ objects c' !! this
       = Some (Session.write
                 (chunksOf (Session.outChunkSize s) RTMP_CHANNEL_INVOKE
                    RTMP_TYPE_INVOKE sid 0
                    (statusBytes "status" "NetStream.Publish.Start"
                       (path ++ " is now published.")))
                 (Session.set_isPublishing true
                    (Session.set_publishStreamId sid
                       (Session.set_publishStreamPath path s)))).
Proof.
  intros sid path Hs Hst Hpp Hsid HC Hgate Hfree Hpub Hname Hidle Hpre Hx.
  exists (published c this path sid s). split.
  - rewrite (publish_steps c this name s pp verified Hs Hst Hpp Hsid HC Hgate
               Hfree Hpub Hname).
    rewrite Hidle. apply scan_stale; [|exact Hx].
    eapply Forall_impl; [exact Hpre|].
    intros y. apply waitsElsewhere_published.
  - apply published_spec. exact Hs.
Qed.

(** [R] has stopped while it waited on the message stream 0; [P] is
    about to publish. *)
Definition afterGhost : context :=
  exec (_ ← stop "R";
        _ ← register (client "P" false);
        receive "P" 1 0 []) waitingOnZero.

Lemma publish_with_stale_idle_player_witness :
  exists c',
    onPublish "P" (JString "own") true afterGhost = (Throw TypeError, c')
    /\ publishers c' = <["/app/own"%string := "P"%string]> (publishers afterGhost)
    /\ sessions c' = sessions afterGhost
    /\ idlePlayers c' = idlePlayers afterGhost
    /\ (forall id, id <> "P"%string -> objects c' !! id = objects afterGhost !! id)
    /\ objects c' !! "P"%string
       = Some (Session.write
                 (chunksOf 128 RTMP_CHANNEL_INVOKE RTMP_TYPE_INVOKE 1 0
                    (statusBytes "status" "NetStream.Publish.Start"
                       ("/app/own" ++ " is now published.")))
                 (Session.set_isPublishing true
                    (Session.set_publishStreamId 1
                       (Session.set_publishStreamPath "/app/own" (receiving "P" 1))))).
Proof.
  apply (publish_with_stale_idle_player afterGhost "P" "own" (receiving "P" 1)
           (RtmpPacket.mk (Header.mk 0 3 0 0 20 1) 0 0 (Some []) 0 0) true
           [] [] "R").
  - vm_compute. reflexivity.
  - reflexivity.
  - reflexivity.
  - cbn. lia.
  - cbn. lia.
  - reflexivity.
  - vm_compute. reflexivity.
  - reflexivity.
  - vm_compute. reflexivity.
  - vm_compute. reflexivity.
  - constructor.
  - vm_compute. reflexivity.
Defined.

End PublishRequest.

(** ** The end of a play stream *)

Module DeleteStream.
Import Broker NodeRtmpSession BrokerFacts SendFacts PublishFacts Scenario
       PlayFacts Frame StopFacts PlayRequest.

Definition playStop : Buffer :=
  statusBytes "status" "NetStream.Play.Stop" "Stopped playing stream.".

(** X22: [deleteStream] for the play stream of a session that plays
    (it does not idle, its path has a registered publisher, and the
    stream is not its publish stream as well): the session leaves the
    player set of the publisher, is told NetStream.Play.Stop when it is
    starting, and its play stream id and path are reset; the registries
    and the other sessions are as before. *)
Theorem delete_play_stream (c : context) (this pid : string) (s p : Session.t) :
  let sid := Session.playStreamId s in
  let C := Session.outChunkSize s in
  let c' := exec (onDeleteStream this (Some sid)) c in
  objects c !! this = Some s ->
  Session.isIdling s = false ->
  Session.publishStreamId s <> sid ->
  publishers c !! Session.playStreamPath s = Some pid ->
  has pid (sessions c) = true ->
  objects c !! pid = Some p ->
  0 <= sid < 4294967296 ->
  1 <= C ->
  onDeleteStream this (Some sid) c = (Ok tt, c')
  /\ field Session.players c' pid = Some (delete this (Session.players p))
  /\ field Session.isPlaying c' this = Some false
  /\ field Session.playStreamId c' this = Some 0
  /\ field Session.playStreamPath c' this = Some EmptyString
  /\ field Session.socket c' this
     = Some (Session.socket s
             ++ if Session.isStarting s
                then [chunksOf C RTMP_CHANNEL_INVOKE RTMP_TYPE_INVOKE sid 0 playStop]
                else [])
  /\ sessions c' = sessions c
  /\ publishers c' = publishers c
  /\ idlePlayers c' = idlePlayers c
  /\ (forall id, id <> this -> id <> pid -> objects c' !! id = objects c !! id).
Proof.
  intros sid C c' Hs Hidle Hne Hreg Hin Hp Hsid HC.
  set (leave := fun q => Session.set_players (delete this (Session.players q)) q).
  set (c1 := set_objects (alter leave pid (objects c)) c).
  set (c2 := set_objects (alter (Session.set_isPlaying false) this (objects c1)) c1).
  assert (Hs2 : exists s2, objects c2 !! this = Some s2
                           /\ Session.outChunkSize s2 = C
                           /\ Session.socket s2 = Session.socket s
                           /\ Session.publishStreamId s2 = Session.publishStreamId s).
  { unfold c2, c1. cbn [objects set_objects]. rewrite lookup_alter_eq.
    destruct (decide (pid = this)) as [->|Hd].
    - rewrite lookup_alter_eq, Hs. eexists. split; [reflexivity|].
      split; [|split]; reflexivity.
    - rewrite lookup_alter_ne by exact Hd. rewrite Hs. eexists.
      split; [reflexivity|]. split; [|split]; reflexivity. }
  destruct Hs2 as (s2 & Hs2 & EC & Esock & Epub).
  set (stopped := if Session.isStarting s
                  then [chunksOf C RTMP_CHANNEL_INVOKE RTMP_TYPE_INVOKE sid 0 playStop]
                  else []).
  set (c3 := if Session.isStarting s
             then written this (chunksOf C RTMP_CHANNEL_INVOKE RTMP_TYPE_INVOKE sid 0
                                  playStop) c2
             else c2).
  assert (H3 : when (Session.isStarting s)
                 (sendStatusMessage this sid (JString "status")
                    (JString "NetStream.Play.Stop")
                    (JString "Stopped playing stream.")) c2
               = (Ok tt, c3)).
  { unfold c3. destruct (Session.isStarting s); [|reflexivity]. cbn [when].
    rewrite (sendStatusMessage_run this c2 s2 sid "status" "NetStream.Play.Stop"
               "Stopped playing stream." Hs2 ltac:(rewrite EC; exact HC) Hsid
               eq_refl eq_refl eq_refl).
    rewrite EC. reflexivity. }
  set (reset := fun s0 => Session.set_playStreamPath EmptyString
                            (Session.set_playStreamId 0 s0)).
  set (c4 := set_objects (alter reset this (objects c3)) c3).
  assert (Hs3 : objects c3 !! this
                = Some (Session.set_socket (Session.socket s ++ stopped) s2)).
  { unfold c3, stopped. destruct (Session.isStarting s).
    - rewrite lookup_written, Hs2. cbn. unfold Session.write. rewrite Esock. reflexivity.
    - rewrite Hs2, app_nil_r, <- Esock. destruct s2; reflexivity. }
  assert (Hs4 : objects c4 !! this
                = Some (reset (Session.set_socket (Session.socket s ++ stopped) s2)))
    by (unfold c4; cbn [objects set_objects]; rewrite lookup_alter_eq, Hs3; reflexivity).
  assert (Hrun : onDeleteStream this (Some sid) c = (Ok tt, c4)).
  { unfold onDeleteStream.
    rewrite (bind_ok _ _ _ _ _ (object_run _ _ _ Hs)).
    fold sid. cbn [same_id]. rewrite Z.eqb_refl. cbn [when].
    rewrite Hidle.
    rewrite bind_run, bind_run, bind_run. unfold read at 1. rewrite Hreg.
    rewrite (bind_ok _ _ _ _ _ (sessions_get_run pid c p Hin Hp)).
    rewrite bind_run, update_run. fold leave. fold c1.
    rewrite update_run. fold c2.
    rewrite (bind_ok _ _ _ _ _ H3).
    rewrite update_run. fold reset. fold c4.
    rewrite (bind_ok _ _ _ _ _ (object_run _ _ _ Hs4)).
    change (Session.publishStreamId (reset _)) with (Session.publishStreamId s2).
    rewrite Epub.
    destruct (Z.eqb_spec sid (Session.publishStreamId s)) as [E|_];
      [symmetry in E; contradiction|].
    reflexivity. }
  assert (Hc' : c' = c4) by (unfold c', exec; rewrite Hrun; reflexivity).
  rewrite Hc'. split; [exact Hrun|].
  assert (W : forall {A} (f : Session.t -> A) id,
             (forall s0 w, f (Session.set_socket w s0) = f s0) ->
             field f c3 id = field f c2 id).
  { intros A f id Hw. unfold c3. destruct (Session.isStarting s); [|reflexivity].
    apply field_written. exact Hw. }
  split_and!.
  - unfold field, c4. cbn [objects set_objects]. rewrite field_alter by reflexivity.
    fold (field Session.players c3 pid). rewrite W by reflexivity.
    unfold field, c2, c1. cbn [objects set_objects].
    rewrite field_alter by reflexivity. rewrite lookup_alter_eq, Hp. reflexivity.
  - rewrite (field_of _ _ _ _ Hs4). cbn.
    unfold c2 in Hs2. cbn [objects set_objects] in Hs2.
    rewrite lookup_alter_eq in Hs2.
    destruct (objects c1 !! this) as [s1|]; [|discriminate Hs2].
    injection Hs2 as <-. reflexivity.
  - rewrite (field_of _ _ _ _ Hs4). reflexivity.
  - rewrite (field_of _ _ _ _ Hs4). reflexivity.
  - rewrite (field_of _ _ _ _ Hs4). reflexivity.
  - unfold c4, c3. destruct (Session.isStarting s); reflexivity.
  - unfold c4, c3. destruct (Session.isStarting s); reflexivity.
  - unfold c4, c3. destruct (Session.isStarting s); reflexivity.
  - intros id H1 H2. unfold c4. cbn [objects set_objects].
    rewrite lookup_alter_ne by congruence.
    assert (E3 : objects c3 !! id = objects c2 !! id).
    { unfold c3. destruct (Session.isStarting s); [|reflexivity].
      unfold written. cbn [objects set_objects].
      rewrite lookup_alter_ne by congruence. reflexivity. }
    rewrite E3. unfold c2, c1. cbn [objects set_objects].
    rewrite !lookup_alter_ne by congruence. reflexivity.
Qed.

Lemma delete_play_stream_witness :
  let s := default (client "Q" false) (objects PauseCases.playing !! "Q"%string) in
  let p := default (client "P" false) (objects PauseCases.playing !! "P"%string) in
  let c' := exec (onDeleteStream "Q" (Some (Session.playStreamId s))) PauseCases.playing in
  onDeleteStream "Q" (Some (Session.playStreamId s)) PauseCases.playing = (Ok tt, c')
  /\ field Session.players c' "P" = Some (delete "Q" (Session.players p))
  /\ field Session.isPlaying c' "Q" = Some false
  /\ field Session.playStreamId c' "Q" = Some 0
  /\ field Session.playStreamPath c' "Q" = Some EmptyString
  /\ field Session.socket c' "Q"
     = Some (Session.socket s
             ++ if Session.isStarting s
                then [chunksOf (Session.outChunkSize s) RTMP_CHANNEL_INVOKE
                        RTMP_TYPE_INVOKE (Session.playStreamId s) 0 playStop]
                else [])
  /\ sessions c' = sessions PauseCases.playing
  /\ publishers c' = publishers PauseCases.playing
  /\ idlePlayers c' = idlePlayers PauseCases.playing
  /\ (forall id, id <> "Q"%string -> id <> "P"%string ->
        objects c' !! id = objects PauseCases.playing !! id).
Proof.
  cbv zeta.
  apply (delete_play_stream PauseCases.playing "Q" "P"
           (default (client "Q" false) (objects PauseCases.playing !! "Q"%string))
           (default (client "P" false) (objects PauseCases.playing !! "P"%string))).
  - vm_compute. reflexivity.
  - vm_compute. reflexivity.
  - vm_compute. discriminate.
  - vm_compute. reflexivity.
  - vm_compute. reflexivity.
  - vm_compute. reflexivity.
  - vm_compute. split; [discriminate | reflexivity].
  - vm_compute. discriminate.
Defined.

End DeleteStream.

(** ** The end of a publish stream *)

Module Unpublish.
Import Broker NodeRtmpSession BrokerFacts SendFacts PublishFacts Scenario
       PlayFacts Frame StopFacts PlayRequest ForwardFacts.




(** A player that can be told: it is registered, with a chunk size and
    a play stream id in range. *)
Definition subscriber (c : context) (y : string) : Prop :=
  has y (sessions c) = true
  /\ exists py, objects c !! y = Some py
                /\ 1 <= Session.outChunkSize py
                /\ 0 <= Session.playStreamId py < 4294967296.



Lemma has_not_in x l : ~ x ∈ l -> has x l = false.
Proof.
  intros H. destruct (has x l) eqn:E; [|reflexivity].
  apply has_In, list_elem_of_In in E. contradiction.
Qed.









End Unpublish.

(** ** Requests without authorization *)

Module Unauthorized.
Import Broker NodeRtmpSession BrokerFacts SendFacts PublishFacts Scenario
       PlayFacts Frame StopFacts PlayRequest.

Definition refusal (code : string) : Buffer :=
  statusBytes "error" code "Authorization required.".

(** X24: a [publish] or a [play] that does not pass the authorization
    (the server asks for it, the client is neither local nor IPC and the
    signature is not accepted) is answered with one status message,
    level [error] and code NetStream.publish.Unauthorized or
    NetStream.play.Unauthorized; the registries and the other sessions
    are unchanged, and the session keeps its flags, but its publish (or
    play) path and stream id are those of the request. *)
Theorem unauthorized_request (c : context) (this name : string)
    (s : Session.t) (pp : RtmpPacket.t) (verified : bool) :
  let sid := Header.stream_id (RtmpPacket.header pp) in
  let path := stream_path (Session.appname s) name in
  let C := Session.outChunkSize s in
  let answer code := chunksOf C RTMP_CHANNEL_INVOKE RTMP_TYPE_INVOKE sid 0 (refusal code) in
  objects c !! this = Some s ->
  Session.isStarting s = true ->
  Session.parserPacket s = Some pp ->
  0 <= sid < 4294967296 ->
  1 <= C ->
  (gate s (Session.authPublish s) verified = true ->
   exists c',
     onPublish this (JString name) verified c = (Ok tt, c')
     /\ registries c c'
     /\ (forall id, id <> this -> objects c' !! id = objects c !! id)
     /\ objects c' !! this
        = Some (Session.write (answer "NetStream.publish.Unauthorized"%string)
                  (Session.set_publishStreamId sid
                     (Session.set_publishStreamPath path s))))
  /\ (gate s (Session.authPlay s) verified = true ->
      exists c',
        onPlay this (JString name) verified c = (Ok tt, c')
        /\ registries c c'
        /\ (forall id, id <> this -> objects c' !! id = objects c !! id)
        /\ objects c' !! this
           = Some (Session.write (answer "NetStream.play.Unauthorized"%string)
                     (Session.set_playStreamId sid
                        (Session.set_playStreamPath path s)))).
Proof.
  intros sid path C answer Hs Hst Hpp Hsid HC. split; intros Hgate.
  - set (s2 := Session.set_publishStreamId sid (Session.set_publishStreamPath path s)).
    set (c2 := set_objects (alter (Session.set_publishStreamId sid) this
                              (alter (Session.set_publishStreamPath path) this
                                 (objects c))) c).
    assert (Hs2 : objects c2 !! this = Some s2).
    { unfold c2, s2. cbn [objects set_objects].
      rewrite !lookup_alter_eq, Hs. reflexivity. }
    exists (written this (answer "NetStream.publish.Unauthorized"%string) c2). split.
    + unfold onPublish.
      rewrite (bind_ok _ _ _ _ _ (object_run _ _ _ Hs)).
      fold path. rewrite bind_run, update_run.
      rewrite Hpp. rewrite bind_run. cbn [mret M_ret]. fold sid.
      rewrite bind_run, update_run.
      rewrite Hst, Hgate. cbn [negb].
      apply (sendStatusMessage_run this c2 s2 sid "error"
               "NetStream.publish.Unauthorized" "Authorization required."
               Hs2 HC Hsid eq_refl eq_refl eq_refl).
    + split; [repeat split|]. split.
      * intros id Hid. unfold written, c2. cbn [objects set_objects].
        rewrite !lookup_alter_ne by congruence. reflexivity.
      * rewrite lookup_written, Hs2. reflexivity.
  - set (s2 := Session.set_playStreamId sid (Session.set_playStreamPath path s)).
    set (c2 := set_objects (alter (Session.set_playStreamId sid) this
                              (alter (Session.set_playStreamPath path) this
                                 (objects c))) c).
    assert (Hs2 : objects c2 !! this = Some s2).
    { unfold c2, s2. cbn [objects set_objects].
      rewrite !lookup_alter_eq, Hs. reflexivity. }
    exists (written this (answer "NetStream.play.Unauthorized"%string) c2). split.
    + unfold onPlay.
      rewrite (bind_ok _ _ _ _ _ (object_run _ _ _ Hs)).
      fold path. rewrite bind_run, update_run.
      rewrite Hpp. rewrite bind_run. cbn [mret M_ret]. fold sid.
      rewrite bind_run, update_run.
      rewrite Hst, Hgate. cbn [negb].
      apply (sendStatusMessage_run this c2 s2 sid "error"
               "NetStream.play.Unauthorized" "Authorization required."
               Hs2 HC Hsid eq_refl eq_refl eq_refl).
    + split; [repeat split|]. split.
      * intros id Hid. unfold written, c2. cbn [objects set_objects].
        rewrite !lookup_alter_ne by congruence. reflexivity.
      * rewrite lookup_written, Hs2. reflexivity.
Qed.

(** A server that asks for a signature on both requests; [R] has sent
    a request on the message stream 1. *)
Definition guest : Session.t :=
  Session.set_parserPacket
    (Some (RtmpPacket.mk (Header.mk 0 3 0 0 20 1) 0 0 (Some []) 0 0))
    (Session.set_appname "app" (Session.run (Session.create "R" false true true true 0))).

Definition guarded : context := exec (register guest) empty.

Lemma unauthorized_request_witness :
  (exists c',
     onPublish "R" (JString "cam?sign=0") false guarded = (Ok tt, c')
     /\ registries guarded c'
     /\ (forall id, id <> "R"%string -> objects c' !! id = objects guarded !! id)
     /\ objects c' !! "R"%string
        = Some (Session.write
                  (chunksOf 128 RTMP_CHANNEL_INVOKE RTMP_TYPE_INVOKE 1 0
                     (refusal "NetStream.publish.Unauthorized"))
                  (Session.set_publishStreamId 1
                     (Session.set_publishStreamPath "/app/cam" guest))))
  /\ (exists c',
        onPlay "R" (JString "cam?sign=0") false guarded = (Ok tt, c')
        /\ registries guarded c'
        /\ (forall id, id <> "R"%string -> objects c' !! id = objects guarded !! id)
        /\ objects c' !! "R"%string
           = Some (Session.write
                     (chunksOf 128 RTMP_CHANNEL_INVOKE RTMP_TYPE_INVOKE 1 0
                        (refusal "NetStream.play.Unauthorized"))
                     (Session.set_playStreamId 1
                        (Session.set_playStreamPath "/app/cam" guest)))).
Proof.
  pose proof (unauthorized_request guarded "R" "cam?sign=0" guest
                (RtmpPacket.mk (Header.mk 0 3 0 0 20 1) 0 0 (Some []) 0 0) false) as T.
  cbv zeta in T.
  assert (H1 : objects guarded !! "R"%string = Some guest) by (vm_compute; reflexivity).
  destruct (T H1 eq_refl eq_refl ltac:(cbn; lia) ltac:(cbn; lia)) as [A B].
  split; [exact (A eq_refl) | exact (B eq_refl)].
Defined.

End Unauthorized.

(** ** The idle players of a new publisher *)

Module WakeUp.
Import Broker NodeRtmpSession BrokerFacts SendFacts PublishFacts Scenario
       PlayFacts Frame StopFacts PlayRequest PublishRequest ForwardFacts Unpublish.

(** A publisher that has nothing to send to a new player: no metadata,
    no AAC or AVC codec seen, no GOP queue. *)
Definition fresh (p : Session.t) : Prop :=
  Session.metaData p = None
  /\ Session.audioCodec p <> 10
  /\ Session.videoCodec p <> 7 /\ Session.videoCodec p <> 12
  /\ Session.rtmpGopCacheQueue p = None.

Definition join (y : string) (q : Session.t) : Session.t :=
  Session.set_players (add y (Session.players q)) q.

Definition started (s : Session.t) : Session.t :=
  Session.set_isPlaying true (Session.set_isIdling false s).

Lemma onStartPlay_fresh c y py this p :
  objects c !! y = Some py ->
  publishers c !! Session.playStreamPath py = Some this ->
  has this (sessions c) = true ->
  objects c !! this = Some p ->
  fresh p ->
  onStartPlay y c
  = (Ok tt, set_objects (alter started y (alter (join y) this (objects c))) c).
Proof.
  intros Hy Hreg Hin Hp (F1 & F2 & F3 & F4 & F5). unfold onStartPlay.
  rewrite (bind_ok _ _ _ _ _ (object_run _ _ _ Hy)).
  rewrite bind_run. unfold read at 1. rewrite Hreg.
  rewrite (bind_ok _ _ _ _ _ (sessions_get_run this c p Hin Hp)).
  rewrite bind_run, update_run. rewrite F1, F5.
  destruct (Z.eqb_spec (Session.audioCodec p) 10); [contradiction|].
  destruct (Z.eqb_spec (Session.videoCodec p) 7); [contradiction|].
  destruct (Z.eqb_spec (Session.videoCodec p) 12); [contradiction|].
  cbn [orb when]. reflexivity.
Qed.

(** Whether the session [y] waits for [path]. *)
Definition here (c : context) (path y : string) : bool :=
  match objects c !! y with
  | Some py => String.eqb (Session.playStreamPath py) path
  | None => false
  end.

(** The loop over the idle players [l] at a fresh publisher [this] of
    [path], none of which is [this]: those that wait for [path] start
    playing and leave [idlePlayers]. *)
Lemma wake_all (this path : string) (l : list string) :
  NoDup l -> ~ In this l ->
  forall c p,
    publishers c !! path = Some this ->
    has this (sessions c) = true ->
    objects c !! this = Some p ->
    fresh p ->
    (forall y, In y l -> has y (sessions c) = true /\ is_Some (objects c !! y)) ->
    exists c',
      forEach l (wake path) c = (Ok tt, c')
      /\ sessions c' = sessions c
      /\ publishers c' = publishers c
      /\ idlePlayers c'
         = fold_left (fun acc y => if here c path y then delete y acc else acc)
             l (idlePlayers c)
      /\ objects c' !! this
         = Some (Session.set_players
                   (fold_left (fun acc y => if here c path y then add y acc else acc)
                      l (Session.players p)) p)
      /\ forall id, id <> this ->
           objects c' !! id
           = (fun py => if has id l && here c path id then started py else py)
             <$> objects c !! id.
Proof.
  induction 1 as [|y l Hnin Hnd IH]; intros Hself c p Hreg Hin Hp Hfresh Hall.
  - exists c. split_and!; try reflexivity.
    + rewrite Hp. destruct p; reflexivity.
    + intros id _. destruct (objects c !! id); reflexivity.
  - assert (Hy' : y <> this) by (intros ->; apply Hself; left; reflexivity).
    destruct (Hall y ltac:(left; reflexivity)) as (Hyreg & py & Hy).
    assert (Hself' : ~ In this l) by (intros H; apply Hself; right; exact H).
    destruct (String.eqb_spec (Session.playStreamPath py) path) as [Epath|Npath].
    + (* [y] waits here *)
      set (c1 := set_objects (alter started y (alter (join y) this (objects c))) c).
      set (cy := set_idlePlayers (delete y (idlePlayers c1)) c1).
      assert (Hstep : wake path y c = (Ok tt, cy)).
      { unfold wake. rewrite (bind_ok _ _ _ _ _ (sessions_get_run y c py Hyreg Hy)).
        destruct (String.eqb_spec (Session.playStreamPath py) path); [|contradiction].
        cbn [when].
        rewrite (bind_ok _ _ _ _ _
                   (onStartPlay_fresh c y py this p Hy ltac:(rewrite Epath; exact Hreg)
                      Hin Hp Hfresh)).
        reflexivity. }
      assert (Hp1 : objects cy !! this = Some (join y p)).
      { unfold cy, c1. cbn [objects set_objects set_idlePlayers].
        rewrite lookup_alter_ne by exact Hy'. rewrite lookup_alter_eq, Hp. reflexivity. }
      assert (Ho : forall id, id <> this -> id <> y -> objects cy !! id = objects c !! id).
      { intros id H1 H2. unfold cy, c1. cbn [objects set_objects set_idlePlayers].
        rewrite !lookup_alter_ne by congruence. reflexivity. }
      assert (Hhere : forall z, In z l -> here cy path z = here c path z).
      { intros z Hz. unfold here. rewrite Ho; [reflexivity | |].
        - intros ->. contradiction.
        - intros ->. apply Hnin. apply list_elem_of_In. exact Hz. }
      destruct (IH Hself' cy (join y p)) as (c' & Hrun & S1 & S2 & S3 & S4 & S5).
      { exact Hreg. } { exact Hin. } { exact Hp1. }
      { destruct Hfresh as (F1 & F2 & F3 & F4 & F5). repeat split; assumption. }
      { intros z Hz. destruct (Hall z ltac:(right; exact Hz)) as (Hzreg & Hzobj).
        split; [exact Hzreg|]. rewrite Ho; [exact Hzobj | |].
        - intros ->. contradiction.
        - intros ->. apply Hnin. apply list_elem_of_In. exact Hz. }
      assert (Hy1 : here c path y = true).
      { unfold here. rewrite Hy. apply String.eqb_eq. exact Epath. }
      exists c'. split.
      { cbn [forEach]. rewrite (bind_ok _ _ _ _ _ Hstep). exact Hrun. }
      split; [exact S1|]. split; [exact S2|].
      split; [|split].
      * rewrite S3. cbn [fold_left]. rewrite Hy1.
        change (idlePlayers cy) with (delete y (idlePlayers c)).
        generalize (delete y (idlePlayers c)).
        clear - Hhere. induction l as [|z l IHl]; intros acc; [reflexivity|].
        cbn [fold_left]. rewrite (Hhere z ltac:(left; reflexivity)).
        apply IHl. intros w Hw. apply Hhere. right. exact Hw.
      * rewrite S4. cbn [fold_left]. rewrite Hy1.
        change (Session.players (join y p)) with (add y (Session.players p)).
        f_equal.
        assert (G : forall acc,
                   Session.set_players
                     (fold_left (fun acc z => if here cy path z then add z acc else acc)
                        l acc) (join y p)
                   = Session.set_players
                       (fold_left (fun acc z => if here c path z then add z acc else acc)
                          l acc) p).
        { clear - Hhere. induction l as [|z l IHl]; intros acc; [reflexivity|].
          cbn [fold_left]. rewrite (Hhere z ltac:(left; reflexivity)).
          apply IHl. intros w Hw. apply Hhere. right. exact Hw. }
        apply G.
      * intros id Hid. rewrite (S5 id Hid), has_cons.
        destruct (String.eqb_spec id y) as [->|Hne].
        -- rewrite (has_not_in y l Hnin). cbn [andb orb]. rewrite Hy1.
           unfold cy, c1. cbn [objects set_objects set_idlePlayers].
           rewrite lookup_alter_eq, lookup_alter_ne by congruence.
           rewrite Hy. reflexivity.
        -- cbn [orb]. rewrite (Ho id Hid Hne).
           destruct (has id l) eqn:El; [|reflexivity].
           rewrite (Hhere id (proj1 (has_In id l) El)). reflexivity.
    + (* [y] waits elsewhere *)
      assert (Hstep : wake path y c = (Ok tt, c)).
      { apply wake_skip. split; [exact Hyreg|].
        exists (Session.playStreamPath py). split; [|exact Npath].
        rewrite (field_of _ _ _ _ Hy). reflexivity. }
      destruct (IH Hself' c p Hreg Hin Hp Hfresh) as (c' & Hrun & S1 & S2 & S3 & S4 & S5).
      { intros z Hz. apply Hall. right. exact Hz. }
      assert (Hy1 : here c path y = false).
      { unfold here. rewrite Hy. apply String.eqb_neq. exact Npath. }
      exists c'. split.
      { cbn [forEach]. rewrite (bind_ok _ _ _ _ _ Hstep). exact Hrun. }
      split; [exact S1|]. split; [exact S2|].
      split; [|split].
      * rewrite S3. cbn [fold_left]. rewrite Hy1. reflexivity.
      * rewrite S4. cbn [fold_left]. rewrite Hy1. reflexivity.
      * intros id Hid. rewrite (S5 id Hid), has_cons.
        destruct (String.eqb_spec id y) as [->|Hne]; [|reflexivity].
        rewrite (has_not_in y l Hnin), Hy1. reflexivity.
Qed.

(** ** The sets after the loop *)

Lemma delete_filter y l :
  delete y l = List.filter (fun z => negb (String.eqb y z)) l.
Proof.
  induction l as [|z l IH]; [reflexivity|].
  unfold delete in *. cbn [List.filter]. unfold filter. cbn [list_filter].
  fold (filter (fun y0 => negb (String.eqb y y0)) l).
  destruct (String.eqb_spec y z) as [->|Hne]; cbn [negb].
  - rewrite decide_False by (rewrite ?String.eqb_refl; cbn; tauto). exact IH.
  - rewrite decide_True by (cbn; tauto).
    f_equal. exact IH.
Qed.

Lemma filter_twice (g h : string -> bool) l :
  List.filter g (List.filter h l) = List.filter (fun z => h z && g z) l.
Proof.
  induction l as [|z l IH]; [reflexivity|].
  cbn [List.filter]. destruct (h z); cbn [andb List.filter]; [|exact IH].
  destruct (g z); [f_equal|]; exact IH.
Qed.

Lemma fold_delete (f : string -> bool) l :
  forall acc,
    fold_left (fun acc y => if f y then delete y acc else acc) l acc
    = List.filter (fun z => negb (has z l && f z)) acc.
Proof.
  induction l as [|y l IH]; intros acc.
  - cbn [fold_left].
    induction acc as [|a acc IHa]; [reflexivity|]. cbn. f_equal. exact IHa.
  - cbn [fold_left]. rewrite IH. destruct (f y) eqn:Ey.
    + rewrite delete_filter, filter_twice. apply List.filter_ext. intros z.
      rewrite has_cons. destruct (String.eqb_spec y z) as [->|Hne]; cbn [negb andb].
      * rewrite String.eqb_refl, Ey. reflexivity.
      * destruct (String.eqb_spec z y); [congruence|]. reflexivity.
    + apply List.filter_ext. intros z. rewrite has_cons.
      destruct (String.eqb_spec z y) as [->|Hne]; [|reflexivity].
      rewrite Ey, !andb_false_r. reflexivity.
Qed.

Lemma has_add x y l : has x (add y l) = String.eqb x y || has x l.
Proof.
  unfold add. destruct (has y l) eqn:E.
  - destruct (String.eqb_spec x y) as [->|]; [rewrite E|]; reflexivity.
  - unfold has. rewrite existsb_app. cbn [existsb].
    rewrite orb_false_r, orb_comm. reflexivity.
Qed.

Lemma has_fold_add (f : string -> bool) x l :
  forall acc,
    has x (fold_left (fun acc y => if f y then add y acc else acc) l acc)
    = has x acc || (has x l && f x).
Proof.
  induction l as [|y l IH]; intros acc.
  - cbn. rewrite orb_false_r. reflexivity.
  - cbn [fold_left]. rewrite IH, has_cons. destruct (f y) eqn:Ey.
    + rewrite has_add. destruct (String.eqb_spec x y) as [->|Hne]; cbn [orb andb].
      * rewrite Ey. rewrite orb_true_r. destruct (has y l); reflexivity.
      * reflexivity.
    + destruct (String.eqb_spec x y) as [->|Hne]; cbn [orb andb]; [|reflexivity].
      rewrite Ey, andb_false_r. reflexivity.
Qed.

(** X25: a [publish] that succeeds, by a registered session that has
    nothing cached ([fresh]) and is not idle itself, when every idle
    player is registered: every idle player that waits for the path
    starts playing (it plays, does not idle, is in the player set of the
    publisher) and leaves [idlePlayers]; the idle players that wait for
    other paths stay there, in their order; the path is registered. *)
Theorem publish_wakes_idle_players (c : context) (this name : string)
    (s : Session.t) (pp : RtmpPacket.t) (verified : bool) :
  let sid := Header.stream_id (RtmpPacket.header pp) in
  let path := stream_path (Session.appname s) name in
  objects c !! this = Some s ->
  has this (sessions c) = true ->
  Session.isStarting s = true ->
  Session.parserPacket s = Some pp ->
  0 <= sid < 4294967296 ->
  1 <= Session.outChunkSize s ->
  gate s (Session.authPublish s) verified = false ->
  publishers c !! path = None ->
  Session.isPublishing s = false ->
  Amf0Facts.roundtrips (JString (path ++ " is now published.")) = true ->
  fresh s ->
  NoDup (idlePlayers c) ->
  ~ In this (idlePlayers c) ->
  (forall y, In y (idlePlayers c) ->
             has y (sessions c) = true /\ is_Some (objects c !! y)) ->
  exists c',
    onPublish this (JString name) verified c = (Ok tt, c')
    /\ sessions c' = sessions c
    /\ publishers c' = <[path := this]> (publishers c)
    /\ idlePlayers c' = List.filter (fun y => negb (here c path y)) (idlePlayers c)
    /\ (forall y, field (fun q => has y (Session.players q)) c' this
                  = Some (has y (Session.players s)
                          || (has y (idlePlayers c) && here c path y)))
    /\ (forall id, id <> this ->
          objects c' !! id
          = (fun py => if has id (idlePlayers c) && here c path id
                       then started py else py) <$> objects c !! id).
Proof.
  intros sid path Hs Hin Hst Hpp Hsid HC Hgate Hfree Hpub Hname Hfresh Hnd Hself Hall.
  rewrite (publish_steps c this name s pp verified Hs Hst Hpp Hsid HC Hgate
             Hfree Hpub Hname).
  fold sid path.
  destruct (published_spec c this path sid s Hs) as (P1 & P2 & P3 & P4 & P5).
  set (c0 := published c this path sid s) in *.
  assert (Hhere : forall y, y <> this -> here c0 path y = here c path y).
  { intros y Hy. unfold here. rewrite (P4 y Hy). reflexivity. }
  destruct (wake_all this path (idlePlayers c) Hnd Hself c0 _
              ltac:(rewrite P1; apply lookup_insert_eq)
              ltac:(rewrite P2; exact Hin) P5)
    as (c' & Hrun & S1 & S2 & S3 & S4 & S5).
  { destruct Hfresh as (F1 & F2 & F3 & F4 & F5). repeat split; assumption. }
  { intros y Hy. destruct (Hall y Hy) as (Hyreg & Hyobj).
    split; [rewrite P2; exact Hyreg|].
    rewrite P4; [exact Hyobj|]. intros ->. contradiction. }
  assert (Hf : forall {A} (g h : A -> string -> A) (acc : A),
             fold_left (fun acc y => if here c0 path y then g acc y else h acc y)
               (idlePlayers c) acc
             = fold_left (fun acc y => if here c path y then g acc y else h acc y)
                 (idlePlayers c) acc).
  { intros A g h. revert Hself. generalize (idlePlayers c). intros l Hl.
    induction l as [|y l IHl]; intros acc; [reflexivity|].
    cbn [fold_left]. rewrite Hhere by (intros ->; apply Hl; left; reflexivity).
    apply IHl. intros H. apply Hl. right. exact H. }
  exists c'. split; [exact Hrun|].
  split; [congruence|]. split; [congruence|].
  split; [|split].
  - rewrite S3, P3.
    rewrite (Hf _ (fun acc y => delete y acc) (fun acc _ => acc)).
    rewrite fold_delete. apply List.filter_ext_in. intros z Hz.
    rewrite (proj2 (has_In z _) Hz). reflexivity.
  - intros y. rewrite (field_of _ _ _ _ S4). cbn [Session.players Session.set_players].
    rewrite (Hf _ (fun acc y => add y acc) (fun acc _ => acc)).
    rewrite has_fold_add. reflexivity.
  - intros id Hid. rewrite (S5 id Hid), (P4 id Hid), (Hhere id Hid). reflexivity.
Qed.

Lemma publish_wakes_idle_players_witness :
  exists c',
    onPublish "P" (JString "cam") true beforePublish = (Ok tt, c')
    /\ sessions c' = sessions beforePublish
    /\ publishers c' = <["/app/cam"%string := "P"%string]> (publishers beforePublish)
    /\ idlePlayers c'
       = List.filter (fun y => negb (here beforePublish "/app/cam" y))
           (idlePlayers beforePublish)
    /\ (forall y, field (fun q => has y (Session.players q)) c' "P"
                  = Some (has y (Session.players (receiving "P" 1))
                          || (has y (idlePlayers beforePublish)
                              && here beforePublish "/app/cam" y)))
    /\ (forall id, id <> "P"%string ->
          objects c' !! id
          = (fun py => if has id (idlePlayers beforePublish)
                          && here beforePublish "/app/cam" id
                       then started py else py) <$> objects beforePublish !! id).
Proof.
  assert (E : idlePlayers beforePublish = ["R"%string]) by (vm_compute; reflexivity).
  pose proof (publish_wakes_idle_players beforePublish "P" "cam" (receiving "P" 1)
                (RtmpPacket.mk (Header.mk 0 3 0 0 20 1) 0 0 (Some []) 0 0) true) as T.
  cbv zeta in T. apply T.
  - vm_compute. reflexivity.
  - vm_compute. reflexivity.
  - reflexivity.
  - reflexivity.
  - cbn. lia.
  - cbn. lia.
  - reflexivity.
  - vm_compute. reflexivity.
  - reflexivity.
  - vm_compute. reflexivity.
  - repeat split; cbn; discriminate.
  - rewrite E. apply NoDup_singleton.
  - rewrite E. intros [H|[]]. discriminate H.
  - rewrite E. intros y [<-|[]]. split; [vm_compute; reflexivity|].
    vm_compute. eexists. reflexivity.
Defined.

(** In this scenario [R] was idle for the path and is woken up. *)
Example waiting_player_is_woken :
  here beforePublish "/app/cam" "R" = true
  /\ idlePlayers (exec (onPublish "P" (JString "cam") true) beforePublish) = []
  /\ field Session.isPlaying
       (exec (onPublish "P" (JString "cam") true) beforePublish) "R" = Some true
  /\ field Session.players
       (exec (onPublish "P" (JString "cam") true) beforePublish) "P"
     = Some ["R"%string].
Proof. vm_compute. repeat split; reflexivity. Qed.

End WakeUp.

(** ** The metadata of a stream *)

Module DataFacts.
Import Broker NodeRtmpSession DataMessages BrokerFacts SendFacts Scenario
       PlayFacts Frame StopFacts ForwardFacts MediaFacts.

(** The [onMetaData] message the server keeps for a [dataObj]. *)
Definition metaOf (v : jsval) : Buffer :=
  Amf0Facts.encoding (JString "onMetaData") ++ Amf0Facts.encoding v.

Lemma metadata_encoded (v : jsval) :
  Amf0Facts.roundtrips v = true ->
  Amf0.encodeAmf0Data [ ("cmd", JString "onMetaData"); ("dataObj", v) ]%string
  = Ok (metaOf v).
Proof.
  intros Hv. unfold Amf0.encodeAmf0Data, Amf0.encodeWith. cbv zeta.
  change (Amf0.prop_or_undefined _ "cmd") with (JString "onMetaData").
  change (Amf0.amf0EncodeOne (JString "onMetaData"))
    with (Ok (Amf0Facts.encoding (JString "onMetaData")) : result Buffer).
  change (Amf0.schema Amf0.rtmpDataCode (JString "onMetaData"))
    with (Ok (Some ["dataObj"%string]) : result (option (list string))).
  cbn [mbind result_bind Js.bind Amf0.encodeFields].
  change (get_prop _ "dataObj") with (Some v). cbv iota beta.
  rewrite (Amf0Facts.amf0EncodeOne_ok v Hv). reflexivity.
Qed.

(** The forwarding loop changes sockets and the GOP queue only. *)
Lemma broadcast_same {A} (f : Session.t -> A) this cached receives players :
  (forall s w, f (Session.set_socket w s) = f s) ->
  (forall s q, f (Session.set_rtmpGopCacheQueue q s) = f s) ->
  forall b, preserves (same f) (broadcast this cached receives b players).
Proof.
  intros Hw Hq. induction players as [|y l IH]; intros b; cbn [broadcast];
    [apply preserves_ret; apply _|].
  apply preserves_bind; [apply _ | apply preserves_sessions_get; apply _ | intros [ps|]];
    [|apply IH].
  destruct (_ && _); [|apply IH].
  apply preserves_bind; [apply _ | apply preserves_lift; apply _ | intros b1].
  apply preserves_bind; [apply _ | | intros _].
  { apply preserves_when; [apply _|]. unfold storeLast. apply preserves_update.
    intros c. apply same_alter. intros s0. apply Hq. }
  apply preserves_bind; [apply _ | | intros _; apply IH].
  unfold socket_write. apply preserves_update. intros c. apply same_alter.
  intros s0. apply Hw.
Qed.

(** X26: a [@setDataFrame] data message (as [encodeAMF0Data] writes
    it, with a method name and a [dataObj] of the round-trip domain):
    [rtmpDataHandler] stores as [metaData] the encoding of [onMetaData]
    followed by that of [dataObj], whatever the method name, and writes
    the chunks of this message (channel 6, type 18, timestamp 0, the
    play stream id of the receiver) to every session of [players] that
    is registered, starting, playing and not paused; no other socket is
    written, and the registries are as before. *)
Theorem set_data_frame (c : context) (this : string) (s : Session.t)
    (pp : RtmpPacket.t) (pl e : Buffer) (method : string) (v : jsval)
    (fuel : nat) :
  let C := Session.outChunkSize s in
  objects c !! this = Some s ->
  Session.parserPacket s = Some pp ->
  Header.type (RtmpPacket.header pp) <> RTMP_TYPE_FLEX_STREAM ->
  RtmpPacket.payload pp = Some pl ->
  Amf0.encodeAmf0Data [ ("cmd", JString "@setDataFrame");
                        ("method", JString method); ("dataObj", v) ]%string = Ok e ->
  slice pl 0 (Header.length (RtmpPacket.header pp)) = e ->
  Amf0Facts.roundtrips (JString method) = true ->
  Amf0Facts.roundtrips v = true ->
  (length e <= fuel)%nat ->
  blen (metaOf v) < 16777216 ->
  1 <= C ->
  NoDup (Session.players s) ->
  (forall id sid, In id (Session.players s) ->
                  field Session.playStreamId c id = Some sid ->
                  0 <= sid < 4294967296) ->
  exists c',
    rtmpDataHandler fuel this c = Some (Ok tt, c')
    /\ sessions c' = sessions c
    /\ publishers c' = publishers c
    /\ idlePlayers c' = idlePlayers c
    /\ field Session.metaData c' this = Some (Some (metaOf v))
    /\ forall id,
         field Session.socket c' id
         = forwarded (fun _ => true) (Session.players s) c
             (fun sid => chunksOf C RTMP_CHANNEL_DATA RTMP_TYPE_DATA sid 0 (metaOf v))
             id.
Proof.
  intros C Hs Hpp Hty Hpl He Hslice Hm Hv Hfuel HL HC Hnd Hsid.
  set (m := [ ("cmd", JString "@setDataFrame");
              ("method", JString method); ("dataObj", v) ]%string) in *.
  assert (Hdec : Amf0.decodeAmf0Data fuel e = Some (Ok m)).
  { destruct (Amf0Facts.message_roundtrip Amf0.rtmpDataCode m Amf0Facts.rtmpDataCode_ok)
      as (e' & He' & Hd).
    - unfold m. cbn [Amf0Facts.follows].
      change (String.eqb "cmd" "cmd") with true.
      change (Amf0Facts.roundtrips (JString "@setDataFrame")) with true.
      change (Amf0.assoc Amf0.rtmpDataCode "@setDataFrame")
        with (Some ["method"; "dataObj"]%string).
      cbn [map fst forallb snd andb].
      change (Amf0Facts.prefix_of ["method"; "dataObj"]%string
                ["method"; "dataObj"]%string) with true.
      cbn [andb]. rewrite Hm, Hv. reflexivity.
    - unfold Amf0.encodeAmf0Data in He. rewrite He in He'. injection He' as <-.
      apply Hd. exact Hfuel. }
  assert (HL1 : 1 <= blen (metaOf v)).
  { unfold metaOf. rewrite BufferFacts.blen_app.
    pose proof (BufferFacts.blen_nonneg (Amf0Facts.encoding v)).
    change (blen (Amf0Facts.encoding (JString "onMetaData"))) with 13. lia. }
  set (meta := metaOf v) in *.
  set (c1 := set_objects (alter (Session.set_metaData (Some meta)) this (objects c)) c).
  set (s1 := Session.set_metaData (Some meta) s).
  assert (Hs1 : objects c1 !! this = Some s1)
    by (unfold c1; cbn [objects set_objects]; rewrite lookup_alter_eq, Hs; reflexivity).
  assert (S1 : same receiver c c1)
    by (unfold c1; apply same_alter; reflexivity).
  destruct (chunksOf_ok C RTMP_CHANNEL_DATA RTMP_TYPE_DATA 0 0 meta)
    as (packet & Hmsg & Hc); try assumption;
    [unfold RTMP_CHANNEL_DATA; lia | unfold RTMP_TYPE_DATA; lia | lia | lia | lia |].
  set (chunks := chunksOf C RTMP_CHANNEL_DATA RTMP_TYPE_DATA 0 0 meta) in *.
  destruct (stamp_chunksOf C RTMP_CHANNEL_DATA RTMP_TYPE_DATA 0 0 meta)
    as [_ Hb]; try assumption;
    [unfold RTMP_CHANNEL_DATA; lia | unfold RTMP_TYPE_DATA; lia | lia | lia | lia |].
  fold chunks in Hb.
  destruct (broadcast_run this false (fun _ => true)
              ltac:(reflexivity) (Session.players s) Hnd chunks c1 Hb)
    as (c' & Hrun & T1 & T2 & T3 & T4).
  { intros id sid Hin Hf. apply (Hsid id); [exact Hin|].
    rewrite <- Hf. symmetry.
    apply (field_through receiver (fun r => r.1.1.2) _ c c1 id); [reflexivity | exact S1]. }
  exists c'. split.
  - unfold rtmpDataHandler.
    assert (Hpay : dataPayload this c = (Ok e, c)).
    { unfold dataPayload. rewrite (bind_ok _ _ _ _ _ (object_run _ _ _ Hs)).
      rewrite Hpp, Hpl.
      destruct (Z.eqb_spec (Header.type (RtmpPacket.header pp)) RTMP_TYPE_FLEX_STREAM);
        [contradiction|].
      rewrite Hslice. reflexivity. }
    rewrite Hpay, Hdec. f_equal.
    unfold onDataMessage, m. cbn [get_prop String.eqb Ascii.eqb Bool.eqb].
    change (Amf0.prop_or_undefined _ "dataObj") with v.
    rewrite (bind_ok (lift _) _ c meta c)
      by (unfold lift; rewrite (metadata_encoded v Hv); reflexivity).
    rewrite bind_run, update_run. fold c1.
    rewrite (bind_ok (lift _) _ c1 packet c1) by (unfold lift; rewrite Hmsg; reflexivity).
    rewrite (bind_ok _ _ _ _ _ (chunksCreate_run this c1 s1 packet chunks Hs1 Hc)).
    rewrite (bind_ok _ _ _ _ _ (object_run _ _ _ Hs1)).
    exact Hrun.
  - split; [exact T1|]. split; [exact T2|]. split; [exact T3|]. split.
    + pose proof (broadcast_same Session.metaData this false (fun _ => true)
                    (Session.players s) ltac:(reflexivity) ltac:(reflexivity)
                    chunks c1 this) as E. rewrite Hrun in E. cbn [snd] in E.
      rewrite E, (field_of _ _ _ _ Hs1). reflexivity.
    + intros id. rewrite T4.
      change (sessions c1) with (sessions c).
      rewrite (field_through receiver
                 (fun r => if has id (Session.players s) && has id (sessions c)
                              && (r.1.1.1.1.2.1.1 && r.1.1.1.1.2.1.2
                                  && negb r.1.1.1.1.2.2 && true)
                           then r.1.1.1.1.1 ++ [stamp r.1.1.2 chunks]
                           else r.1.1.1.1.1) _ c c1 id);
        [|reflexivity | exact S1].
      unfold field, forwarded. destruct (objects c !! id) as [ps|] eqn:Hps; [|reflexivity].
      cbn [fmap option_fmap option_map]. f_equal. unfold deliver.
      destruct (has id (Session.players s)) eqn:Hin; [|reflexivity].
      destruct (has id (sessions c)); [|reflexivity].
      destruct (eligible (fun _ => true) ps); [|reflexivity].
      cbn [andb]. f_equal. f_equal.
      apply stamp_chunksOf; try assumption;
        [unfold RTMP_CHANNEL_DATA; lia | unfold RTMP_TYPE_DATA; lia | | lia | lia].
      apply (Hsid id); [apply has_In; exact Hin|].
      rewrite (field_of _ _ _ _ Hps). reflexivity.
Qed.

Definition videoInfo : jsval :=
  JObject [ ("width", JNumber 4653344160763904000);
            ("encoder", JString "obs") ]%string.

Definition frameBytes : Buffer :=
  Amf0Facts.encoding (JString "@setDataFrame")
  ++ Amf0Facts.encoding (JString "onMetaData") ++ Amf0Facts.encoding videoInfo.

(** [Q] plays [/app/cam]; the data frame has arrived at [P]. *)
Definition described : context :=
  exec (receive "P" 1 0 frameBytes) PauseCases.playing.

Definition describedPublisher : Session.t :=
  default (client "P" false) (objects described !! "P"%string).

Lemma set_data_frame_witness :
  exists c',
    rtmpDataHandler 64 "P" described = Some (Ok tt, c')
    /\ sessions c' = sessions described
    /\ publishers c' = publishers described
    /\ idlePlayers c' = idlePlayers described
    /\ field Session.metaData c' "P" = Some (Some (metaOf videoInfo))
    /\ forall id,
         field Session.socket c' id
         = forwarded (fun _ => true) ["Q"%string] described
             (fun sid => chunksOf 128 RTMP_CHANNEL_DATA RTMP_TYPE_DATA sid 0
                           (metaOf videoInfo)) id.
Proof.
  assert (H1 : objects described !! "P"%string = Some describedPublisher)
    by (vm_compute; reflexivity).
  assert (H2 : Session.parserPacket describedPublisher
               = Some (RtmpPacket.mk (Header.mk 0 3 0 (blen frameBytes) 20 1) 0 0
                         (Some frameBytes) (blen frameBytes) (blen frameBytes)))
    by (vm_compute; reflexivity).
  assert (H3 : Session.players describedPublisher = ["Q"%string])
    by (vm_compute; reflexivity).
  assert (H4 : Session.outChunkSize describedPublisher = 128)
    by (vm_compute; reflexivity).
  assert (H5 : field Session.playStreamId described "Q" = Some 1)
    by (vm_compute; reflexivity).
  pose proof (set_data_frame described "P" describedPublisher _ frameBytes frameBytes
                "onMetaData" videoInfo 64 H1 H2) as T.
  cbv zeta in T. rewrite H3, H4 in T. apply T.
  - vm_compute. discriminate.
  - reflexivity.
  - vm_compute. reflexivity.
  - vm_compute. reflexivity.
  - reflexivity.
  - reflexivity.
  - vm_compute. lia.
  - vm_compute. reflexivity.
  - lia.
  - apply NoDup_singleton.
  - intros id sid [<-|[]]. rewrite H5. intros [= <-]. lia.
Defined.

End DataFacts.

(** ** Publishing, unpublishing and publishing again *)

Module PublishCycle.
Import Broker NodeRtmpSession BrokerFacts SendFacts PublishFacts Scenario
       PlayFacts Frame StopFacts PlayRequest PublishRequest Unpublish.




End PublishCycle.

(** ** The end of a play stream that was waiting, or never started *)

Module IdleStream.
Import Broker NodeRtmpSession BrokerFacts SendFacts PublishFacts Scenario
       PlayFacts Frame StopFacts PlayRequest ForwardFacts DeleteStream WakeUp.

(** X28: [deleteStream] for the play stream of a session that does not
    idle, when [publishers] has no entry for its play path, raises a
    TypeError and changes nothing: [publishers.get] answers
    [undefined], which passes the test [publisherId !== null].  A
    session that never asked to play is in this state for the stream
    id 0 and the empty path. *)
Theorem delete_stream_without_publisher (c : context) (this : string)
    (s : Session.t) :
  objects c !! this = Some s ->
  Session.isIdling s = false ->
  publishers c !! Session.playStreamPath s = None ->
  onDeleteStream this (Some (Session.playStreamId s)) c = (Throw TypeError, c).
Proof.
  intros Hs Hidle Hfree. unfold onDeleteStream.
  rewrite (bind_ok _ _ _ _ _ (object_run _ _ _ Hs)).
  cbn [same_id]. rewrite Z.eqb_refl. cbn [when]. rewrite Hidle.
  rewrite bind_run, bind_run, bind_run. unfold read at 1. rewrite Hfree.
  reflexivity.
Qed.

(** A client that has connected and done nothing else. *)
Definition connected : context := exec (register (client "N" false)) empty.

Lemma delete_stream_without_publisher_witness :
  onDeleteStream "N" (Some 0) connected = (Throw TypeError, connected).
Proof.
  apply (delete_stream_without_publisher connected "N" (client "N" false)).
  - vm_compute. reflexivity.
  - reflexivity.
  - vm_compute. reflexivity.
Defined.







End IdleStream.
